(** * RepoAgent: summary indexing and confidence-gated routing

    A shallow embedding of the parts of [code_indexer.py], [summary.py] and
    [mcp_server.py] that the specification's testable properties talk about,
    with the properties stated and settled against that embedding.

    Conventions of the embedding:
    - Python [str] is [string] (a list of 8-bit characters); [str.lower] is
      the ASCII lowering, [len] is [String.length].
    - Python [int] is [Z]; [//] by a positive constant is [Z.div].
    - Python [float] scores are exact rationals ([Q]).
    - [dict] and the Chroma collection are [gmap]s, [set] is [gset].
    - Code that can raise returns [result], whose left side is the exception. *)

From Stdlib Require Import ZArith QArith Qminmax Lia Lqa.
From Stdlib Require Import Strings.String Strings.Ascii.
From Stdlib Require Import Numbers.DecimalString DecimalZ DecimalPos.
From stdpp Require Import gmap strings list fin_maps.

Local Open Scope string_scope.
Local Open Scope list_scope.

(** ** Python's string operations *)

Module PyStr.

(** [c.lower()] for one ASCII character. *)
Definition lower_ascii (c : ascii) : ascii :=
  let n := nat_of_ascii c in
  if (65 <=? n)%nat && (n <=? 90)%nat then ascii_of_nat (n + 32) else c.

(** [s.lower()] *)
Fixpoint lower (s : string) : string :=
  match s with
  | EmptyString => EmptyString
  | String c s' => String (lower_ascii c) (lower s')
  end.

(** [s.startswith(p)] *)
Fixpoint startswith (p s : string) : bool :=
  match p, s with
  | EmptyString, _ => true
  | String a p', String b s' => Ascii.eqb a b && startswith p' s'
  | String _ _, EmptyString => false
  end.

(** [sub in s] *)
Fixpoint contains (sub s : string) : bool :=
  startswith sub s ||
  match s with
  | EmptyString => false
  | String _ s' => contains sub s'
  end.

(** [s.split(c)] for a one-character separator: never the empty list. *)
Fixpoint split_char (c : ascii) (s : string) : list string :=
  match s with
  | EmptyString => [EmptyString]
  | String a s' =>
      if Ascii.eqb a c then EmptyString :: split_char c s'
      else match split_char c s' with
           | [] => [String a EmptyString]
           | w :: ws => String a w :: ws
           end
  end.

(** The characters [str.split()] treats as separators. *)
Definition is_whitespace (c : ascii) : bool :=
  let n := nat_of_ascii c in
  ((9 <=? n)%nat && (n <=? 13)%nat) || ((28 <=? n)%nat && (n <=? 32)%nat).

(** [s.split()] with [cur] the word being read, in reverse. *)
Fixpoint split_ws_aux (cur : string) (s : string) : list string :=
  match s with
  | EmptyString =>
      match cur with EmptyString => [] | _ => [String.rev cur] end
  | String a s' =>
      if is_whitespace a then
        match cur with
        | EmptyString => split_ws_aux EmptyString s'
        | _ => String.rev cur :: split_ws_aux EmptyString s'
        end
      else split_ws_aux (String a cur) s'
  end.

Definition split_ws (s : string) : list string := split_ws_aux EmptyString s.

(** [s.rfind(c)], with [None] for Python's [-1]. *)
Fixpoint rfind (c : ascii) (s : string) : option nat :=
  match s with
  | EmptyString => None
  | String a s' =>
      match rfind c s' with
      | Some i => Some (S i)
      | None => if Ascii.eqb a c then Some 0%nat else None
      end
  end.

(** [s[i:]] *)
Fixpoint slice_from (i : nat) (s : string) : string :=
  match i, s with
  | O, _ => s
  | S i', String _ s' => slice_from i' s'
  | S _, EmptyString => EmptyString
  end.

(** [s[:n]] *)
Fixpoint slice_to (n : nat) (s : string) : string :=
  match n, s with
  | O, _ => EmptyString
  | S n', String a s' => String a (slice_to n' s')
  | S _, EmptyString => EmptyString
  end.

(** [str(z)] for an [int]. *)
Definition str_of_int (z : Z) : string := NilZero.string_of_int (Z.to_int z).

(** [len(s)] as a Python [int]. *)
Definition len (s : string) : Z := Z.of_nat (String.length s).

(** [s.lstrip()], [s.rstrip()] and [s.strip()] *)
Fixpoint lstrip (s : string) : string :=
  match s with
  | EmptyString => EmptyString
  | String a s' => if is_whitespace a then lstrip s' else s
  end.

Definition rstrip (s : string) : string := String.rev (lstrip (String.rev s)).

Definition strip (s : string) : string := rstrip (lstrip s).

Definition is_upper (c : ascii) : bool :=
  let n := nat_of_ascii c in (65 <=? n)%nat && (n <=? 90)%nat.

Definition is_lower (c : ascii) : bool :=
  let n := nat_of_ascii c in (97 <=? n)%nat && (n <=? 122)%nat.

Definition upper_ascii (c : ascii) : ascii :=
  if is_lower c then ascii_of_nat (nat_of_ascii c - 32) else c.

(** [s.title()]: a letter that follows a letter is lowered, any other
    letter is raised. *)
Fixpoint title_aux (after_letter : bool) (s : string) : string :=
  match s with
  | EmptyString => EmptyString
  | String c s' =>
      let letter := is_upper c || is_lower c in
      String (if letter
              then (if after_letter then lower_ascii c else upper_ascii c)
              else c)
             (title_aux letter s')
  end.

Definition title (s : string) : string := title_aux false s.

(** [s.endswith(p)] *)
Definition endswith (p s : string) : bool :=
  startswith (String.rev p) (String.rev s).

(** [sep.join(l)] *)
Definition join (sep : string) (l : list string) : string :=
  String.concat sep l.

(** [s.split(c, 1)[1]] when [c] occurs in [s]: the text after its first
    occurrence. *)
Fixpoint after_first (c : ascii) (s : string) : string :=
  match s with
  | EmptyString => EmptyString
  | String a s' => if Ascii.eqb a c then s' else after_first c s'
  end.

(** The text before the first occurrence of [c], all of [s] when there is
    none. *)
Fixpoint before_first (c : ascii) (s : string) : string :=
  match s with
  | EmptyString => EmptyString
  | String a s' => if Ascii.eqb a c then EmptyString
                   else String a (before_first c s')
  end.

(** [s.lstrip(c)] for a one-character argument. *)
Fixpoint lstrip_char (c : ascii) (s : string) : string :=
  match s with
  | EmptyString => EmptyString
  | String a s' => if Ascii.eqb a c then lstrip_char c s' else s
  end.

(** The number of occurrences of a character. *)
Fixpoint count_char (c : ascii) (s : string) : nat :=
  match s with
  | EmptyString => 0
  | String a s' => (if Ascii.eqb a c then 1 else 0) + count_char c s'
  end.

End PyStr.

(** ** [pathlib.PurePosixPath]: [parts], [name] and [suffix] *)

Module PathLib.

(** The components of a path: empty components and ["."] are dropped
    (the root ["/"] is not a name and is left out). *)
Definition parts (p : string) : list string :=
  List.filter (fun c => negb (String.eqb c "") && negb (String.eqb c "."))
              (PyStr.split_char "/" p).

(** [Path(p).name]: the final component, [""] when there is none. *)
Definition name (p : string) : string := List.last (parts p) "".

(** [Path(p).suffix]: from the last dot of the name onwards, when that dot
    is neither the first nor the last character of the name. *)
Definition suffix (p : string) : string :=
  let n := name p in
  match PyStr.rfind "." n with
  | Some i =>
      if (0 <? i)%nat && (i <? String.length n - 1)%nat
      then PyStr.slice_from i n else ""
  | None => ""
  end.

End PathLib.

(** ** Results of code that can raise *)

Inductive pyexn : Type :=
| KeyError (key : string)
| AttributeError (msg : string)
| TypeError (msg : string)
| ValueError (msg : string)
| ZeroDivisionError
| TimeoutError
| Exception (msg : string).

(** [str(e)] *)
Definition exn_str (e : pyexn) : string :=
  match e with
  | KeyError key => "'" +:+ key +:+ "'"
  | AttributeError msg | TypeError msg | ValueError msg | Exception msg => msg
  | ZeroDivisionError => "division by zero"
  | TimeoutError => ""
  end.

Inductive result (A : Type) : Type :=
| Raise (e : pyexn)
| Return (a : A).
Arguments Raise {A} e.
Arguments Return {A} a.

Definition bind {A B : Type} (r : result A) (k : A -> result B) : result B :=
  match r with
  | Raise e => Raise e
  | Return a => k a
  end.

Notation "'do' x <- r ; k" := (bind r (fun x => k))
  (at level 10, x name, r at level 100, k at level 200).

(** [x in [a, b, ...]] for a list of strings. *)
Definition in_list (x : string) (l : list string) : bool :=
  List.existsb (String.eqb x) l.

(** ** [FileSummary] (code_indexer.py) *)

Module FileSummary.

Record t : Type := mk {
  file_path : string;
  content : string;
  language : string;
  line_count : Z;
  ai_summary : string;
  purpose : string;
  file_type : string;
  complexity_score : Z;
  ai_generated : bool
}.

(** [os.path.splitext(p)[1]]: the extension of the last component, where
    dots that start the component do not count. *)
Fixpoint only_dots (s : string) : bool :=
  match s with
  | EmptyString => true
  | String c s' => Ascii.eqb c "." && only_dots s'
  end.

Definition splitext_ext (p : string) : string :=
  let base := List.last (PyStr.split_char "/" p) "" in
  match PyStr.rfind "." base with
  | Some i => if only_dots (PyStr.slice_to i base) then ""
              else PyStr.slice_from i base
  | None => ""
  end.

Definition language_map : gmap string string :=
  list_to_map
    [ (".py", "python"); (".js", "javascript"); (".ts", "typescript");
      (".html", "html"); (".css", "css"); (".java", "java"); (".c", "c");
      (".cpp", "cpp"); (".h", "c"); (".hpp", "cpp"); (".rb", "ruby");
      (".go", "go"); (".rs", "rust"); (".php", "php"); (".sh", "bash");
      (".json", "json"); (".md", "markdown"); (".yml", "yaml");
      (".yaml", "yaml"); (".xml", "xml"); (".txt", "text"); (".sql", "sql");
      (".dockerfile", "docker"); (".makefile", "make"); (".cmake", "cmake");
      (".toml", "toml"); (".ini", "ini"); (".cfg", "config") ].

(** [_detect_language] *)
Definition _detect_language (path : string) : string :=
  default "text" (language_map !! PyStr.lower (splitext_ext path)).

(** [len(content.split('\n'))] *)
Definition count_lines (content : string) : Z :=
  Z.of_nat (List.length (PyStr.split_char "010" content)).

(** The languages that are classified as configuration by name alone. *)
Definition config_languages : list string :=
  ["json"; "yaml"; "xml"; "toml"; "ini"; "cfg"].

(** The [if]/[elif] chain of [_extract_metadata_from_summary] that sets
    [file_type], in the order of the source. *)
Definition classify (language summary : string) : string :=
  let summary_lower := PyStr.lower summary in
  if in_list language config_languages then "configuration"
  else if String.eqb language "markdown" then "documentation"
  else if PyStr.contains "class" summary_lower
          && PyStr.contains "function" summary_lower then "mixed_code"
  else if PyStr.contains "class" summary_lower then "class_based"
  else if PyStr.contains "function" summary_lower then "functional"
  else if String.eqb language "sql" then "database"
  else if String.eqb language "docker" then "container"
  else "script".

Definition complexity_indicators : list (string * Z) :=
  [ ("multiple classes", 5); ("inheritance", 3); ("design pattern", 4);
    ("algorithm", 3); ("database", 2); ("api", 2); ("authentication", 3);
    ("configuration", 1); ("complex logic", 4); ("state management", 3);
    ("async", 2); ("threading", 4); ("security", 2); ("performance", 2) ]%Z.

(** The body of [_calculate_ai_complexity]: the value it stores in
    [complexity_score]. The [for] loop adds to [base_score] in place. *)
Definition ai_complexity (line_count : Z) (summary : string) : Z :=
  let summary_lower := PyStr.lower summary in
  let base_score := Z.min (line_count / 25) 15 in
  let base_score :=
    List.fold_left
      (fun (acc : Z) '(indicator, score) =>
         if PyStr.contains indicator summary_lower then (acc + score)%Z
         else acc)
      complexity_indicators base_score in
  Z.min base_score 25.

Definition _calculate_ai_complexity (self : t) : t :=
  mk self.(file_path) self.(content) self.(language) self.(line_count)
     self.(ai_summary) self.(purpose) self.(file_type)
     (ai_complexity self.(line_count) self.(ai_summary))
     self.(ai_generated).

(** The purpose line: [ai_summary.split('.')] is never empty, so the
    first branch of the source is the one taken. *)
Definition first_sentence (summary : string) : string :=
  match PyStr.split_char "." summary with
  | s0 :: _ => PyStr.strip s0 +:+ "."
  | [] =>
      if (100 <? String.length summary)%nat
      then PyStr.slice_to 100 summary +:+ "..." else summary
  end.

(** [_extract_metadata_from_summary] *)
Definition _extract_metadata_from_summary (self : t) : t :=
  _calculate_ai_complexity
    (mk self.(file_path) self.(content) self.(language) self.(line_count)
        self.(ai_summary)
        (first_sentence self.(ai_summary))
        (classify self.(language) self.(ai_summary))
        self.(complexity_score) self.(ai_generated)).

Definition set_ai_summary (self : t) (text : string) : t :=
  mk self.(file_path) self.(content) self.(language) self.(line_count)
     text self.(purpose) self.(file_type) self.(complexity_score)
     self.(ai_generated).

(** The text [_fallback_basic_analysis] stores in [ai_summary]. *)
Definition fallback_text (language content : string) (line_count : Z)
  : string :=
  let head := "Basic analysis: " +:+ PyStr.title language +:+ " file with "
              +:+ PyStr.str_of_int line_count +:+ " lines. " in
  if in_list language ["json"; "yaml"; "toml"] then
    head +:+ "Configuration file - requires manual review for detailed analysis."
  else if String.eqb language "markdown" then
    let lines :=
      List.filter (fun l => negb (String.eqb l ""))
        (List.map PyStr.strip (take 10 (PyStr.split_char "010" content))) in
    match lines with
    | [] => head
    | _ => head +:+ "Documentation starting with: "
           +:+ PyStr.slice_to 100 (PyStr.join " " (take 3 lines)) +:+ "..."
    end
  else if in_list language ["python"; "javascript"; "java"] then
    head +:+ "Code file - basic structure analysis available but AI summary recommended."
  else
    head +:+ "Text-based file - content analysis requires manual review.".

Definition _fallback_basic_analysis (self : t) : t :=
  set_ai_summary self
    (fallback_text self.(language) self.(content) self.(line_count)).

(** The completion service seen from [_generate_ai_summary]: the prompt is
    a fixed template filled with the language, the line count and the
    (possibly truncated) content; the call returns text or raises. *)
Definition client : Type := string -> Z -> string -> result string.

(** [_generate_ai_summary] *)
Definition _generate_ai_summary (openai_client : option client) (self : t)
  : t :=
  match openai_client with
  | None => _fallback_basic_analysis self
  | Some complete =>
      let long := (12000 <? PyStr.len self.(content))%Z in
      let content_preview :=
        if long then PyStr.slice_to (Z.to_nat 12000) self.(content)
        else self.(content) in
      let truncated_notice :=
        if long then "..." +:+ String "010" "[Content truncated for analysis]"
        else "" in
      match complete self.(language) self.(line_count)
              (content_preview +:+ truncated_notice) with
      | Return text => set_ai_summary self (PyStr.strip text)
      | Raise _ => _fallback_basic_analysis self
      end
  end.

(** [FileSummary(file_path, content, language, openai_client)] *)
Definition init (path content : string) (lang : option string)
  (openai_client : option client) : t :=
  let language :=
    match lang with
    | Some l => if String.eqb l "" then _detect_language path else l
    | None => _detect_language path
    end in
  let self := mk path content language (count_lines content)
                 "" "" "unknown" 0 false in
  _extract_metadata_from_summary (_generate_ai_summary openai_client self).

(** [FileSummary.create_basic_summary(file_path, content)] *)
Definition create_basic_summary (path content : string) : t :=
  let self := mk path content (_detect_language path) (count_lines content)
                 "" "" "unknown" 0 false in
  _extract_metadata_from_summary (_fallback_basic_analysis self).

(** [to_summary_text] *)
Definition to_summary_text (self : t) : string := self.(ai_summary).

(** *** The specification's reading of the post-processing *)

(** The sum of the bonuses of the indicator phrases found in a text. *)
Definition indicator_bonus (summary_lower : string) : Z :=
  foldr Z.add 0%Z
    (List.map snd
       (List.filter (fun ind => PyStr.contains ind.1 summary_lower)
                    complexity_indicators)).

(** The complexity formula as the specification words it:
    [min(base + sum of bonuses, 25)] with base [min(line_count / 25, 15)]. *)
Definition spec_complexity (line_count : Z) (summary : string) : Z :=
  Z.min (Z.min (line_count / 25) 15 + indicator_bonus (PyStr.lower summary)) 25.

(** The languages the specification says decide the file type on their
    own, with the type they give. *)
Definition claimed_override (language : string) : option string :=
  if in_list language config_languages then Some "configuration"
  else if String.eqb language "markdown" then Some "documentation"
  else if String.eqb language "sql" then Some "database"
  else if String.eqb language "docker" then Some "container"
  else None.

(** The classification rule as the specification words it: those four
    kinds of language override, otherwise both markers give [mixed_code]
    and [class] alone gives [class_based]. *)
Definition claimed_classification : Prop :=
  forall language summary,
    match claimed_override language with
    | Some file_type => classify language summary = file_type
    | None =>
        (PyStr.contains "class" (PyStr.lower summary) = true ->
         PyStr.contains "function" (PyStr.lower summary) = true ->
         classify language summary = "mixed_code")
        /\ (PyStr.contains "class" (PyStr.lower summary) = true ->
            PyStr.contains "function" (PyStr.lower summary) = false ->
            classify language summary = "class_based")
    end.

End FileSummary.

(** ** The Chroma collection

    The vector database is an external service; the model keeps what the
    indexer relies on: records are keyed by id, [add] of an id that is
    already present leaves the stored record as it is, [delete] removes the
    given ids, [get] lists records, optionally filtered on a metadata field. *)

Module Chroma.

Record metadata : Type := mk_metadata {
  md_file_path : string;
  md_language : string;
  md_file_type : string;
  md_line_count : Z;
  md_complexity_score : Z;
  md_purpose : string
}.

Record record : Type := mk_record {
  document : string;
  meta : metadata
}.

Abbreviation collection := (gmap string record).

(** [collection.get()['ids']] *)
Definition ids (c : collection) : list string := (map_to_list c).*1.

(** [collection.get(where={"file_path": p})['ids']] *)
Definition ids_where_file_path (p : string) (c : collection) : list string :=
  (map_to_list (filter (fun kv => md_file_path (meta kv.2) = p) c)).*1.

(** [collection.delete(ids=l)] *)
Definition delete (l : list string) (c : collection) : collection :=
  foldr base.delete c l.

(** [collection.add(ids, documents, metadatas)], one entry per id. *)
Definition add (entries : list (string * record)) (c : collection)
  : collection :=
  foldl (fun acc e => match acc !! e.1 with
                      | Some _ => acc
                      | None => <[e.1 := e.2]> acc
                      end) c entries.

(** [collection.count()] *)
Definition count (c : collection) : nat := size c.

(** The records whose metadata names the path [p]. *)
Definition records_of_path (p : string) (c : collection) : collection :=
  filter (fun kv => md_file_path (meta kv.2) = p) c.

(** What the forced re-indexing of a path does first: the records of the
    path are looked up and, when there are any, deleted. *)
Definition remove_path (p : string) (c : collection) : collection :=
  match ids_where_file_path p c with
  | [] => c
  | existing => delete existing c
  end.

End Chroma.

(** ** Python values stored in the dictionaries handed between components *)

Inductive pyval : Type :=
| PStr (s : string)
| PInt (z : Z).

(** [f"{v}"] *)
Definition format_val (v : pyval) : string :=
  match v with
  | PStr s => s
  | PInt z => PyStr.str_of_int z
  end.

(** [f"{v:.2f}"]: an [int] prints with two zero decimals, a [str] has no
    such format. *)
Definition format_2f (v : pyval) : result string :=
  match v with
  | PInt z => Return (PyStr.str_of_int z +:+ ".00")
  | PStr _ => Raise (ValueError "Unknown format code 'f' for object of type 'str'")
  end.

(** [', '.join(v)]: a [str] is joined character by character, an [int]
    cannot be iterated. *)
Definition join_val (sep : string) (v : pyval) : result string :=
  match v with
  | PStr s =>
      Return (PyStr.join sep
                (List.map (fun c => String c EmptyString) (list_ascii_of_string s)))
  | PInt _ => Raise (TypeError "can only join an iterable")
  end.

(** [range(0, stop, step)] for a positive step; [stop] iterations are
    always enough. *)
Fixpoint range_from (fuel start stop step : nat) : list nat :=
  match fuel with
  | O => []
  | S fuel' =>
      if (start <? stop)%nat
      then start :: range_from fuel' (start + step) stop step
      else []
  end.

Definition range_step (stop step : nat) : list nat :=
  range_from stop 0 stop step.

(** [l[i:j]] *)
Definition slice {A : Type} (i j : nat) (l : list A) : list A :=
  take (j - i) (drop i l).

(** ** [CodeIndexer] (code_indexer.py): collection and storage *)

Module CodeIndexer.

Definition IGNORE_PATTERNS : gset string :=
  {[ ".DS_Store"; ".env"; ".git"; ".gitignore"; ".vscode"; ".idea";
     "__pycache__"; ".pytest_cache"; "node_modules"; ".npm";
     ".Trash"; ".Spotlight-V100"; ".fseventsd"; ".DocumentRevisions-V100";
     ".TemporaryItems"; ".apdisk"; "Thumbs.db"; "Desktop.ini" ]}.

Definition CODE_EXTENSIONS : gset string :=
  {[ ".py"; ".js"; ".ts"; ".jsx"; ".tsx"; ".java"; ".cpp"; ".c"; ".h";
     ".cs"; ".php"; ".rb"; ".go"; ".rs"; ".swift"; ".kt"; ".scala";
     ".sh"; ".bash"; ".zsh"; ".ps1"; ".sql"; ".html"; ".css"; ".scss";
     ".less"; ".xml"; ".json"; ".yaml"; ".yml"; ".toml"; ".ini"; ".cfg";
     ".md"; ".rst"; ".txt"; ".dockerfile"; ".makefile"; ".cmake" ]}.

Record t : Type := mk {
  collection : Chroma.collection;
  file_contents : gmap string string;
  all_files : list string;
  openai_client : option FileSummary.client;
  max_concurrent : nat
}.

(** [should_ignore] *)
Definition should_ignore (path : string) : bool :=
  List.existsb
    (fun part =>
       (PyStr.startswith "." part && bool_decide (part ∈ IGNORE_PATTERNS))
       || bool_decide (part ∈ IGNORE_PATTERNS))
    (PathLib.parts path).

(** [is_code_file] *)
Definition is_code_file (file_path : string) : bool :=
  bool_decide (PyStr.lower (PathLib.suffix file_path) ∈ CODE_EXTENSIONS).

(** [os.path.join(a, b)] *)
Definition os_path_join (a b : string) : string :=
  if PyStr.startswith "/" b then b
  else if String.eqb a "" || PyStr.endswith "/" a then a +:+ b
  else a +:+ "/" +:+ b.

(** [create_file_summary] *)
Definition create_file_summary (self : t) (path content : string)
  : FileSummary.t :=
  FileSummary.init path content None self.(openai_client).

(** The metadata dictionary and the record stored for a summary. *)
Definition metadata_of (summary : FileSummary.t) : Chroma.metadata :=
  Chroma.mk_metadata
    summary.(FileSummary.file_path) summary.(FileSummary.language)
    summary.(FileSummary.file_type) summary.(FileSummary.line_count)
    summary.(FileSummary.complexity_score) summary.(FileSummary.purpose).

Definition record_of (summary : FileSummary.t) : Chroma.record :=
  Chroma.mk_record (FileSummary.to_summary_text summary)
                   (metadata_of summary).

(** One file met by [os.walk]: the directory it is in, its name, its path
    relative to the ingested directory, and what reading it gives. Files
    below a pruned directory need not be listed: their path has the
    ignored component and [should_ignore] drops them. *)
Record walked : Type := mk_walked {
  w_root : string;
  w_file : string;
  w_relative : string;
  w_read : result string
}.

Record collected : Type := mk_collected {
  c_contents : gmap string string;
  c_files : list string;
  c_summaries : list FileSummary.t;
  c_indexed : list string
}.

(** The body of the walk loop of [ingest_directory]. *)
Definition collect_step (self : t) (acc : collected) (w : walked)
  : collected :=
  let file_path := os_path_join w.(w_root) w.(w_file) in
  let relative_path := w.(w_relative) in
  if should_ignore file_path || negb (is_code_file file_path) then acc
  else match w.(w_read) with
       | Raise _ => acc
       | Return content =>
           mk_collected
             (<[relative_path := content]> acc.(c_contents))
             (acc.(c_files) ++ [relative_path])
             (acc.(c_summaries)
                ++ [create_file_summary self relative_path content])
             (acc.(c_indexed) ++ [relative_path])
       end.

Definition collect (self : t) (walk : list walked) : collected :=
  foldl (collect_step self) (mk_collected ∅ [] [] []) walk.

(** [f"file_{i}"]: the id of the [i]-th summary of an ingestion. *)
Definition summary_id (i : nat) : string :=
  "file_" +:+ PyStr.str_of_int (Z.of_nat i).

(** The ids and records prepared from the enumerated summaries. *)
Definition enumerate_entries (all_summaries : list FileSummary.t)
  : list (string * Chroma.record) :=
  imap (fun i summary => (summary_id i, record_of summary)) all_summaries.

(** The batched [collection.add] loop. *)
Definition add_in_batches (batch_size : nat)
  (entries : list (string * Chroma.record)) (c : Chroma.collection)
  : Chroma.collection :=
  foldl (fun acc i =>
           let batch_end := Nat.min (i + batch_size) (length entries) in
           Chroma.add (slice i batch_end entries) acc)
        c (range_step (length entries) batch_size).

(** Clearing the previous data at the start of an ingestion. *)
Definition clear_collection (c : Chroma.collection) : Chroma.collection :=
  match Chroma.ids c with
  | [] => c
  | all_ids => Chroma.delete all_ids c
  end.

(** [ingest_directory]: the new state and the list it returns. *)
Definition ingest_directory (self : t) (walk : list walked)
  : t * list string :=
  let cleared := clear_collection self.(collection) in
  let got := collect self walk in
  let entries := enumerate_entries got.(c_summaries) in
  (mk (add_in_batches 100 entries cleared)
      got.(c_contents) got.(c_files)
      self.(openai_client) self.(max_concurrent),
   got.(c_indexed)).

Section Environment.

(** [hashlib.md5(s.encode()).hexdigest()] *)
Variable md5_hexdigest : string -> string.

(** [os.path.relpath] against the working directory. *)
Variable os_path_relpath : string -> string.

(** The disk: [None] when the path does not exist, otherwise what
    opening and reading it gives. *)
Variable disk : string -> option (result string).

(** [f"file_{hashlib.md5(relative_path.encode()).hexdigest()}"] *)
Definition path_id (relative_path : string) : string :=
  "file_" +:+ md5_hexdigest relative_path.

(** The path [index_file] stores a file under. *)
Definition relative_path_of (file_path : string) : string :=
  if PyStr.startswith "/" file_path
  then os_path_relpath file_path else file_path.

(** [index_file]: the new state and the boolean it returns. *)
Definition index_file (self : t) (file_path : string)
  (force_reindex : bool) : t * bool :=
  match disk file_path with
  | None => (self, false)
  | Some (Raise _) => (self, false)
  | Some (Return content) =>
      let relative_path := relative_path_of file_path in
      if negb (is_code_file file_path) then (self, false)
      else
        let c1 :=
          if force_reindex then
            match Chroma.ids_where_file_path relative_path
                    self.(collection) with
            | [] => self.(collection)
            | existing => Chroma.delete existing self.(collection)
            end
          else self.(collection) in
        let file_summary :=
          create_file_summary self relative_path content in
        let summary_id := path_id relative_path in
        let c2 := Chroma.add [(summary_id, record_of file_summary)] c1 in
        (mk c2
            (<[relative_path := content]> self.(file_contents))
            (if bool_decide (relative_path ∈ self.(all_files))
             then self.(all_files)
             else self.(all_files) ++ [relative_path])
            self.(openai_client) self.(max_concurrent),
         true)
  end.

End Environment.

(** [get_indexed_codebase]: [instance] is the module's singleton,
    [connect] what constructing a [CodeIndexer] over the persisted data
    gives. Returns the singleton afterwards and the value returned. *)
Definition get_indexed_codebase (instance : option t) (connect : result t)
  : option t * option t :=
  match instance with
  | Some ix => (instance, Some ix)
  | None =>
      match connect with
      | Raise _ => (None, None)
      | Return ix =>
          if (0 <? Chroma.count ix.(collection))%nat
          then (Some ix, Some ix) else (None, None)
      end
  end.

(** *** Search *)

(** One dictionary of the list [search] returns; it has exactly these
    seven keys. *)
Record search_result : Type := mk_result {
  sr_file_path : string;
  sr_summary : string;
  sr_language : string;
  sr_file_type : string;
  sr_line_count : Z;
  sr_complexity_score : Z;
  sr_purpose : string
}.

(** [result[k]] *)
Definition item (r : search_result) (k : string) : result pyval :=
  if String.eqb k "file_path" then Return (PStr r.(sr_file_path))
  else if String.eqb k "summary" then Return (PStr r.(sr_summary))
  else if String.eqb k "language" then Return (PStr r.(sr_language))
  else if String.eqb k "file_type" then Return (PStr r.(sr_file_type))
  else if String.eqb k "line_count" then Return (PInt r.(sr_line_count))
  else if String.eqb k "complexity_score"
       then Return (PInt r.(sr_complexity_score))
  else if String.eqb k "purpose" then Return (PStr r.(sr_purpose))
  else Raise (KeyError k).

(** [result.get(k, default)] *)
Definition get (r : search_result) (k : string) (default : pyval) : pyval :=
  match item r k with
  | Return v => v
  | Raise _ => default
  end.

(** The similarity ranking of the collection: the [k] best records for a
    query text, best first. *)
Definition ranking : Type :=
  string -> Z -> Chroma.collection -> list Chroma.record.

Definition format_result (r : Chroma.record) : search_result :=
  let m := Chroma.meta r in
  mk_result (Chroma.md_file_path m) (Chroma.document r)
            (Chroma.md_language m) (Chroma.md_file_type m)
            (Chroma.md_line_count m) (Chroma.md_complexity_score m)
            (Chroma.md_purpose m).

(** [search] *)
Definition search (query_fn : ranking) (self : t) (query : string)
  (n_results : Z) : list search_result :=
  List.map format_result (query_fn query n_results self.(collection)).

(** *** Parallel summary generation *)

Definition language_map_for_file : gmap string string :=
  list_to_map
    [ (".py", "python"); (".js", "javascript"); (".ts", "typescript");
      (".java", "java"); (".cpp", "cpp"); (".c", "c"); (".h", "c");
      (".css", "css"); (".html", "html"); (".xml", "xml");
      (".json", "json"); (".yaml", "yaml"); (".yml", "yaml");
      (".md", "markdown"); (".txt", "text"); (".sql", "sql");
      (".sh", "bash"); (".go", "go"); (".rs", "rust"); (".php", "php");
      (".rb", "ruby") ].

(** [_detect_language_for_file] *)
Definition _detect_language_for_file (file_path : string) : string :=
  default "text"
    (language_map_for_file !! PyStr.lower (PathLib.suffix file_path)).

(** What the completion endpoint does with one request: it answers with a
    status, a body to decode and a text, or the call raises. [json] is the
    value of [data['choices'][0]['message']['content']], which raises
    when the payload has another shape. *)
Inductive exchange : Type :=
| Response (status : Z) (json : result string) (text : result string)
| PostRaised (e : pyexn).

(** The prompt sent for a file, after the truncation of long content. *)
Definition summary_prompt (file_path content : string) : string :=
  let content :=
    if (6000 <? PyStr.len content)%Z
    then PyStr.slice_to (Z.to_nat 6000) content
         +:+ String "010" "... [truncated]"
    else content in
  let language := _detect_language_for_file file_path in
  "Analyze this " +:+ language +:+ " code file and provide a comprehensive summary.

File: " +:+ file_path +:+ "

Code:
" +:+ content +:+ "

Provide a detailed summary covering:
1. Main purpose and functionality
2. Key classes, functions, or components
3. Dependencies and imports
4. Code complexity and structure
5. Role in the overall system

Be specific and technical. Focus on what this file actually does.".

(** The [try] block of [generate_single_file_summary]. *)
Definition request_summary (file_path : string) (ex : exchange)
  : result (string * string) :=
  match ex with
  | PostRaised e => Raise e
  | Response status json text =>
      if (status =? 200)%Z then
        do summary <- json;
        Return (file_path, summary)
      else
        do error_text <- text;
        Return (file_path,
                "Error: Failed to generate summary (HTTP "
                +:+ PyStr.str_of_int status +:+ ")")
  end.

(** [generate_single_file_summary]: the [except] clauses turn every
    exception of the [try] block into a result. [post] is the session:
    what the endpoint does with the prompt. *)
Definition generate_single_file_summary (file_path content : string)
  (post : string -> exchange) : string * string :=
  match request_summary file_path (post (summary_prompt file_path content)) with
  | Return r => r
  | Raise TimeoutError => (file_path, "Error: Request timed out")
  | Raise e => (file_path, "Error: " +:+ exn_str e)
  end.

(** [asyncio.gather] with [return_exceptions=True]: one entry per task,
    the exception when the task raised. *)
Definition gather (session : nat -> string -> exchange)
  (first : nat) (chunk : list (string * string))
  : list (result (string * string)) :=
  imap (fun k '(file_path, content) =>
          Return (generate_single_file_summary file_path content
                    (session (first + k)%nat)))
       chunk.

(** The loop over the gathered results of one chunk. *)
Definition store_results (chunk_results : list (result (string * string)))
  (acc : gmap string string * nat) : gmap string string * nat :=
  foldl (fun '(results, completed) r =>
           match r with
           | Raise _ => (results, completed)
           | Return (file_path, summary) =>
               (<[file_path := summary]> results, S completed)
           end) acc chunk_results.

(** [generate_all_summaries_parallel]. [session i] is the endpoint as the
    [i]-th task meets it. The progress line of a chunk divides by
    [len(file_data)], which is positive whenever a chunk runs, and by
    guarded times; the closing line divides by [len(results)]. *)
Definition generate_all_summaries_parallel
  (session : nat -> string -> exchange) (file_data : list (string * string))
  : result (gmap string string) :=
  let chunk_size := 50%nat in
  let '(results, completed) :=
    foldl (fun acc i =>
             let chunk_tasks := slice i (i + chunk_size) file_data in
             store_results (gather session i chunk_tasks) acc)
          (∅, 0%nat) (range_step (length file_data) chunk_size) in
  if (size results =? 0)%nat then Raise ZeroDivisionError
  else Return results.

(** *** Reading the outcome of a batch *)

(** A call succeeds when the endpoint answers 200 with a payload of the
    expected shape; a timeout, an exception of the transport, another
    status and a malformed payload are failures. *)
Definition succeeded (ex : exchange) : bool :=
  match ex with
  | Response status (Return _) _ => (status =? 200)%Z
  | _ => false
  end.

(** What the task of the [i]-th pair of a batch returns. *)
Definition task_result (session : nat -> string -> exchange) (i : nat)
  (fd : string * string) : string * string :=
  generate_single_file_summary fd.1 fd.2 (session i).

Definition tasks_of (session : nat -> string -> exchange)
  (file_data : list (string * string)) : list (string * string) :=
  imap (task_result session) file_data.

Definition call_succeeded (session : nat -> string -> exchange) (i : nat)
  (fd : string * string) : bool :=
  succeeded (session i (summary_prompt fd.1 fd.2)).

(** The paths of a batch whose call succeeded, and those whose call
    failed. *)
Definition ok_paths (session : nat -> string -> exchange)
  (file_data : list (string * string)) : list string :=
  (List.filter (fun task => call_succeeded session task.1 task.2)
     (imap pair file_data)).*2.*1.

Definition failed_paths (session : nat -> string -> exchange)
  (file_data : list (string * string)) : list string :=
  (List.filter (fun task => negb (call_succeeded session task.1 task.2))
     (imap pair file_data)).*2.*1.

(** *** The cache of file contents *)

(** [get_file_content] *)
Definition get_file_content (self : t) (file_path : string) : option string :=
  self.(file_contents) !! file_path.

(** [get_all_files] *)
Definition get_all_files (self : t) : list string := self.(all_files).

(** The cache of contents and the list of files name the same paths. *)
Definition cache_consistent (self : t) : Prop :=
  forall p, is_Some (self.(file_contents) !! p) <-> p ∈ self.(all_files).

(** *** Ingestion with parallel summaries *)

(** [create_file_summary_with_ai_insights] *)
Definition create_file_summary_with_ai_insights
  (file_path content ai_summary : string) : FileSummary.t :=
  let basic_summary := FileSummary.create_basic_summary file_path content in
  let purpose :=
    if PyStr.contains "purpose:" (PyStr.lower ai_summary)
       || PyStr.contains "functionality:" (PyStr.lower ai_summary)
    then
      match List.find
              (fun line => PyStr.contains "purpose" (PyStr.lower line)
                           && PyStr.contains ":" line)
              (PyStr.split_char "010" ai_summary) with
      | Some line => PyStr.strip (PyStr.after_first ":" line)
      | None => basic_summary.(FileSummary.purpose)
      end
    else basic_summary.(FileSummary.purpose) in
  FileSummary.mk
    basic_summary.(FileSummary.file_path) basic_summary.(FileSummary.content)
    basic_summary.(FileSummary.language) basic_summary.(FileSummary.line_count)
    ai_summary purpose
    basic_summary.(FileSummary.file_type)
    basic_summary.(FileSummary.complexity_score) true.

(** [add_summaries_to_vector_db]: the collection afterwards. *)
Definition add_summaries_to_vector_db (self : t)
  (all_summaries : list FileSummary.t) : Chroma.collection :=
  add_in_batches 100 (enumerate_entries all_summaries) self.(collection).

Record collected_parallel : Type := mk_collected_parallel {
  p_contents : gmap string string;
  p_files : list string;
  p_file_data : list (string * string);
  p_indexed : list string
}.

(** The body of the walk loop of [ingest_directory_with_parallel_ai]. *)
Definition collect_parallel_step (acc : collected_parallel) (w : walked)
  : collected_parallel :=
  let file_path := os_path_join w.(w_root) w.(w_file) in
  let relative_path := w.(w_relative) in
  if should_ignore file_path
     || negb (is_code_file file_path)
     || PyStr.contains "__MACOSX" relative_path
  then acc
  else match w.(w_read) with
       | Raise _ => acc
       | Return content =>
           if String.eqb (PyStr.strip content) "" then acc
           else
             mk_collected_parallel
               (<[relative_path := content]> acc.(p_contents))
               (acc.(p_files) ++ [relative_path])
               (acc.(p_file_data) ++ [(relative_path, content)])
               (acc.(p_indexed) ++ [relative_path])
       end.

Definition collect_parallel (walk : list walked) : collected_parallel :=
  foldl collect_parallel_step (mk_collected_parallel ∅ [] [] []) walk.

(** [if self.openai_api_key]: a key that is present and not empty. *)
Definition key_present (openai_api_key : option string) : bool :=
  match openai_api_key with
  | Some key => negb (String.eqb key "")
  | None => false
  end.

(** Step 2 of [ingest_directory_with_parallel_ai] when the coordinator
    returns: the dictionary of the task results, or the empty one when
    there is no file or no key. *)
Definition ai_summaries_for (openai_api_key : option string)
  (session : nat -> string -> exchange) (file_data : list (string * string))
  : gmap string string :=
  match file_data with
  | [] => ∅
  | _ => if key_present openai_api_key
         then foldl (fun m kv => <[kv.1 := kv.2]> m) ∅
                    (tasks_of session file_data)
         else ∅
  end.

(** Step 3 of [ingest_directory_with_parallel_ai]: one summary per
    collected file, with [ai_summaries.get(file_path, ...)] as its text. *)
Definition summaries_with_insights (ai_summaries : gmap string string)
  (file_data : list (string * string)) : list FileSummary.t :=
  List.map
    (fun '(file_path, content) =>
       create_file_summary_with_ai_insights file_path content
         (default "No AI summary available" (ai_summaries !! file_path)))
    file_data.

(** [ingest_directory_with_parallel_ai]. [openai_api_key] is the key the
    indexer was built with. Returns the indexer afterwards and either the
    exception that left the method or the list it returns. *)
Definition ingest_directory_with_parallel_ai (self : t)
  (openai_api_key : option string) (session : nat -> string -> exchange)
  (walk : list walked) : t * result (list string) :=
  let cleared := clear_collection self.(collection) in
  let got := collect_parallel walk in
  let file_data := got.(p_file_data) in
  let collected_state :=
    mk cleared got.(p_contents) got.(p_files)
       self.(openai_client) self.(max_concurrent) in
  let generated :=
    match file_data with
    | [] => Return ∅
    | _ => if key_present openai_api_key
           then generate_all_summaries_parallel session file_data
           else Return ∅
    end in
  match generated with
  | Raise e => (collected_state, Raise e)
  | Return ai_summaries =>
      let all_summaries := summaries_with_insights ai_summaries file_data in
      (mk (add_summaries_to_vector_db collected_state all_summaries)
          got.(p_contents) got.(p_files)
          self.(openai_client) self.(max_concurrent),
       Return got.(p_indexed))
  end.

End CodeIndexer.

(** ** The admission semaphore of the parallel run

    The tasks of [generate_all_summaries_parallel] run on one event loop.
    A task is created, enters [async with semaphore] when the semaphore has
    a token, holds it while its request is out, and gives it back when the
    block is left, with a result in every case. Only the tasks of the chunk
    being gathered run. *)

Module Scheduler.

Inductive phase : Type :=
| Pending
| InFlight
| Finished (r : string * string).

Record state : Type := mk {
  sem : nat;
  phases : list phase;
  chunk : nat
}.

Definition chunk_size : nat := 50.

(** [asyncio.Semaphore(max_concurrent)] and the tasks just created. *)
Definition initial (max_concurrent n : nat) : state :=
  mk max_concurrent (replicate n Pending) 0.

Definition is_in_flight (p : phase) : bool :=
  match p with InFlight => true | _ => false end.

(** The number of requests that are out. *)
Definition in_flight (s : state) : nat :=
  length (List.filter is_in_flight s.(phases)).

Definition in_chunk (s : state) (i : nat) : Prop :=
  s.(chunk) <= i < s.(chunk) + chunk_size.

Definition chunk_done (s : state) : Prop :=
  forall i p, in_chunk s i -> s.(phases) !! i = Some p ->
              exists r, p = Finished r.

Inductive step (file_data : list (string * string)) : state -> state -> Prop :=
| step_acquire s i :
    in_chunk s i ->
    s.(phases) !! i = Some Pending ->
    0 < s.(sem) ->
    step file_data s
      (mk (s.(sem) - 1) (<[i := InFlight]> s.(phases)) s.(chunk))
| step_release s i file_path content post :
    s.(phases) !! i = Some InFlight ->
    file_data !! i = Some (file_path, content) ->
    step file_data s
      (mk (s.(sem) + 1)
          (<[i := Finished (CodeIndexer.generate_single_file_summary
                              file_path content post)]> s.(phases))
          s.(chunk))
| step_next_chunk s :
    chunk_done s ->
    step file_data s (mk s.(sem) s.(phases) (s.(chunk) + chunk_size)).

(** The states a run can be in. *)
Definition reachable (max_concurrent : nat)
  (file_data : list (string * string)) (s : state) : Prop :=
  rtc (step file_data) (initial max_concurrent (length file_data)) s.

(** What a task adds to the number of requests that are out. *)
Definition weight (p : phase) : nat := if is_in_flight p then 1 else 0.

(** A run is over when every task has its result. *)
Definition is_finished (p : phase) : bool :=
  match p with Finished _ => true | _ => false end.

Definition all_finished (s : state) : Prop :=
  Forall (fun p => is_finished p = true) s.(phases).

(** What holds of every state of a run of [file_data] with limit [K]: one
    task per file, the requests that are out and the tokens left add up
    to [K], and the chunks that were left are finished. *)
Definition consistent (K : nat) (file_data : list (string * string))
  (s : state) : Prop :=
  length (phases s) = length file_data
  /\ in_flight s + sem s = K
  /\ (forall i p, i < chunk s -> phases s !! i = Some p ->
                  is_finished p = true).

Definition is_pending (p : phase) : bool :=
  match p with Pending => true | _ => false end.

(** The steps a task still has to take. *)
Definition cost (p : phase) : nat :=
  match p with Pending => 2 | InFlight => 1 | Finished _ => 0 end.

(** A bound on the steps a run still has to take: the steps of its tasks
    and the chunks that are left. *)
Definition remaining (s : state) : nat :=
  list_sum (cost <$> s.(phases))
  + (length s.(phases) + chunk_size - s.(chunk)).

(** The phase task [i] ends in when [session i] is what the endpoint does
    with its request: a result it already has is kept. *)
Definition settled (file_data : list (string * string))
  (session : nat -> string -> CodeIndexer.exchange) (i : nat) (p : phase)
  : phase :=
  match p with
  | Finished r => Finished r
  | _ =>
      match file_data !! i with
      | Some (file_path, content) =>
          Finished (CodeIndexer.generate_single_file_summary
                      file_path content (session i))
      | None => p
      end
  end.

End Scheduler.

(** ** [SmartSummaryAgent] (summary.py): the confidence-gated router *)

Module SmartSummaryAgent.

Import CodeIndexer.
Local Open Scope Q_scope.

Record t : Type := mk {
  openai_api_key : option string;
  confidence_threshold : Q;
  query_patterns : gmap string Z;
  indexer : option CodeIndexer.t;
  repo_assistant : option (string -> result string)
}.

(** [any(m in text for m in markers)] *)
Definition any_in (markers : list string) (text : string) : bool :=
  List.existsb (fun m => PyStr.contains m text) markers.

Definition code_keywords : list string :=
  ["class"; "function"; "method"; "interface"; "api"; "endpoint";
   "authentication"; "database"].

Definition structure_markers : list string :=
  ["**"; "purpose:"; "methods:"; "dependencies:"; "use case:"].

Definition length_score (summary_text : string) : Q :=
  Qmin (PyStr.len summary_text # 1000) 1.

Definition structure_score (summary_text : string) : Q :=
  if any_in structure_markers summary_text then 0.4 else 0.

(** [sum(1 for word in query_words if word in summary_text)] *)
Definition matching_words (query_words : list string) (summary_text : string)
  : nat :=
  length (List.filter (fun word => PyStr.contains word summary_text)
                      query_words).

Definition relevance_score (query_words : list string)
  (summary_text : string) : Q :=
  match query_words with
  | [] => 0
  | _ => inject_Z (Z.of_nat (matching_words query_words summary_text))
         / inject_Z (Z.of_nat (length query_words))
  end.

Definition detail_score (summary_text : string) : Q :=
  if any_in code_keywords summary_text then 0.3 else 0.

(** The body of the loop of [_evaluate_summary_confidence]: the score of
    one summary. *)
Definition summary_confidence (query_lower : string)
  (summary : search_result) : Q :=
  let summary_text := PyStr.lower summary.(sr_summary) in
  let query_words := PyStr.split_ws query_lower in
  length_score summary_text * 0.3
  + structure_score summary_text
  + relevance_score query_words summary_text * 0.2
  + detail_score summary_text.

(** [_evaluate_summary_confidence] *)
Definition _evaluate_summary_confidence (query : string)
  (summaries : list search_result) : Q :=
  match summaries with
  | [] => 0
  | _ =>
      let query_lower := PyStr.lower query in
      let total_confidence :=
        List.fold_left
          (fun total summary => total + summary_confidence query_lower summary)
          summaries 0 in
      let avg_confidence :=
        total_confidence / inject_Z (Z.of_nat (length summaries)) in
      let avg_confidence :=
        if (1 <? length summaries)%nat then avg_confidence * 1.2
        else avg_confidence in
      Qmin avg_confidence 1
  end.

Definition structured_indicators : list string :=
  ["**"; "Methods:"; "Dependencies:"; "Use Case:"; "Purpose:"].

(** [has_structured_summaries] *)
Definition has_structured_summaries (summary_results : list search_result)
  : bool :=
  List.existsb (fun r => any_in structured_indicators r.(sr_summary))
               summary_results.

(** The lines [_build_summary_context] appends for one summary, with the
    dictionary accesses in the order they are evaluated. *)
Definition context_entry (summary : search_result) : result string :=
  do v_summary <- item summary "summary";
  do v_file <- item summary "file_path";
  do v_type <- item summary "file_type";
  do v_language <- item summary "language";
  do v_lines <- item summary "line_count";
  do v_complexity <- item summary "complexity_score";
  let purpose := get summary "purpose" (PStr "No purpose specified") in
  let methods := get summary "methods" (PStr "No methods specified") in
  let dependencies :=
    get summary "dependencies" (PStr "No dependencies specified") in
  let use_case := get summary "use_case" (PStr "No use case specified") in
  do v_keywords <- item summary "keywords";
  do keywords <- join_val ", " v_keywords;
  do v_confidence <- item summary "confidence_score";
  do confidence <- format_2f v_confidence;
  do v_category <- item summary "category";
  let nl := String "010" "" in
  Return
    ("**Summary:** " +:+ format_val v_summary +:+ nl
     +:+ "**File:** " +:+ format_val v_file +:+ nl
     +:+ "**Type:** " +:+ format_val v_type
     +:+ " (" +:+ format_val v_language +:+ ")" +:+ nl
     +:+ "**Lines:** " +:+ format_val v_lines
     +:+ " | **Complexity:** " +:+ format_val v_complexity +:+ nl
     +:+ "**Purpose:** " +:+ format_val purpose +:+ nl
     +:+ "**Methods:** " +:+ format_val methods +:+ nl
     +:+ "**Dependencies:** " +:+ format_val dependencies +:+ nl
     +:+ "**Use Case:** " +:+ format_val use_case +:+ nl
     +:+ "**Purpose:** " +:+ format_val purpose +:+ nl
     +:+ "**Keywords:** " +:+ keywords +:+ nl
     +:+ "**Confidence:** " +:+ confidence +:+ nl
     +:+ "**Category:** " +:+ format_val v_category +:+ nl
     +:+ nl).

(** [_build_summary_context] *)
Definition _build_summary_context (summaries : list search_result)
  (query : string) : result string :=
  foldl (fun acc summary =>
           do context <- acc;
           do entry <- context_entry summary;
           Return (context +:+ entry))
        (Return "") summaries.

(** [_generate_summary_response] *)
Definition _generate_summary_response (query context : string) : string :=
  "ðŸ“‹ **Summary Response**

" +:+ context.

(** [_fallback_to_repository] *)
Definition _fallback_to_repository (self : t) (query : string) : string :=
  let final :=
    "ðŸ” **Repository Analysis**

I couldn't find a good summary for your query: '" +:+ query +:+ "'

**Suggestions:**
â€¢ Try rephrasing your question with specific keywords
â€¢ Ask about specific files, functions, or concepts
â€¢ Use 'python3 regenerate_ai_summaries.py' to improve summaries

**Example queries:**
â€¢ 'What does the config.yaml file configure?'
â€¢ 'Explain the main classes in this project'
â€¢ 'How does authentication work?'" in
  match self.(repo_assistant) with
  | Some query_code =>
      match query_code query with
      | Return answer => answer
      | Raise _ => final
      end
  | None => final
  end.

(** [self.query_patterns[query] += 1] on a [defaultdict(int)]. *)
Definition count_of (patterns : gmap string Z) (query : string) : Z :=
  default 0%Z (patterns !! query).

Definition record_query (self : t) (query : string) : t :=
  mk self.(openai_api_key) self.(confidence_threshold)
     (<[query := (count_of self.(query_patterns) query + 1)%Z]>
        self.(query_patterns))
     self.(indexer) self.(repo_assistant).

(** The threshold the decision compares with. *)
Definition effective_threshold (self : t)
  (summary_results : list search_result) : Q :=
  if has_structured_summaries summary_results then 0.4
  else self.(confidence_threshold).

(** The condition of the [if] that chooses between the two answers. *)
Definition answers_from_summaries (self : t) (confidence : Q)
  (summary_results : list search_result) : bool :=
  Qle_bool (effective_threshold self summary_results) confidence
  || has_structured_summaries summary_results.

(** [query_with_summary_first]: the agent afterwards and either the
    exception that left the method or the pair it returns. *)
Definition query_with_summary_first (query_fn : ranking) (self : t)
  (query : string) (max_results : Z) : t * result (string * bool) :=
  match self.(indexer) with
  | None =>
      (self,
       Raise (AttributeError "'NoneType' object has no attribute 'search'"))
  | Some ix =>
      let summary_results := search query_fn ix query max_results in
      let confidence := _evaluate_summary_confidence query summary_results in
      if answers_from_summaries self confidence summary_results then
        match _build_summary_context summary_results query with
        | Raise e => (self, Raise e)
        | Return context =>
            let response := _generate_summary_response query context in
            (record_query self query, Return (response, true))
        end
      else (self, Return (_fallback_to_repository self query, false))
  end.

(** [_init_repo_assistant]: [assistant] is the conversational layer a
    key gives access to; it is kept when it finds the indexed data. *)
Definition _init_repo_assistant (api_key : option string)
  (loaded : option CodeIndexer.t) (assistant : string -> result string)
  : option (string -> result string) :=
  match api_key with
  | None => None
  | Some key =>
      if String.eqb key "" then None
      else match loaded with
           | Some _ => Some assistant
           | None => None
           end
  end.

(** [SmartSummaryAgent(openai_api_key, confidence_threshold)] *)
Definition init (api_key : option string) (threshold : Q)
  (instance : option CodeIndexer.t) (connect : result CodeIndexer.t)
  (assistant : string -> result string) : t :=
  let '(instance1, ix) := get_indexed_codebase instance connect in
  let '(_, loaded) := get_indexed_codebase instance1 connect in
  mk api_key threshold ∅ ix (_init_repo_assistant api_key loaded assistant).

(** *** The parts of the confidence score *)

(** The running total of the loop, from [start]. *)
Definition total_confidence (query_lower : string)
  (summaries : list search_result) (start : Q) : Q :=
  List.fold_left
    (fun total summary => total + summary_confidence query_lower summary)
    summaries start.

(** The boost applied to the average of [n] summaries. *)
Definition boosted (avg : Q) (n : nat) : Q :=
  if (1 <? n)%nat then avg * 1.2 else avg.

End SmartSummaryAgent.

(** ** The [search_code] tool (mcp_server.py) *)

Module McpServer.

Import CodeIndexer.

(** [search_code]: [indexer] is the module's global, the other arguments
    are as for [get_indexed_codebase]. Returns the global afterwards and
    the text. *)
Definition search_code (query_fn : ranking) (indexer : option CodeIndexer.t)
  (instance : option CodeIndexer.t) (connect : result CodeIndexer.t)
  (query : string) (max_results : Z) : option CodeIndexer.t * string :=
  let indexer :=
    match indexer with
    | Some ix => Some ix
    | None => (get_indexed_codebase instance connect).2
    end in
  match indexer with
  | None =>
      (None,
       "No codebase has been indexed yet. Please upload a repository first.")
  | Some ix =>
      let results := search query_fn ix query max_results in
      match results with
      | [] => (Some ix, "No relevant files found for the query.")
      | _ =>
          let nl := String "010" "" in
          (Some ix,
           foldl (fun formatted r =>
                    formatted
                    +:+ "📄 " +:+ r.(sr_file_path) +:+ nl
                    +:+ "Language: " +:+ r.(sr_language)
                    +:+ ", Type: " +:+ r.(sr_file_type) +:+ nl
                    +:+ "Lines: " +:+ PyStr.str_of_int r.(sr_line_count)
                    +:+ ", Complexity: "
                    +:+ PyStr.str_of_int r.(sr_complexity_score) +:+ nl
                    +:+ "Purpose: " +:+ r.(sr_purpose) +:+ nl)
                 ("Found relevant files:" +:+ nl +:+ nl) results)
      end
  end.

(** The global indexer a tool works with: the one it has, or the one
    [get_indexed_codebase] gives. *)
Definition resolve_indexer (indexer : option CodeIndexer.t)
  (instance : option CodeIndexer.t) (connect : result CodeIndexer.t)
  : option CodeIndexer.t :=
  match indexer with
  | Some ix => Some ix
  | None => (get_indexed_codebase instance connect).2
  end.

Definition not_indexed_yet : string :=
  "No codebase has been indexed yet. Please upload a repository first.".

(** [get_file_content]: the global afterwards and the text. An empty
    content is falsy and is handled like a missing file. *)
Definition get_file_content (indexer : option CodeIndexer.t)
  (instance : option CodeIndexer.t) (connect : result CodeIndexer.t)
  (file_path : string) : option CodeIndexer.t * string :=
  match resolve_indexer indexer instance connect with
  | None => (None, not_indexed_yet)
  | Some ix =>
      let nl := String "010" "" in
      let file_content := CodeIndexer.get_file_content ix file_path in
      let missing :=
        match file_content with
        | Some content => String.eqb content ""
        | None => true
        end in
      if missing then
        let potential_matches :=
          List.filter
            (fun f => PyStr.contains (PyStr.lower file_path) (PyStr.lower f))
            (CodeIndexer.get_all_files ix) in
        match potential_matches with
        | [] => (Some ix,
                 "File '" +:+ file_path +:+ "' not found in the codebase.")
        | _ =>
            (Some ix,
             foldl (fun response m => response +:+ "- " +:+ m +:+ nl)
                   ("File '" +:+ file_path
                    +:+ "' not found exactly. Did you mean one of these?"
                    +:+ nl +:+ nl)
                   (take 5 potential_matches))
        end
      else
        let file_extension :=
          PyStr.lstrip_char "." (FileSummary.splitext_ext file_path) in
        (Some ix,
         "Content of " +:+ file_path +:+ ":" +:+ nl +:+ nl
         +:+ "```" +:+ file_extension +:+ nl
         +:+ default "" file_content +:+ nl +:+ "```")
  end.

(** *** [list_project_structure] *)

(** The nested dictionary of the project tree: a dictionary of entries in
    insertion order, or the list stored under the key [__files__]. *)
#[warnings="-register-all"]
Inductive node : Type :=
| Dict (items : list (string * node))
| Files (names : list string).

(** [d.get(k)] on the entries of a dictionary. *)
Fixpoint dict_get (k : string) (items : list (string * node)) : option node :=
  match items with
  | [] => None
  | (k', v) :: rest => if String.eqb k' k then Some v else dict_get k rest
  end.

(** [d[k] = v]: replaces the value of an existing key, appends a new one. *)
Fixpoint dict_set (k : string) (v : node) (items : list (string * node))
  : list (string * node) :=
  match items with
  | [] => [(k, v)]
  | (k', v') :: rest =>
      if String.eqb k' k then (k', v) :: rest
      else (k', v') :: dict_set k v rest
  end.

Definition list_index_error : pyexn :=
  TypeError "list indices must be integers or slices, not str".

(** The loop body of the tree construction: walk down the directories of
    one path, creating the missing ones, and append the file name to the
    [__files__] list of the last. The nested dictionaries are updated in
    place; a list met on the way cannot be indexed by a name. *)
Fixpoint add_file (dirs : list string) (file : string) (current : node)
  : result node :=
  match current with
  | Files _ => Raise list_index_error
  | Dict items =>
      match dirs with
      | [] =>
          match dict_get "__files__" items with
          | None => Return (Dict (dict_set "__files__" (Files [file]) items))
          | Some (Files names) =>
              Return (Dict (dict_set "__files__" (Files (names ++ [file])) items))
          | Some (Dict _) =>
              Raise (AttributeError "'dict' object has no attribute 'append'")
          end
      | part :: rest =>
          let items :=
            match dict_get part items with
            | None => dict_set part (Dict []) items
            | Some _ => items
            end in
          do sub <- add_file rest file (default (Dict []) (dict_get part items));
          Return (Dict (dict_set part sub items))
      end
  end.

(** What iterating over the value stored under [__files__] yields. *)
Definition names_of (n : node) : list string :=
  match n with
  | Files names => names
  | Dict items => items.*1
  end.

Definition recursion_error : pyexn :=
  Exception "maximum recursion depth exceeded".

Definition branch (is_last : bool) : string :=
  if is_last then "└── " else "├── ".

(** One round of the loop over the paths. *)
Definition tree_step (acc : result node) (file_path : string) : result node :=
  do tree <- acc;
  let parts := PyStr.split_char "/" file_path in
  add_file (removelast parts) (List.last parts "") tree.

(** The tree of a list of paths. *)
Definition build_tree (all_files : list string) : result node :=
  foldl tree_step (Return (Dict [])) all_files.

(** The trees the loop builds from paths none of whose components is
    [__files__]: a list under that key and a dictionary under any other. *)
Inductive tree_shape : node -> Prop :=
| shape_dict (items : list (string * node)) :
    (forall v, ("__files__", v) ∈ items -> exists names, v = Files names) ->
    (forall k v, (k, v) ∈ items -> k <> "__files__" -> tree_shape v) ->
    tree_shape (Dict items).

(** The lines of the files of one directory, after [text]. *)
Definition file_lines (text prefix : string) (names : list string) : string :=
  foldl (fun text '(i, file) =>
           text +:+ prefix
           +:+ branch (i =? length names - 1)%nat
           +:+ file +:+ String "010" "")
        text (imap pair names).

(** [format_tree]; [fuel] is the depth of recursion the interpreter
    still allows. *)
Fixpoint format_tree (fuel : nat) (n : node) (prefix : string)
  (is_last is_root : bool) : result string :=
  match fuel with
  | O => Raise recursion_error
  | S fuel' =>
      let nl := String "010" "" in
      do head <-
        (if is_root then Return ""
         else
           do label <-
             match n with
             | Dict items =>
                 match dict_get "__files__" items with
                 | Some _ => Return ""
                 | None =>
                     match items with
                     | (k, _) :: _ => Return k
                     | [] => Raise (Exception "list index out of range")
                     end
                 end
             | Files _ => Return ""
             end;
           Return (prefix +:+ branch is_last +:+ label +:+ nl));
      let prefix :=
        if is_root then prefix
        else prefix +:+ (if is_last then "    " else "│   ") in
      match n with
      | Files _ => Return head
      | Dict items =>
          let keys :=
            List.filter (fun k => negb (String.eqb k "__files__")) items.*1 in
          let has_files :=
            match dict_get "__files__" items with
            | Some _ => true
            | None => false
            end in
          do with_dirs <-
            foldl (fun acc '(i, key) =>
                     do text <- acc;
                     let is_last_child :=
                       (i =? length keys - 1)%nat && negb has_files in
                     do sub <-
                       format_tree fuel'
                         (Dict [(key, default (Dict []) (dict_get key items))])
                         prefix is_last_child false;
                     Return (text +:+ sub))
                  (Return head) (imap pair keys);
          match dict_get "__files__" items with
          | None => Return with_dirs
          | Some files => Return (file_lines with_dirs prefix (names_of files))
          end
      end
  end.

(** [list_project_structure]: the global afterwards and either the
    exception or the text. *)
Definition list_project_structure (fuel : nat)
  (indexer : option CodeIndexer.t) (instance : option CodeIndexer.t)
  (connect : result CodeIndexer.t) : option CodeIndexer.t * result string :=
  match resolve_indexer indexer instance connect with
  | None => (None, Return not_indexed_yet)
  | Some ix =>
      match CodeIndexer.get_all_files ix with
      | [] => (Some ix, Return "No files found in the codebase.")
      | all_files =>
          (Some ix,
           do tree <- build_tree all_files;
           do text <- format_tree fuel tree "" true true;
           Return ("Project Structure:" +:+ String "010" (String "010" "")
                   +:+ text))
      end
  end.

(** *** [explain_function] and [explain_class] *)

(** What parsing a content and walking the tree for a definition of the
    wanted name gives: a syntax error, or the definition when there is
    one. *)
Inductive parse_outcome (A : Type) : Type :=
| SyntaxError
| Parsed (found : option A).
Arguments SyntaxError {A}.
Arguments Parsed {A} found.

(** The value [ast.parse] is applied to must be text. *)
Definition source_text (v : pyval) : result string :=
  match v with
  | PStr s => Return s
  | PInt _ => Raise (TypeError "expected str")
  end.

(** The loop that looks for an exact match in the search results. *)
Fixpoint find_definition {A : Type} (ast_find : string -> parse_outcome A)
  (results : list search_result) : result (option (search_result * A)) :=
  match results with
  | [] => Return None
  | r :: rest =>
      do v <- item r "content";
      do text <- source_text v;
      match ast_find text with
      | SyntaxError => find_definition ast_find rest
      | Parsed (Some found) => Return (Some (r, found))
      | Parsed None => find_definition ast_find rest
      end
  end.

(** The listing of the closest matches, when no exact one was found. *)
Definition potential_matches_text (head : string)
  (results : list search_result) : result string :=
  let nl := String "010" "" in
  foldl (fun acc r =>
           do explanation <- acc;
           do v_file <- item r "file_path";
           do v_language <- item r "language";
           do v_content <- item r "content";
           Return (explanation
                   +:+ "File: " +:+ format_val v_file +:+ nl
                   +:+ "```" +:+ format_val v_language +:+ nl
                   +:+ format_val v_content +:+ nl +:+ "```" +:+ nl +:+ nl))
        (Return head) (take 3 results).

(** The common shape of [explain_function] and [explain_class]: [keyword]
    is the word searched before the name, [what] and [What] the words of
    the messages, [ast_find] the parsing and [render] the formatting of a
    definition that was found. *)
Definition explain {A : Type} (keyword what What : string)
  (query_fn : ranking)
  (ast_find : string -> string -> parse_outcome A)
  (render : string -> search_result -> A -> result string)
  (indexer : option CodeIndexer.t) (instance : option CodeIndexer.t)
  (connect : result CodeIndexer.t) (name : string)
  : option CodeIndexer.t * result string :=
  match resolve_indexer indexer instance connect with
  | None => (None, Return not_indexed_yet)
  | Some ix =>
      let results := search query_fn ix (keyword +:+ " " +:+ name) 10 in
      match results with
      | [] => (Some ix,
               Return (What +:+ " '" +:+ name
                       +:+ "' not found in the codebase."))
      | _ =>
          (Some ix,
           do found <- find_definition (ast_find name) results;
           match found with
           | Some (r, info) => render name r info
           | None =>
               potential_matches_text
                 ("Couldn't find an exact match for " +:+ what +:+ " '"
                  +:+ name +:+ "', but here are some potential matches:"
                  +:+ String "010" (String "010" ""))
                 results
           end)
      end
  end.

(** [explain_function] *)
Definition explain_function {A : Type} :=
  @explain A "def" "function" "Function".

(** [explain_class] *)
Definition explain_class {A : Type} :=
  @explain A "class" "class" "Class".

End McpServer.


(** ** [RepositoryIngestor] (tools.py): chunking *)

Module RepositoryIngestor.

Record CodeChunk : Type := mk_chunk {
  file_path : string;
  content : string;
  start_line : Z;
  end_line : Z;
  chunk_id : string;
  file_type : string
}.

Section Hashing.

(** [hashlib.md5(s.encode()).hexdigest()] *)
Variable md5_hexdigest : string -> string.

(** The chunk that starts at line index [i]. *)
Definition chunk_at (chunk_size : nat) (path : string) (lines : list string)
  (i : nat) : CodeChunk :=
  mk_chunk path
    (PyStr.join (String "010" "") (slice i (i + chunk_size) lines))
    (Z.of_nat i + 1)
    (Z.min (Z.of_nat i + Z.of_nat chunk_size) (Z.of_nat (length lines)))
    (PyStr.slice_to 8
       (md5_hexdigest (path +:+ "_" +:+ PyStr.str_of_int (Z.of_nat i))))
    (PathLib.suffix path).

(** [chunk_file_content]: a zero chunk size makes [range] raise, a
    negative one gives an empty range. *)
Definition chunk_file_content (chunk_size : Z) (path content : string)
  : result (list CodeChunk) :=
  let lines := PyStr.split_char "010" content in
  if (chunk_size =? 0)%Z
  then Raise (ValueError "range() arg 3 must not be zero")
  else if (chunk_size <? 0)%Z then Return []
  else Return (List.map (chunk_at (Z.to_nat chunk_size) path lines)
                 (range_step (length lines) (Z.to_nat chunk_size))).

End Hashing.

End RepositoryIngestor.

(** ** Concrete stores, batches and agents used as inputs below *)

Module Examples.

Import CodeIndexer.

(** A ranking that returns the first [n] records of the collection. *)
Definition first_records : ranking :=
  fun _ n c => take (Z.to_nat n) (map_to_list c).*2.

Definition empty_indexer : CodeIndexer.t := CodeIndexer.mk ∅ ∅ [] None 15.

Definition walked_a : walked :=
  mk_walked "repo" "a.py" "a.py" (Return "x = 1").

Definition walked_b : walked :=
  mk_walked "repo" "b.py" "b.py" (Return "y = 2").

(** [hashlib.md5] at the one path it is applied to below:
    [md5(b"b.py")] is [fc4bb34f76ff7e288d646c549455c64b]. *)
Definition md5_b_py (_ : string) : string :=
  "fc4bb34f76ff7e288d646c549455c64b".

(** A disk on which the file now reads [y = 3]. *)
Definition disk_b_py (_ : string) : option (result string) :=
  Some (Return "y = 3").

(** An endpoint that never answers in time. *)
Definition never_answers : nat -> string -> exchange :=
  fun _ _ => PostRaised TimeoutError.

Definition three_files : list (string * string) :=
  [("a.py", "x = 1"); ("b.py", "y = 2"); ("c.py", "z = 3")].

(** The endpoint answers the first file, refuses the second and times out
    on the third. *)
Definition mixed_session (i : nat) (_ : string) : exchange :=
  match i with
  | 0 => Response 200 (Return "Defines x.") (Return "")
  | 1 => Response 429 (Return "") (Return "rate limited")
  | _ => PostRaised TimeoutError
  end.

(** Two of three requests are out, with a limit of two. *)
Definition two_in_flight : Scheduler.state :=
  Scheduler.mk 0 [Scheduler.InFlight; Scheduler.InFlight; Scheduler.Pending] 0.

Definition auth_record : Chroma.record :=
  Chroma.mk_record
    "**Purpose:** Handles authentication for the AuthService class."
    (Chroma.mk_metadata "auth.py" "python" "class_based" 120 7
       "Handles authentication for the AuthService class.").

Definition auth_indexer : CodeIndexer.t :=
  CodeIndexer.mk {[ "file_0" := auth_record ]} ∅ ["auth.py"] None 15.

Definition plain_record : Chroma.record :=
  Chroma.mk_record "Moves files around."
    (Chroma.mk_metadata "mv.py" "python" "script" 10 0 "Moves files around.").

Definition plain_indexer : CodeIndexer.t :=
  CodeIndexer.mk {[ "file_0" := plain_record ]} ∅ ["mv.py"] None 15.

Definition no_assistant : string -> result string :=
  fun _ => Raise (Exception "unavailable").

Definition agent_over (ix : option CodeIndexer.t) (threshold : Q)
  : SmartSummaryAgent.t := SmartSummaryAgent.mk None threshold ∅ ix None.

Definition two_class_summaries : list search_result :=
  [ mk_result "a.py" "**class" "python" "class_based" 1 0 "p." ;
    mk_result "b.py" "**class" "python" "class_based" 1 0 "p." ].

Definition overlapping_summary : search_result :=
  mk_result "c.py" "**zzz" "python" "script" 1 0 "p.".

Definition short_summary : search_result :=
  mk_result "d.py" "abc" "python" "script" 1 0 "abc.".

Definition rich_summary : search_result :=
  mk_result "e.py" "**zzz class" "python" "class_based" 1 0 "zzz class.".

(** A file below a [.git] directory. *)
Definition walked_git : walked :=
  mk_walked "repo/.git" "hooks.py" ".git/hooks.py" (Return "x = 1").

(** An indexer that lists one file in a directory, and one that lists
    files at the top level only. *)
Definition nested_indexer : CodeIndexer.t :=
  CodeIndexer.mk ∅ ∅ ["a.py"; "src/b.py"] None 15.

Definition flat_indexer : CodeIndexer.t :=
  CodeIndexer.mk ∅ ∅ ["a.py"; "b.py"] None 15.


(** A parser that rejects every text, and a formatting of what is found. *)
Definition never_parses : string -> string -> McpServer.parse_outcome unit :=
  fun _ _ => McpServer.SyntaxError.

Definition render_name : string -> search_result -> unit -> result string :=
  fun name _ _ => Return name.

(** The state of the store after the ingestion of one file. *)
Definition one_file_indexer : CodeIndexer.t :=
  (ingest_directory empty_indexer [walked_b]).1.

End Examples.

(** * Properties *)

(** ** Facts about the Python primitives *)

Module PyFacts.

Lemma to_int_not_nil (z : Z) :
  Z.to_int z <> Decimal.Pos Decimal.Nil /\ Z.to_int z <> Decimal.Neg Decimal.Nil.
Proof.
  destruct z as [|p|p]; simpl; split; try discriminate.
  - intros [= H]. apply (Unsigned.to_uint_nonnil p). exact H.
  - intros [= H]. apply (Unsigned.to_uint_nonnil p). exact H.
Qed.

(** Two integers that print alike are equal. *)
Lemma str_of_int_inj (a b : Z) :
  PyStr.str_of_int a = PyStr.str_of_int b -> a = b.
Proof.
  unfold PyStr.str_of_int. intros H.
  apply DecimalZ.to_int_inj.
  destruct (to_int_not_nil a) as [Ha1 Ha2], (to_int_not_nil b) as [Hb1 Hb2].
  pose proof (NilZero.isi _ Ha1 Ha2) as Ea.
  pose proof (NilZero.isi _ Hb1 Hb2) as Eb.
  rewrite H in Ea. rewrite Ea in Eb. congruence.
Qed.

Lemma foldl_fun_ext {A B : Type} (f g : B -> A -> B) (l : list A) (b : B) :
  (forall b a, f b a = g b a) -> foldl f b l = foldl g b l.
Proof.
  intros Hfg. revert b. induction l as [|a l IH]; intros b; simpl; [done|].
  by rewrite Hfg, IH.
Qed.

(** A loop over [range(0, len(l), bs)] that handles the slice starting at
    each index handles the whole list, in order. *)
Lemma foldl_range_chunks {A B : Type} (g : nat -> list A -> B -> B)
  (bs : nat) (l : list A) :
  0 < bs ->
  (forall i acc, g i [] acc = acc) ->
  (forall i l1 l2 acc, g i (l1 ++ l2) acc = g (i + length l1) l2 (g i l1 acc)) ->
  forall fuel start acc,
    length l <= start + fuel ->
    foldl (fun acc i => g i (take bs (drop i l)) acc) acc
          (range_from fuel start (length l) bs)
    = g start (drop start l) acc.
Proof.
  intros Hbs Hnil Happ fuel.
  induction fuel as [|fuel IH]; intros start acc Hlen; simpl.
  - rewrite drop_ge by lia. by rewrite Hnil.
  - destruct (start <? length l)%nat eqn:E.
    + apply Nat.ltb_lt in E. simpl.
      rewrite IH by lia.
      rewrite <- (take_drop bs (drop start l)) at 2.
      rewrite Happ. rewrite drop_drop.
      rewrite length_take, length_drop.
      destruct (decide (start + bs <= length l)).
      * by replace (start + bs `min` (length l - start)) with (start + bs) by lia.
      * rewrite (drop_ge l (start + bs)) by lia. by rewrite !Hnil.
    + apply Nat.ltb_ge in E. simpl.
      rewrite drop_ge by lia. by rewrite Hnil.
Qed.

Lemma slice_min {A : Type} (l : list A) (i bs : nat) :
  slice i (Nat.min (i + bs) (length l)) l = take bs (drop i l).
Proof.
  unfold slice.
  destruct (decide (i + bs <= length l)).
  - f_equal. lia.
  - rewrite !take_ge; [done | rewrite length_drop; lia | rewrite length_drop; lia].
Qed.

Lemma slice_plus {A : Type} (l : list A) (i bs : nat) :
  slice i (i + bs) l = take bs (drop i l).
Proof. unfold slice. f_equal. lia. Qed.

Lemma filter_partition {A : Type} (f : A -> bool) (l : list A) :
  length (List.filter f l) + length (List.filter (fun x => negb (f x)) l)
  = length l.
Proof.
  induction l as [|x l IH]; simpl; [done|].
  destruct (f x); simpl; lia.
Qed.

End PyFacts.

(** ** The file collector *)

Module CollectorFacts.

Import CodeIndexer.

Lemma collect_app (self : CodeIndexer.t) (walk1 walk2 : list walked) :
  collect self (walk1 ++ walk2)
  = foldl (collect_step self) (collect self walk1) walk2.
Proof. unfold collect. apply foldl_app. Qed.

Lemma is_code_file_spec (p : string) :
  is_code_file p = true <-> PyStr.lower (PathLib.suffix p) ∈ CODE_EXTENSIONS.
Proof. unfold is_code_file. apply bool_decide_eq_true. Qed.

(** A name without any dot has no suffix. *)
Lemma suffix_without_dot (p : string) :
  PyStr.rfind "." (PathLib.name p) = None -> PathLib.suffix p = "".
Proof. unfold PathLib.suffix. by intros ->. Qed.

(** C10: a file whose name has no dot-suffix is never a code file and the
    walk of [ingest_directory] collects nothing for it, although
    [".dockerfile"] and [".makefile"] are in [CODE_EXTENSIONS]: whether a
    file is taken depends only on whether its lowered suffix is in that
    set. *)
Theorem no_suffix_never_collected (p : string) :
  PathLib.suffix p = "" ->
  is_code_file p = false
  /\ (forall self walk1 w walk2,
        os_path_join w.(w_root) w.(w_file) = p ->
        collect self (walk1 ++ w :: walk2) = collect self (walk1 ++ walk2))
  /\ (forall q, is_code_file q = true
                <-> PyStr.lower (PathLib.suffix q) ∈ CODE_EXTENSIONS)
  /\ ".dockerfile" ∈ CODE_EXTENSIONS /\ ".makefile" ∈ CODE_EXTENSIONS.
Proof.
  intros Hsuf.
  assert (Hno : is_code_file p = false).
  { unfold is_code_file. rewrite Hsuf. vm_compute. reflexivity. }
  split; [exact Hno|]. split; [|split; [exact is_code_file_spec|]].
  - intros self walk1 w walk2 Hp.
    rewrite !collect_app. simpl. f_equal.
    unfold collect_step. rewrite Hp, Hno.
    rewrite orb_true_r. reflexivity.
  - split;
      [apply (bool_decide_eq_true_1 (".dockerfile" ∈ CODE_EXTENSIONS))
      |apply (bool_decide_eq_true_1 (".makefile" ∈ CODE_EXTENSIONS))];
      vm_compute; reflexivity.
Qed.

Lemma no_suffix_never_collected_witness :
  PathLib.suffix "repo/Dockerfile" = ""
  /\ is_code_file "repo/Dockerfile" = false.
Proof.
  split; [reflexivity|].
  apply (no_suffix_never_collected "repo/Dockerfile"). reflexivity.
Defined.

End CollectorFacts.

(** ** The post-processing of a summary *)

Module SummaryFacts.

Import FileSummary.

(** The loop that adds the bonuses computes the sum of the bonuses of the
    indicators found. *)
Lemma fold_bonus (text : string) (l : list (string * Z)) (acc : Z) :
  List.fold_left
    (fun (a : Z) '(indicator, score) =>
       if PyStr.contains indicator text then (a + score)%Z else a) l acc
  = (acc + foldr Z.add 0
             (List.map snd
                (List.filter (fun ind => PyStr.contains ind.1 text) l)))%Z.
Proof.
  revert acc. induction l as [|[ind sc] l IH]; intros acc; simpl.
  - lia.
  - rewrite IH. destruct (PyStr.contains ind text); simpl; lia.
Qed.

Lemma ai_complexity_spec (line_count : Z) (summary : string) :
  ai_complexity line_count summary = spec_complexity line_count summary.
Proof.
  unfold ai_complexity, spec_complexity, indicator_bonus.
  rewrite fold_bonus. reflexivity.
Qed.

(** C8: the complexity score [_calculate_ai_complexity] stores is
    [min(min(line_count // 25, 15) + the bonuses of the indicator phrases
    found in the lowered summary, 25)], so it never exceeds 25; a summary
    built by the constructor carries the score of its own line count and
    summary text. *)
Theorem complexity_score_formula (self : FileSummary.t) :
  complexity_score (_calculate_ai_complexity self)
  = spec_complexity (line_count self) (ai_summary self)
  /\ (complexity_score (_calculate_ai_complexity self) <= 25)%Z
  /\ (forall path content lang client,
        complexity_score (init path content lang client)
        = spec_complexity (line_count (init path content lang client))
                          (ai_summary (init path content lang client))).
Proof.
  split; [apply ai_complexity_spec|]. split.
  - cbn [_calculate_ai_complexity complexity_score].
    unfold ai_complexity. lia.
  - intros. rewrite <- ai_complexity_spec. reflexivity.
Qed.

(** C6, as stated, fails: an [sql] file whose summary mentions a class is
    classified by the keyword rule, not by its language. *)
Lemma sql_classified_by_keywords_first : ~ claimed_classification.
Proof.
  intros H. specialize (H "sql" "Defines a class"). vm_compute in H.
  discriminate H.
Qed.

(** C6, amended: the configuration languages and markdown decide the file
    type on their own; for every other language a summary with both
    markers is [mixed_code], one with [class] alone is [class_based], one
    with [function] alone is [functional], and only a summary with neither
    marker is classified by the languages [sql] and [docker]. The file
    type stored by [_extract_metadata_from_summary] is this
    classification. *)
Theorem classify_rules (language summary : string) :
  (in_list language config_languages = true ->
   classify language summary = "configuration")
  /\ (in_list language config_languages = false ->
      language = "markdown" ->
      classify language summary = "documentation")
  /\ (in_list language config_languages = false ->
      language <> "markdown" ->
      (PyStr.contains "class" (PyStr.lower summary) = true ->
       PyStr.contains "function" (PyStr.lower summary) = true ->
       classify language summary = "mixed_code")
      /\ (PyStr.contains "class" (PyStr.lower summary) = true ->
          PyStr.contains "function" (PyStr.lower summary) = false ->
          classify language summary = "class_based")
      /\ (PyStr.contains "class" (PyStr.lower summary) = false ->
          PyStr.contains "function" (PyStr.lower summary) = true ->
          classify language summary = "functional")
      /\ (PyStr.contains "class" (PyStr.lower summary) = false ->
          PyStr.contains "function" (PyStr.lower summary) = false ->
          classify language summary
          = if String.eqb language "sql" then "database"
            else if String.eqb language "docker" then "container"
            else "script"))
  /\ (forall self,
        file_type (_extract_metadata_from_summary self)
        = classify (FileSummary.language self) (ai_summary self)).
Proof.
  unfold classify.
  split; [intros H; rewrite H; reflexivity|].
  split; [intros H ->; rewrite H; reflexivity|].
  split; [|reflexivity].
  intros H Hmd. apply String.eqb_neq in Hmd. rewrite H, Hmd.
  repeat split; intros H1 H2; rewrite H1, ?H2; reflexivity.
Qed.

Lemma classify_rules_witness :
  classify "python" "A class with one function." = "mixed_code"
  /\ classify "python" "A class." = "class_based".
Proof.
  split.
  - apply (classify_rules "python" "A class with one function.");
      [reflexivity | discriminate | reflexivity | reflexivity].
  - apply (classify_rules "python" "A class.");
      [reflexivity | discriminate | reflexivity | reflexivity].
Defined.

End SummaryFacts.

(** ** The summary store *)

Module StoreFacts.

Import CodeIndexer.

(** *** The collection *)

Lemma lookup_delete_list (l : list string) (c : gmap string Chroma.record)
  (k : string) :
  Chroma.delete l c !! k = if bool_decide (k ∈ l) then None else c !! k.
Proof.
  induction l as [|x l IH]; simpl.
  - reflexivity.
  - destruct (decide (x = k)) as [->|Hne].
    + rewrite lookup_delete_eq. rewrite bool_decide_eq_true_2; [done|].
      by left.
    + rewrite lookup_delete_ne by done. rewrite IH.
      destruct (decide (k ∈ l)) as [Hin|Hout].
      * rewrite !bool_decide_eq_true_2; [done| by right | done].
      * rewrite !bool_decide_eq_false_2; [done| | done].
        intros [Heq|Hin]%elem_of_cons; [by apply Hne | by apply Hout].
Qed.

Lemma delete_all_ids (c : gmap string Chroma.record) :
  Chroma.delete (Chroma.ids c) c = ∅.
Proof.
  apply map_eq. intros k. rewrite lookup_delete_list, lookup_empty.
  case_bool_decide as Hk; [done|].
  destruct (c !! k) as [r|] eqn:E; [|done].
  exfalso. apply Hk. unfold Chroma.ids.
  apply list_elem_of_fmap. exists (k, r). split; [done|].
  by apply elem_of_map_to_list.
Qed.

(** An ingestion starts from an empty collection. *)
Lemma clear_collection_empty (c : gmap string Chroma.record) :
  clear_collection c = ∅.
Proof.
  unfold clear_collection.
  destruct (Chroma.ids c) eqn:E.
  - unfold Chroma.ids in E. apply fmap_nil_inv in E.
    by apply map_to_list_empty_iff in E.
  - rewrite <- E. apply delete_all_ids.
Qed.

(** [add] keeps what is stored and adds the entries whose id is new. *)
Lemma add_union (entries : list (string * Chroma.record))
  (c : gmap string Chroma.record) :
  Chroma.add entries c = c ∪ list_to_map entries.
Proof.
  revert c. induction entries as [|[k v] es IH]; intros c.
  - simpl. by rewrite (right_id_L ∅ (∪)).
  - unfold Chroma.add in *. simpl. rewrite IH.
    apply map_eq. intros j.
    destruct (c !! k) as [r|] eqn:E.
    + rewrite !lookup_union.
      destruct (decide (k = j)) as [->|Hne].
      * rewrite E, lookup_insert_eq. by destruct (list_to_map es !! j).
      * by rewrite lookup_insert_ne.
    + rewrite !lookup_union.
      destruct (decide (k = j)) as [->|Hne].
      * rewrite !lookup_insert_eq, E. simpl. by destruct (list_to_map es !! j).
      * by rewrite !lookup_insert_ne.
Qed.

Lemma add_app (es1 es2 : list (string * Chroma.record))
  (c : gmap string Chroma.record) :
  Chroma.add (es1 ++ es2) c = Chroma.add es2 (Chroma.add es1 c).
Proof. unfold Chroma.add. apply foldl_app. Qed.

(** Adding in batches adds every entry, in order. *)
Lemma add_in_batches_add (bs : nat) (entries : list (string * Chroma.record))
  (c : gmap string Chroma.record) :
  0 < bs -> add_in_batches bs entries c = Chroma.add entries c.
Proof.
  intros Hbs. unfold add_in_batches, range_step.
  rewrite (PyFacts.foldl_fun_ext _
             (fun acc i => (fun _ l a => Chroma.add l a) i
                             (take bs (drop i entries)) acc))
    by (intros acc i; by rewrite PyFacts.slice_min).
  rewrite (PyFacts.foldl_range_chunks (fun _ l a => Chroma.add l a)
             bs entries Hbs); [done | done | | lia].
  intros _ l1 l2 acc. apply add_app.
Qed.

(** *** [ingest_directory] *)

Lemma init_file_path (path content : string) (lang : option string)
  (client : option FileSummary.client) :
  FileSummary.file_path (FileSummary.init path content lang client) = path.
Proof.
  unfold FileSummary.init, FileSummary._generate_ai_summary.
  destruct client as [complete|]; [|reflexivity].
  simpl. destruct (complete _ _ _); reflexivity.
Qed.

Lemma record_of_file_path (self : CodeIndexer.t) (path content : string) :
  Chroma.md_file_path
    (Chroma.meta (record_of (create_file_summary self path content))) = path.
Proof. apply init_file_path. Qed.

Lemma collect_step_indexed (self : CodeIndexer.t) (acc : collected)
  (w : walked) :
  c_indexed acc = List.map FileSummary.file_path (c_summaries acc) ->
  c_indexed (collect_step self acc w)
  = List.map FileSummary.file_path (c_summaries (collect_step self acc w)).
Proof.
  intros H. unfold collect_step.
  destruct (should_ignore _ || negb (is_code_file _)); [done|].
  destruct (w_read w); [done|]. cbn [c_indexed c_summaries].
  rewrite List.map_app, H. cbn [List.map]. unfold create_file_summary.
  by rewrite init_file_path.
Qed.

(** The list an ingestion returns is the list of the paths of the
    summaries it made. *)
Lemma collect_indexed (self : CodeIndexer.t) (walk : list walked) :
  c_indexed (collect self walk)
  = List.map FileSummary.file_path (c_summaries (collect self walk)).
Proof.
  unfold collect.
  assert (forall acc,
    c_indexed acc = List.map FileSummary.file_path (c_summaries acc) ->
    c_indexed (foldl (collect_step self) acc walk)
    = List.map FileSummary.file_path
        (c_summaries (foldl (collect_step self) acc walk))) as H.
  { induction walk as [|w walk IH]; intros acc Hacc; simpl; [done|].
    apply IH. by apply collect_step_indexed. }
  by apply H.
Qed.

Lemma summary_id_inj (i j : nat) : summary_id i = summary_id j -> i = j.
Proof.
  unfold summary_id. simpl. intros [= H].
  apply PyFacts.str_of_int_inj in H. lia.
Qed.

Lemma elem_of_enumerate_entries (summaries : list FileSummary.t)
  (k : string) (r : Chroma.record) :
  (k, r) ∈ enumerate_entries summaries
  <-> exists i s, summaries !! i = Some s /\ k = summary_id i /\ r = record_of s.
Proof.
  unfold enumerate_entries. rewrite elem_of_lookup_imap.
  split.
  - intros (i & s & [= -> ->] & Hs). eauto.
  - intros (i & s & Hs & -> & ->). exists i, s. eauto.
Qed.

Lemma NoDup_enumerate_ids (summaries : list FileSummary.t) :
  NoDup ((enumerate_entries summaries).*1).
Proof.
  apply NoDup_alt. intros i j k Hi Hj.
  unfold enumerate_entries in *.
  rewrite list_lookup_fmap, list_lookup_imap in Hi, Hj.
  destruct (summaries !! i) as [si|]; [|done].
  destruct (summaries !! j) as [sj|]; [|done].
  cbn [fmap option_fmap option_map fst] in Hi, Hj.
  apply summary_id_inj. congruence.
Qed.

Lemma lookup_enumerate (summaries : list FileSummary.t) (k : string)
  (r : Chroma.record) :
  (list_to_map (enumerate_entries summaries) : gmap string Chroma.record) !! k
  = Some r
  <-> exists i s, summaries !! i = Some s /\ k = summary_id i /\ r = record_of s.
Proof.
  rewrite <- elem_of_enumerate_entries.
  pose proof (elem_of_list_to_map (M := gmap string)
                (enumerate_entries summaries) k r
                (NoDup_enumerate_ids summaries)) as H.
  split; intros H'; by apply H.
Qed.

(** After an ingestion the collection holds the enumerated summaries and
    nothing else. *)
Lemma ingest_collection (self : CodeIndexer.t) (walk : list walked) :
  collection (ingest_directory self walk).1
  = list_to_map (enumerate_entries (c_summaries (collect self walk))).
Proof.
  unfold ingest_directory. simpl.
  rewrite clear_collection_empty, add_in_batches_add by lia.
  rewrite add_union. by rewrite (left_id_L ∅ (∪)).
Qed.

Lemma records_of_path_enumerate (summaries : list FileSummary.t) (i : nat)
  (s : FileSummary.t) :
  NoDup (List.map FileSummary.file_path summaries) ->
  summaries !! i = Some s ->
  Chroma.records_of_path (FileSummary.file_path s)
    (list_to_map (enumerate_entries summaries))
  = {[ summary_id i := record_of s ]}.
Proof.
  intros Hnd Hi. apply map_eq. intros k. apply option_eq. intros r.
  unfold Chroma.records_of_path.
  rewrite map_lookup_filter_Some, lookup_enumerate, lookup_singleton_Some.
  simpl. split.
  - intros [(j & s' & Hj & -> & ->) Hp]. simpl in Hp.
    assert (j = i) as ->.
    { eapply NoDup_lookup; [exact Hnd| |].
      - rewrite list_lookup_fmap, Hj. simpl. by rewrite Hp.
      - by rewrite list_lookup_fmap, Hi. }
    rewrite Hi in Hj. by injection Hj as ->.
  - intros [<- <-]. split; [|done]. eauto.
Qed.

Lemma ingest_one_record (self : CodeIndexer.t) (walk : list walked)
  (i : nat) (p : string) :
  NoDup (ingest_directory self walk).2 ->
  (ingest_directory self walk).2 !! i = Some p ->
  exists s,
    c_summaries (collect self walk) !! i = Some s
    /\ FileSummary.file_path s = p
    /\ Chroma.records_of_path p (collection (ingest_directory self walk).1)
       = {[ summary_id i := record_of s ]}.
Proof.
  rewrite ingest_collection.
  change ((ingest_directory self walk).2) with (c_indexed (collect self walk)).
  rewrite collect_indexed. intros Hnd Hi.
  rewrite list_lookup_fmap in Hi.
  destruct (c_summaries (collect self walk) !! i) as [s|] eqn:Hs; [|done].
  injection Hi as <-. exists s. split; [done|]. split; [done|].
  by apply records_of_path_enumerate.
Qed.

(** *** [index_file] *)

Lemma elem_of_ids_where (p : string) (c : gmap string Chroma.record)
  (k : string) :
  k ∈ Chroma.ids_where_file_path p c
  <-> exists r, c !! k = Some r /\ Chroma.md_file_path (Chroma.meta r) = p.
Proof.
  unfold Chroma.ids_where_file_path. rewrite list_elem_of_fmap. split.
  - intros ([k' r] & -> & H). apply elem_of_map_to_list in H.
    apply map_lookup_filter_Some in H. simpl in *. eauto.
  - intros (r & H1 & H2). exists (k, r). split; [done|].
    apply elem_of_map_to_list. by apply map_lookup_filter_Some.
Qed.

(** The forced removal leaves exactly the records of the other paths. *)
Lemma lookup_remove_path (p : string) (c : gmap string Chroma.record)
  (k : string) (r : Chroma.record) :
  Chroma.remove_path p c !! k = Some r
  <-> c !! k = Some r /\ Chroma.md_file_path (Chroma.meta r) <> p.
Proof.
  assert (Chroma.delete (Chroma.ids_where_file_path p c) c !! k = Some r
          <-> c !! k = Some r /\ Chroma.md_file_path (Chroma.meta r) <> p)
    as Hdel.
  { rewrite lookup_delete_list. case_bool_decide as Hk.
    - apply elem_of_ids_where in Hk as (r' & Hr' & Hp). split; [done|].
      intros [H1 H2]. congruence.
    - split; [|tauto]. intros H. split; [done|]. intros Hp. apply Hk.
      apply elem_of_ids_where. eauto. }
  unfold Chroma.remove_path.
  destruct (Chroma.ids_where_file_path p c) eqn:E; exact Hdel.
Qed.

Lemma records_after_reindex (p sid : string) (rec : Chroma.record)
  (c : gmap string Chroma.record) :
  Chroma.md_file_path (Chroma.meta rec) = p ->
  (forall r, c !! sid = Some r -> Chroma.md_file_path (Chroma.meta r) = p) ->
  Chroma.records_of_path p (Chroma.add [(sid, rec)] (Chroma.remove_path p c))
  = {[ sid := rec ]}.
Proof.
  intros Hrec Hid. apply map_eq. intros k. apply option_eq. intros r.
  unfold Chroma.records_of_path.
  rewrite add_union.
  assert (list_to_map [(sid, rec)]
          = ({[ sid := rec ]} : gmap string Chroma.record)) as -> by done.
  rewrite map_lookup_filter_Some, lookup_union_Some_raw.
  rewrite lookup_remove_path, !lookup_singleton_Some. cbn [snd].
  split.
  - intros [[[H1 H2]|[H1 H2]] Hp]; done.
  - intros [Hk Hr]. subst k r. split; [|done]. right. split; [|done].
    destruct (Chroma.remove_path p c !! sid) as [r|] eqn:E; [|done].
    apply lookup_remove_path in E as [E1 E2]. by apply Hid in E1.
Qed.

Lemma index_file_force (md5 relpath : string -> string)
  (disk : string -> option (result string)) (self : CodeIndexer.t)
  (file_path : string) (self' : CodeIndexer.t) :
  index_file md5 relpath disk self file_path true = (self', true) ->
  (forall r,
     collection self !! path_id md5 (relative_path_of relpath file_path)
     = Some r ->
     Chroma.md_file_path (Chroma.meta r) = relative_path_of relpath file_path) ->
  exists content,
    disk file_path = Some (Return content)
    /\ Chroma.records_of_path (relative_path_of relpath file_path)
         (collection self')
       = {[ path_id md5 (relative_path_of relpath file_path)
            := record_of (create_file_summary self
                            (relative_path_of relpath file_path) content) ]}.
Proof.
  unfold index_file. intros H Hid.
  destruct (disk file_path) as [[e|content]|]; [done| |done].
  destruct (negb (is_code_file file_path)); [done|].
  injection H as <-. exists content. split; [done|].
  cbn [collection].
  apply (records_after_reindex _ _ _ (collection self)); [|done].
  apply record_of_file_path.
Qed.

(** C1, as stated, fails. The id [ingest_directory] gives a path is the
    position of the file in the walk: [b.py] is [file_1] after one
    ingestion and [file_0] after another. And [index_file] without
    [force_reindex] adds a second record for a path that an ingestion
    stored. *)
Lemma ingest_ids_follow_position :
  Chroma.ids_where_file_path "b.py"
    (collection (ingest_directory Examples.empty_indexer
                   [Examples.walked_a; Examples.walked_b]).1) = ["file_1"]
  /\ Chroma.ids_where_file_path "b.py"
       (collection (ingest_directory Examples.empty_indexer
                      [Examples.walked_b]).1) = ["file_0"]
  /\ size (Chroma.records_of_path "b.py"
             (collection
                (index_file Examples.md5_b_py id Examples.disk_b_py
                   (ingest_directory Examples.empty_indexer
                      [Examples.walked_b]).1 "b.py" false).1)) = 2.
Proof. vm_compute. auto. Qed.

(** C1, amended: after [ingest_directory], which clears the collection
    first, each returned path has exactly one record, stored under the id
    [file_<i>] of its position [i] in the walk (the returned paths being
    distinct); [index_file] derives the id from the path alone, as
    [file_] followed by the MD5 digest of the path, and with
    [force_reindex] it first deletes the records of the path, so that
    afterwards exactly one record has that path, made from the content
    just read (provided the id is not held by a record of another path). *)
Theorem one_record_per_indexed_path :
  (forall (self : CodeIndexer.t) (walk : list walked) (i : nat) (p : string),
     NoDup (ingest_directory self walk).2 ->
     (ingest_directory self walk).2 !! i = Some p ->
     exists s,
       c_summaries (collect self walk) !! i = Some s
       /\ FileSummary.file_path s = p
       /\ Chroma.records_of_path p (collection (ingest_directory self walk).1)
          = {[ summary_id i := record_of s ]})
  /\ (forall (md5 relpath : string -> string)
        (disk : string -> option (result string))
        (self : CodeIndexer.t) (file_path : string) (self' : CodeIndexer.t),
        index_file md5 relpath disk self file_path true = (self', true) ->
        (forall r,
           collection self !! path_id md5 (relative_path_of relpath file_path)
           = Some r ->
           Chroma.md_file_path (Chroma.meta r)
           = relative_path_of relpath file_path) ->
        exists content,
          disk file_path = Some (Return content)
          /\ Chroma.records_of_path (relative_path_of relpath file_path)
               (collection self')
             = {[ path_id md5 (relative_path_of relpath file_path)
                  := record_of (create_file_summary self
                                  (relative_path_of relpath file_path)
                                  content) ]}).
Proof. split; [exact ingest_one_record | exact index_file_force]. Qed.

Lemma one_record_per_indexed_path_witness :
  NoDup (ingest_directory Examples.empty_indexer
           [Examples.walked_a; Examples.walked_b]).2
  /\ (ingest_directory Examples.empty_indexer
        [Examples.walked_a; Examples.walked_b]).2 !! 1 = Some "b.py"
  /\ exists s,
       c_summaries (collect Examples.empty_indexer
                      [Examples.walked_a; Examples.walked_b]) !! 1 = Some s
       /\ FileSummary.file_path s = "b.py"
       /\ Chroma.records_of_path "b.py"
            (collection (ingest_directory Examples.empty_indexer
                           [Examples.walked_a; Examples.walked_b]).1)
          = {[ summary_id 1 := record_of s ]}.
Proof.
  assert (Hnd : NoDup (ingest_directory Examples.empty_indexer
                         [Examples.walked_a; Examples.walked_b]).2).
  { apply (bool_decide_unpack _). vm_compute. exact I. }
  split; [exact Hnd|]. split; [reflexivity|].
  apply (proj1 one_record_per_indexed_path Examples.empty_indexer
           [Examples.walked_a; Examples.walked_b] 1 "b.py" Hnd).
  reflexivity.
Defined.

End StoreFacts.

(** ** The parallel coordinator *)

Module CoordinatorFacts.

Import CodeIndexer.

(** A task returns the path it was given. *)
Lemma task_path (session : nat -> string -> exchange) (i : nat)
  (fd : string * string) : (task_result session i fd).1 = fd.1.
Proof.
  unfold task_result, generate_single_file_summary, request_summary.
  destruct (session i _) as [status json text|e].
  - destruct (status =? 200)%Z.
    + destruct json as [e|s]; simpl; [by destruct e|done].
    + destruct text as [e|s]; simpl; [by destruct e|done].
  - by destruct e.
Qed.

Lemma gather_app (session : nat -> string -> exchange) (i : nat)
  (l1 l2 : list (string * string)) :
  gather session i (l1 ++ l2)
  = gather session i l1 ++ gather session (i + length l1) l2.
Proof.
  unfold gather. rewrite imap_app. f_equal.
  apply imap_ext. intros k [fp content] _. simpl.
  by rewrite Nat.add_assoc.
Qed.

Lemma store_results_app (r1 r2 : list (result (string * string)))
  (acc : gmap string string * nat) :
  store_results (r1 ++ r2) acc = store_results r2 (store_results r1 acc).
Proof. unfold store_results. apply foldl_app. Qed.

(** Gathering chunk after chunk stores what gathering all tasks stores. *)
Lemma all_chunks (session : nat -> string -> exchange)
  (file_data : list (string * string)) (acc : gmap string string * nat) :
  foldl (fun acc i =>
           store_results (gather session i (slice i (i + 50) file_data)) acc)
        acc (range_step (length file_data) 50)
  = store_results (gather session 0 file_data) acc.
Proof.
  unfold range_step.
  rewrite (PyFacts.foldl_fun_ext _
             (fun acc i =>
                (fun i l a => store_results (gather session i l) a) i
                  (take 50 (drop i file_data)) acc))
    by (intros b i; by rewrite PyFacts.slice_plus).
  rewrite (PyFacts.foldl_range_chunks
             (fun i l a => store_results (gather session i l) a) 50 file_data);
    [done | lia | done | | lia].
  intros i l1 l2 a. by rewrite gather_app, store_results_app.
Qed.

(** No gathered entry is an exception. *)
Lemma gather_returns (session : nat -> string -> exchange)
  (file_data : list (string * string)) :
  gather session 0 file_data = Return <$> tasks_of session file_data.
Proof.
  unfold gather, tasks_of. apply list_eq. intros i.
  rewrite list_lookup_fmap, !list_lookup_imap.
  by destruct (file_data !! i) as [[fp content]|].
Qed.

Lemma store_results_returns (tasks : list (string * string))
  (m : gmap string string) (c : nat) :
  store_results (Return <$> tasks) (m, c)
  = (foldl (fun m kv => <[kv.1 := kv.2]> m) m tasks, c + length tasks).
Proof.
  unfold store_results. revert m c.
  induction tasks as [|[k v] tasks IH]; intros m c; simpl.
  - f_equal. lia.
  - rewrite IH. f_equal. lia.
Qed.

Lemma foldl_insert_lookup (tasks : list (string * string))
  (m : gmap string string) (k v : string) :
  NoDup (tasks.*1) ->
  foldl (fun m kv => <[kv.1 := kv.2]> m) m tasks !! k = Some v
  <-> ((k, v) ∈ tasks \/ (~ k ∈ (tasks.*1) /\ m !! k = Some v)).
Proof.
  revert m. induction tasks as [|[k' v'] tasks IH]; intros m Hnd; simpl.
  - split; [intros H; right; split; [apply not_elem_of_nil | done]|].
    intros [H|[_ H]]; [by apply elem_of_nil in H | done].
  - apply NoDup_cons in Hnd as [Hk' Hnd]. rewrite IH by done.
    rewrite lookup_insert_Some. rewrite elem_of_cons, not_elem_of_cons.
    split.
    + intros [H|[H1 [[-> ->]|[H2 H3]]]]; [by left; right| by left; left |].
      right. split; [|done]. split; [congruence|done].
    + intros [[[= -> ->]|H]|[[H1 H2] H3]].
      * right. split; [done|]. by left.
      * by left.
      * right. split; [done|]. right. split; [congruence|done].
Qed.

Lemma foldl_insert_size (tasks : list (string * string))
  (m : gmap string string) :
  NoDup (tasks.*1) ->
  (forall k, k ∈ tasks.*1 -> m !! k = None) ->
  size (foldl (fun m kv => <[kv.1 := kv.2]> m) m tasks)
  = size m + length tasks.
Proof.
  revert m. induction tasks as [|[k v] tasks IH]; intros m Hnd Hfresh; simpl.
  - lia.
  - apply NoDup_cons in Hnd as [Hk Hnd].
    rewrite IH; [|done|].
    + rewrite map_size_insert_None; [lia|]. apply Hfresh. by left.
    + intros k' Hk'. rewrite lookup_insert_ne.
      * apply Hfresh. by right.
      * intros ->. by apply Hk.
Qed.

Lemma tasks_paths (session : nat -> string -> exchange)
  (file_data : list (string * string)) :
  (tasks_of session file_data).*1 = file_data.*1.
Proof.
  unfold tasks_of. apply list_eq. intros i.
  rewrite !list_lookup_fmap, list_lookup_imap.
  destruct (file_data !! i) as [fd|]; simpl; [|done].
  by rewrite task_path.
Qed.

(** The coordinator builds the dictionary of the task results and then
    divides by its size. *)
Lemma coordinator_results (session : nat -> string -> exchange)
  (file_data : list (string * string)) :
  generate_all_summaries_parallel session file_data
  = if (size (foldl (fun m kv => <[kv.1 := kv.2]> m)
                    (∅ : gmap string string)
                    (tasks_of session file_data)) =? 0)%nat
    then Raise ZeroDivisionError
    else Return (foldl (fun m kv => <[kv.1 := kv.2]> m) ∅
                       (tasks_of session file_data)).
Proof.
  unfold generate_all_summaries_parallel.
  rewrite all_chunks, gather_returns, store_results_returns. reflexivity.
Qed.

Lemma error_marker_of_failure (session : nat -> string -> exchange)
  (i : nat) (fd : string * string) :
  call_succeeded session i fd = false ->
  PyStr.startswith "Error: " (task_result session i fd).2 = true.
Proof.
  unfold call_succeeded, succeeded, task_result, generate_single_file_summary,
    request_summary.
  destruct (session i _) as [status json text|e].
  - destruct json as [e|s].
    + intros _. destruct (status =? 200)%Z; simpl.
      * by destruct e.
      * destruct text as [e'|t]; [by destruct e'|done].
    + intros ->. destruct text as [e'|t]; [by destruct e'|done].
  - intros _. by destruct e.
Qed.

Lemma summary_of_success (session : nat -> string -> exchange)
  (i : nat) (fd : string * string) :
  call_succeeded session i fd = true ->
  exists text summary,
    session i (summary_prompt fd.1 fd.2) = Response 200 (Return summary) text
    /\ task_result session i fd = (fd.1, summary).
Proof.
  unfold call_succeeded, succeeded, task_result, generate_single_file_summary,
    request_summary.
  destruct (session i _) as [status json text|e]; [|done].
  destruct json as [e|s]; [done|].
  intros H. rewrite H. apply Z.eqb_eq in H as ->. eauto.
Qed.

(** C3, as stated, fails on the empty batch: the closing log line divides
    by the number of results and the coordinator raises. *)
Lemma empty_batch_raises :
  generate_all_summaries_parallel Examples.never_answers []
  = Raise ZeroDivisionError.
Proof. reflexivity. Qed.

(** C3, amended: for every non-empty batch of N pairs with distinct paths
    the coordinator returns a mapping with exactly the N paths; the path of
    a call that succeeded maps to the summary text the service returned,
    the path of a call that failed (timeout, transport error, non-success
    status, malformed payload) maps to an error marker that starts with
    [Error: ], and each entry depends on its own call only; with M failed
    calls, N-M paths are of the first kind and M of the second. *)
Theorem batch_results (session : nat -> string -> exchange)
  (file_data : list (string * string)) :
  file_data <> [] ->
  NoDup (file_data.*1) ->
  exists results,
    generate_all_summaries_parallel session file_data = Return results
    /\ size results = length file_data
    /\ (forall p, is_Some (results !! p) <-> p ∈ file_data.*1)
    /\ (forall i fd, file_data !! i = Some fd ->
          results !! fd.1 = Some (task_result session i fd).2
          /\ (call_succeeded session i fd = true ->
              exists text summary,
                session i (summary_prompt fd.1 fd.2)
                = Response 200 (Return summary) text
                /\ results !! fd.1 = Some summary)
          /\ (call_succeeded session i fd = false ->
              exists marker,
                results !! fd.1 = Some marker
                /\ PyStr.startswith "Error: " marker = true))
    /\ length (ok_paths session file_data)
       = length file_data - length (failed_paths session file_data).
Proof.
  intros Hne Hnd. rewrite coordinator_results.
  set (tasks := tasks_of session file_data).
  set (results := foldl _ ∅ tasks).
  assert (Hnd' : NoDup (tasks.*1)) by (unfold tasks; by rewrite tasks_paths).
  assert (Hsize : size results = length file_data).
  { unfold results. rewrite foldl_insert_size; [|done|by intros].
    rewrite map_size_empty. unfold tasks, tasks_of. by rewrite length_imap. }
  assert (Hlook : forall i fd, file_data !! i = Some fd ->
            results !! fd.1 = Some (task_result session i fd).2).
  { intros i fd Hi. unfold results. apply foldl_insert_lookup; [done|]. left.
    apply list_elem_of_lookup. exists i. unfold tasks, tasks_of.
    rewrite list_lookup_imap, Hi. simpl. f_equal.
    rewrite <- (task_path session i fd). by destruct (task_result session i fd). }
  exists results. split.
  { destruct (size results =? 0)%nat eqn:E; [|done].
    apply Nat.eqb_eq in E. destruct file_data; [done|]. simpl in *. lia. }
  split; [done|]. split; [|split].
  - intros p. split.
    + intros [v Hv]. apply foldl_insert_lookup in Hv as [Hv|[_ Hv]]; [|done|done].
      rewrite <- (tasks_paths session). fold tasks.
      apply list_elem_of_fmap. by exists (p, v).
    + intros Hp. apply list_elem_of_fmap in Hp as (fd & -> & Hfd).
      apply list_elem_of_lookup in Hfd as [i Hi]. rewrite (Hlook i fd Hi). eauto.
  - intros i fd Hi. split; [by apply Hlook|]. split.
    + intros Hok.
      destruct (summary_of_success _ _ _ Hok) as (text & summary & H1 & H2).
      exists text, summary. split; [done|]. rewrite (Hlook i fd Hi). by rewrite H2.
    + intros Hfail. eexists. split; [by apply Hlook|].
      by apply error_marker_of_failure.
  - unfold ok_paths, failed_paths. rewrite !length_fmap.
    pose proof (PyFacts.filter_partition
                  (fun task => call_succeeded session task.1 task.2)
                  (imap pair file_data)) as Hp.
    rewrite length_imap in Hp. lia.
Qed.

Lemma batch_results_witness :
  Examples.three_files <> []
  /\ NoDup (Examples.three_files.*1)
  /\ exists results,
       generate_all_summaries_parallel Examples.mixed_session
         Examples.three_files = Return results
       /\ size results = 3.
Proof.
  assert (Hne : Examples.three_files <> []) by discriminate.
  assert (Hnd : NoDup (Examples.three_files.*1)).
  { apply (bool_decide_unpack _). vm_compute. exact I. }
  split; [exact Hne|]. split; [exact Hnd|].
  destruct (batch_results Examples.mixed_session Examples.three_files Hne Hnd)
    as (results & Hret & Hsize & _).
  exists results. split; [exact Hret | exact Hsize].
Defined.

End CoordinatorFacts.

(** ** The admission semaphore *)

Module SchedulerFacts.

Import Scheduler.

(** Replacing the phase of one task changes the number of requests that
    are out by the difference of the weights. *)
Lemma count_insert (l : list phase) (i : nat) (old new : phase) :
  l !! i = Some old ->
  length (List.filter is_in_flight (<[i := new]> l)) + weight old
  = length (List.filter is_in_flight l) + weight new.
Proof.
  revert i. induction l as [|p l IH]; intros i Hi; [done|].
  destruct i as [|i]; simpl in *.
  - injection Hi as ->. unfold weight.
    destruct (is_in_flight old), (is_in_flight new); simpl; lia.
  - specialize (IH i Hi). destruct (is_in_flight p); simpl; lia.
Qed.

Lemma count_replicate_pending (n : nat) :
  length (List.filter is_in_flight (replicate n Pending)) = 0.
Proof. induction n; simpl; done. Qed.

(** Every step keeps the sum of the requests that are out and the tokens
    left in the semaphore. *)
Lemma step_invariant (file_data : list (string * string)) (K : nat)
  (s s' : state) :
  step file_data s s' ->
  in_flight s + sem s = K -> in_flight s' + sem s' = K.
Proof.
  intros Hstep Hinv.
  destruct Hstep as [s i Hc Hp Hsem|s i fp content post Hp Hfd|s Hdone];
    unfold in_flight in *; cbn [phases sem] in *.
  - pose proof (count_insert _ i Pending InFlight Hp) as H.
    change (weight Pending) with 0 in H.
    change (weight InFlight) with 1 in H. lia.
  - pose proof (count_insert _ i InFlight
                  (Finished (CodeIndexer.generate_single_file_summary
                               fp content post)) Hp) as H.
    change (weight InFlight) with 1 in H.
    change (weight (Finished _)) with 0 in H. lia.
  - done.
Qed.

Lemma reachable_invariant (K : nat) (file_data : list (string * string))
  (s : state) :
  reachable K file_data s -> in_flight s + sem s = K.
Proof.
  unfold reachable. revert s. apply rtc_ind_r.
  - unfold in_flight, initial. cbn [phases sem].
    by rewrite count_replicate_pending.
  - intros s s' _ Hstep IH. by eapply step_invariant.
Qed.

(** C4: in every state a run with concurrency limit K can reach, whatever
    the size of the batch, at most K summarization calls are in flight,
    the calls in flight and the tokens left always adding up to K; and a
    call in flight can complete with any outcome of its request, success
    or failure, which gives its token back and leaves one call fewer in
    flight. *)
Theorem in_flight_never_exceeds_limit (K : nat)
  (file_data : list (string * string)) (s : state) :
  reachable K file_data s ->
  in_flight s <= K
  /\ in_flight s + sem s = K
  /\ (forall i file_path content post,
        phases s !! i = Some InFlight ->
        file_data !! i = Some (file_path, content) ->
        exists s', step file_data s s'
                   /\ sem s' = sem s + 1
                   /\ in_flight s' + 1 = in_flight s
                   /\ phases s' !! i
                      = Some (Finished
                                (CodeIndexer.generate_single_file_summary
                                   file_path content post))).
Proof.
  intros Hreach. pose proof (reachable_invariant _ _ _ Hreach) as Hinv.
  split; [lia|]. split; [done|].
  intros i fp content post Hp Hfd.
  eexists. split; [by apply (step_release file_data s i fp content post)|].
  cbn [sem phases]. split; [done|]. split.
  - unfold in_flight. cbn [phases].
    pose proof (count_insert _ i InFlight
                  (Finished (CodeIndexer.generate_single_file_summary
                               fp content post)) Hp) as H.
    change (weight InFlight) with 1 in H.
    change (weight (Finished _)) with 0 in H. lia.
  - apply list_lookup_insert_eq. by eapply lookup_lt_Some.
Qed.

(** Two acquisitions lead from the start of a run of three files with
    limit two to the state with two requests out. *)
Lemma two_in_flight_reachable :
  reachable 2 Examples.three_files Examples.two_in_flight.
Proof.
  unfold reachable.
  eapply rtc_l.
  { apply (step_acquire Examples.three_files (initial 2 3) 0);
      [unfold in_chunk, chunk_size; simpl; lia | done | simpl; lia]. }
  eapply rtc_l.
  { apply (step_acquire Examples.three_files _ 1);
      [unfold in_chunk, chunk_size; simpl; lia | done | simpl; lia]. }
  apply rtc_refl.
Defined.

Lemma in_flight_never_exceeds_limit_witness :
  reachable 2 Examples.three_files Examples.two_in_flight
  /\ in_flight Examples.two_in_flight <= 2.
Proof.
  split; [exact two_in_flight_reachable|].
  apply (in_flight_never_exceeds_limit 2 Examples.three_files
           Examples.two_in_flight).
  exact two_in_flight_reachable.
Defined.

End SchedulerFacts.

(** ** The confidence score *)

Module ConfidenceFacts.

Import CodeIndexer SmartSummaryAgent.
Local Open Scope Q_scope.

Lemma fold_total_compat (ql : string) (S : list search_result) (u v : Q) :
  u == v -> total_confidence ql S u == total_confidence ql S v.
Proof.
  unfold total_confidence. revert u v.
  induction S as [|y S IH]; intros u v Huv; simpl; [done|].
  apply IH. by rewrite Huv.
Qed.

Lemma total_shift (ql : string) (S : list search_result) (a b : Q) :
  total_confidence ql S (a + b) == total_confidence ql S a + b.
Proof.
  revert a. induction S as [|x S IH]; intros a.
  - reflexivity.
  - change (total_confidence ql (x :: S) (a + b))
      with (total_confidence ql S (a + b + summary_confidence ql x)).
    change (total_confidence ql (x :: S) a)
      with (total_confidence ql S (a + summary_confidence ql x)).
    rewrite <- IH. apply fold_total_compat. ring.
Qed.

(** The total does not depend on where the added summary stands. *)
Lemma total_insert (ql : string) (S1 : list search_result)
  (s : search_result) (S2 : list search_result) :
  total_confidence ql (S1 ++ s :: S2) 0
  == total_confidence ql (S1 ++ S2) 0 + summary_confidence ql s.
Proof.
  unfold total_confidence. rewrite !fold_left_app. simpl.
  apply (total_shift ql S2).
Qed.

Lemma total_bound (ql : string) (S : list search_result) (b : Q) :
  (forall x, x ∈ S -> summary_confidence ql x <= b) ->
  total_confidence ql S 0 <= inject_Z (Z.of_nat (length S)) * b.
Proof.
  induction S as [|x S IH] using rev_ind; intros Hb.
  - unfold total_confidence. cbn [fold_left length].
    change (inject_Z (Z.of_nat 0)) with 0. lra.
  - unfold total_confidence in *. rewrite fold_left_app. simpl.
    rewrite length_app. simpl. rewrite Nat2Z.inj_add, inject_Z_plus.
    assert (summary_confidence ql x <= b).
    { apply Hb. apply elem_of_app. right. by apply list_elem_of_singleton. }
    assert (fold_left
              (fun total summary => total + summary_confidence ql summary) S 0
            <= inject_Z (Z.of_nat (length S)) * b).
    { apply IH. intros y Hy. apply Hb. apply elem_of_app. by left. }
    change (inject_Z (Z.of_nat 1)) with 1. lra.
Qed.

Lemma length_score_nonneg (text : string) : 0 <= length_score text.
Proof.
  unfold length_score. apply Q.min_glb; [|lra].
  unfold Qle, PyStr.len. simpl. lia.
Qed.

Lemma structure_score_bounds (text : string) :
  0 <= structure_score text /\ structure_score text <= 0.4.
Proof. unfold structure_score. destruct (any_in _ _); lra. Qed.

Lemma detail_score_nonneg (text : string) : 0 <= detail_score text.
Proof. unfold detail_score. destruct (any_in _ _); lra. Qed.

Lemma relevance_score_nonneg (words : list string) (text : string) :
  0 <= relevance_score words text.
Proof.
  unfold relevance_score. destruct words as [|w ws]; [lra|].
  apply Qle_shift_div_l.
  - unfold Qlt. simpl. lia.
  - rewrite Qmult_0_l. unfold Qle. simpl. lia.
Qed.

Lemma summary_confidence_nonneg (ql : string) (s : search_result) :
  0 <= summary_confidence ql s.
Proof.
  unfold summary_confidence.
  pose proof (length_score_nonneg (PyStr.lower (sr_summary s))).
  pose proof (structure_score_bounds (PyStr.lower (sr_summary s))) as [? _].
  pose proof (relevance_score_nonneg (PyStr.split_ws ql)
                (PyStr.lower (sr_summary s))).
  pose proof (detail_score_nonneg (PyStr.lower (sr_summary s))).
  lra.
Qed.

Lemma total_nonneg (ql : string) (S : list search_result) :
  0 <= total_confidence ql S 0.
Proof.
  induction S as [|x S IH] using rev_ind.
  - unfold total_confidence. simpl. lra.
  - unfold total_confidence in *. rewrite fold_left_app. simpl.
    pose proof (summary_confidence_nonneg ql x). lra.
Qed.

(** Adding a value that is at least the mean does not lower the mean. *)
Lemma mean_grows (T x n : Q) :
  0 < n -> T <= n * x -> T / n <= (T + x) / (n + 1).
Proof.
  intros Hn HT.
  assert (Ha : T / n <= x).
  { apply Qle_shift_div_r; [done|]. lra. }
  apply Qle_shift_div_l; [lra|].
  assert (HTn : T == (T / n) * n).
  { field. lra. }
  rewrite HTn at 2. lra.
Qed.

Lemma confidence_unfold (query : string) (S : list search_result) :
  S <> [] ->
  _evaluate_summary_confidence query S
  = Qmin (boosted (total_confidence (PyStr.lower query) S 0
                   / inject_Z (Z.of_nat (length S))) (length S)) 1.
Proof. intros H. destruct S; [done|reflexivity]. Qed.

(** Adding a summary whose own score is at least that of every summary
    of the set does not lower the confidence. *)
Lemma confidence_grows (query : string) (S1 : list search_result)
  (s : search_result) (S2 : list search_result) :
  (forall x, x ∈ S1 ++ S2 ->
     summary_confidence (PyStr.lower query) x
     <= summary_confidence (PyStr.lower query) s) ->
  _evaluate_summary_confidence query (S1 ++ S2)
  <= _evaluate_summary_confidence query (S1 ++ s :: S2).
Proof.
  intros Hdom.
  set (ql := PyStr.lower query) in *.
  set (x := summary_confidence ql s) in *.
  assert (Hx : 0 <= x) by apply summary_confidence_nonneg.
  assert (Hlen : length (S1 ++ s :: S2) = Datatypes.S (length (S1 ++ S2))).
  { rewrite !length_app. simpl. lia. }
  rewrite (confidence_unfold query (S1 ++ s :: S2)) by (by destruct S1).
  fold ql. rewrite Hlen.
  set (n := length (S1 ++ S2)) in *.
  set (T := total_confidence ql (S1 ++ S2) 0).
  assert (HT' : total_confidence ql (S1 ++ s :: S2) 0 == T + x)
    by apply total_insert.
  assert (HT0 : 0 <= T) by apply total_nonneg.
  assert (HTn : T <= inject_Z (Z.of_nat n) * x) by (by apply total_bound).
  assert (Hn1 : inject_Z (Z.of_nat (Datatypes.S n))
                == inject_Z (Z.of_nat n) + 1).
  { rewrite Nat2Z.inj_succ. unfold Z.succ. by rewrite inject_Z_plus. }
  set (T' := total_confidence ql (S1 ++ s :: S2) 0) in *.
  set (N' := inject_Z (Z.of_nat (Datatypes.S n))) in *.
  assert (Havg : T' / N' == (T + x) / (inject_Z (Z.of_nat n) + 1))
    by (by rewrite HT', Hn1).
  destruct (decide (S1 ++ S2 = [])) as [Hnil|Hne].
  - rewrite Hnil.
    change (_evaluate_summary_confidence query []) with 0.
    apply Q.min_glb; [|lra]. unfold boosted.
    assert (0 <= T' / N').
    { rewrite Havg. apply Qle_shift_div_l.
      - subst n. rewrite Hnil. cbn [length].
        change (inject_Z (Z.of_nat 0)) with 0. lra.
      - lra. }
    destruct (1 <? Datatypes.S n)%nat; lra.
  - rewrite (confidence_unfold query (S1 ++ S2)) by done.
    fold ql T n.
    assert (Hnpos : 0 < inject_Z (Z.of_nat n)).
    { unfold Qlt. simpl. subst n. destruct (S1 ++ S2); [done|]. simpl. lia. }
    pose proof (mean_grows T x _ Hnpos HTn) as Hmean.
    rewrite <- Havg in Hmean.
    assert (Hold : 0 <= T / inject_Z (Z.of_nat n)).
    { apply Qle_shift_div_l; [done|]. lra. }
    apply Q.min_le_compat_r.
    unfold boosted.
    assert ((1 <? Datatypes.S n)%nat = true) as ->.
    { apply Nat.ltb_lt. subst n. destruct (S1 ++ S2); [done|]. simpl. lia. }
    destruct (1 <? n)%nat; lra.
Qed.

(** C5, as stated, fails: for the query [zzz], adding to two summaries
    that read [**class] a summary [**zzz], which has the structural marker
    and strictly more query-term overlap than either, lowers the
    confidence (from 0.84252 to 0.80228). *)
Lemma added_summary_lowers_confidence :
  any_in structure_markers
    (PyStr.lower (sr_summary Examples.overlapping_summary)) = true
  /\ Forall (fun x =>
               (matching_words (PyStr.split_ws "zzz")
                  (PyStr.lower (sr_summary x))
                < matching_words (PyStr.split_ws "zzz")
                    (PyStr.lower (sr_summary Examples.overlapping_summary)))%nat)
       Examples.two_class_summaries
  /\ _evaluate_summary_confidence "zzz"
       (Examples.two_class_summaries ++ [Examples.overlapping_summary])
     < _evaluate_summary_confidence "zzz" Examples.two_class_summaries.
Proof.
  split; [reflexivity|]. split.
  - repeat constructor.
  - vm_compute. reflexivity.
Qed.

(** C5, amended: for a fixed query, adding to a candidate set, at any
    position, a summary that contains the structural markers, has strictly
    more query-term overlap than every summary of the set, and whose
    length component and domain-keyword component are not below those of
    any summary of the set never decreases the confidence (scores taken
    as exact rationals). *)
Theorem confidence_monotone (query : string) (S1 : list search_result)
  (s : search_result) (S2 : list search_result) :
  any_in structure_markers (PyStr.lower (sr_summary s)) = true ->
  (forall x, x ∈ S1 ++ S2 ->
     relevance_score (PyStr.split_ws (PyStr.lower query))
                     (PyStr.lower (sr_summary x))
     < relevance_score (PyStr.split_ws (PyStr.lower query))
                       (PyStr.lower (sr_summary s))
     /\ length_score (PyStr.lower (sr_summary x))
        <= length_score (PyStr.lower (sr_summary s))
     /\ detail_score (PyStr.lower (sr_summary x))
        <= detail_score (PyStr.lower (sr_summary s))) ->
  _evaluate_summary_confidence query (S1 ++ S2)
  <= _evaluate_summary_confidence query (S1 ++ s :: S2).
Proof.
  intros Hmark Hdom. apply confidence_grows. intros x Hx.
  destruct (Hdom x Hx) as (Hrel & Hlen & Hdet).
  unfold summary_confidence.
  pose proof (structure_score_bounds (PyStr.lower (sr_summary x))) as [_ Hs].
  assert (structure_score (PyStr.lower (sr_summary s)) = 0.4) as ->.
  { unfold structure_score. by rewrite Hmark. }
  lra.
Qed.

Lemma confidence_monotone_witness :
  _evaluate_summary_confidence "zzz" ([Examples.short_summary] ++ [])
  <= _evaluate_summary_confidence "zzz"
       ([Examples.short_summary] ++ Examples.rich_summary :: []).
Proof.
  apply (confidence_monotone "zzz" [Examples.short_summary]
           Examples.rich_summary []).
  - reflexivity.
  - intros x Hx. apply list_elem_of_singleton in Hx. subst x.
    split; [vm_compute; reflexivity|].
    split; vm_compute; discriminate.
Defined.

End ConfidenceFacts.

(** ** The router *)

Module RouterFacts.

Import CodeIndexer SmartSummaryAgent.

(** The dictionaries [search] returns have no key [keywords]. *)
Lemma context_entry_raises (r : search_result) :
  context_entry r = Raise (KeyError "keywords").
Proof. reflexivity. Qed.

Lemma build_context_raised (e : pyexn) (rs : list search_result) :
  foldl (fun acc summary =>
           do context <- acc;
           do entry <- context_entry summary;
           Return (context +:+ entry)) (Raise e) rs = Raise e.
Proof. induction rs as [|r rs IH]; simpl; [done|]. exact IH. Qed.

(** Building the context of a non-empty list of search results raises. *)
Lemma build_context_nonempty (r : search_result) (rs : list search_result)
  (query : string) :
  _build_summary_context (r :: rs) query = Raise (KeyError "keywords").
Proof. unfold _build_summary_context. simpl. apply build_context_raised. Qed.

(** Whenever the decision is to answer from summaries and the search
    returned something, the method raises. *)
Lemma summary_branch_raises (query_fn : ranking) (self : SmartSummaryAgent.t)
  (ix : CodeIndexer.t) (query : string) (n : Z) :
  indexer self = Some ix ->
  search query_fn ix query n <> [] ->
  answers_from_summaries self
    (_evaluate_summary_confidence query (search query_fn ix query n))
    (search query_fn ix query n) = true ->
  query_with_summary_first query_fn self query n
  = (self, Raise (KeyError "keywords")).
Proof.
  intros Hix Hne Hans. unfold query_with_summary_first. rewrite Hix, Hans.
  destruct (search query_fn ix query n) as [|r rs]; [done|].
  by rewrite build_context_nonempty.
Qed.

(** The router escalates exactly when the decision is not to answer from
    summaries. *)
Lemma escalation_iff (query_fn : ranking) (self : SmartSummaryAgent.t)
  (ix : CodeIndexer.t) (query : string) (n : Z) :
  indexer self = Some ix ->
  (exists answer, (query_with_summary_first query_fn self query n).2
                  = Return (answer, false))
  <-> answers_from_summaries self
        (_evaluate_summary_confidence query (search query_fn ix query n))
        (search query_fn ix query n) = false.
Proof.
  intros Hix. unfold query_with_summary_first. rewrite Hix.
  destruct (answers_from_summaries _ _ _).
  - split; [|done]. intros [answer H].
    destruct (_build_summary_context _ _); simpl in H; congruence.
  - split; [done|]. intros _. simpl. eauto.
Qed.

(** C2: the code at a failing input. The store holds one structured
    summary that mentions authentication and a class, and the query is
    [How does authentication work?]. The decision is to answer from
    summaries, as the claim says, but no answer is produced: building the
    context reads the key [keywords], which search results do not have,
    and the method raises [KeyError]. *)
Theorem summary_answer_raises_key_error :
  SmartSummaryAgent.answers_from_summaries
    (Examples.agent_over (Some Examples.auth_indexer) 0.6)
    (_evaluate_summary_confidence "How does authentication work?"
       (search Examples.first_records Examples.auth_indexer
          "How does authentication work?" 5))
    (search Examples.first_records Examples.auth_indexer
       "How does authentication work?" 5) = true
  /\ (query_with_summary_first Examples.first_records
        (Examples.agent_over (Some Examples.auth_indexer) 0.6)
        "How does authentication work?" 5).2
     = Raise (KeyError "keywords").
Proof. split; vm_compute; reflexivity. Qed.

Lemma router_without_index (query_fn : ranking) (self : SmartSummaryAgent.t)
  (query : string) (n : Z) :
  indexer self = None ->
  query_with_summary_first query_fn self query n
  = (self,
     Raise (AttributeError "'NoneType' object has no attribute 'search'")).
Proof. intros H. unfold query_with_summary_first. by rewrite H. Qed.

(** An agent built while nothing is indexed has no indexer. *)
Lemma init_without_index (api_key : option string) (threshold : Q)
  (connect : result CodeIndexer.t) (assistant : string -> result string) :
  (get_indexed_codebase None connect).2 = None ->
  indexer (init api_key threshold None connect assistant) = None.
Proof.
  unfold init. destruct (get_indexed_codebase None connect) as [i1 ix] eqn:E.
  simpl. intros ->. by destruct (get_indexed_codebase i1 connect).
Qed.

(** C7: the code at a failing input. The agent is built over an empty
    store, so it has no indexer, and a query makes
    [query_with_summary_first] raise [AttributeError] instead of returning
    the "not indexed yet" text; the [search_code] tool, on the same store,
    returns that text. *)
Theorem router_raises_on_empty_store :
  Chroma.count (collection Examples.empty_indexer) = 0
  /\ indexer (init (Some "sk-test") 0.6 None (Return Examples.empty_indexer)
                Examples.no_assistant) = None
  /\ (query_with_summary_first Examples.first_records
        (init (Some "sk-test") 0.6 None (Return Examples.empty_indexer)
           Examples.no_assistant)
        "How does authentication work?" 5).2
     = Raise (AttributeError "'NoneType' object has no attribute 'search'")
  /\ (McpServer.search_code Examples.first_records None None
        (Return Examples.empty_indexer) "How does authentication work?" 5).2
     = "No codebase has been indexed yet. Please upload a repository first.".
Proof. repeat split; vm_compute; reflexivity. Qed.

(** C9, as stated, fails: an escalated query is not recorded; its count
    is what it was. *)
Lemma escalated_query_not_counted :
  (exists answer,
     (query_with_summary_first Examples.first_records
        (Examples.agent_over (Some Examples.plain_indexer) 0.6)
        "where is the parser" 5).2 = Return (answer, false))
  /\ count_of (query_patterns
                 (query_with_summary_first Examples.first_records
                    (Examples.agent_over (Some Examples.plain_indexer) 0.6)
                    "where is the parser" 5).1)
       "where is the parser"
     = count_of (query_patterns
                   (Examples.agent_over (Some Examples.plain_indexer) 0.6))
         "where is the parser".
Proof. split; [eexists; vm_compute; reflexivity | vm_compute; reflexivity]. Qed.

(** C9, amended: a query answered from summaries is recorded in the
    query-frequency counter, its count growing by exactly one and no other
    count changing; an escalated query leaves the counter as it was. *)
Theorem summary_answers_are_counted (query_fn : ranking)
  (self : SmartSummaryAgent.t) (query : string) (n : Z) :
  (forall response,
     (query_with_summary_first query_fn self query n).2
     = Return (response, true) ->
     count_of (query_patterns (query_with_summary_first query_fn self query n).1)
       query
     = (count_of (query_patterns self) query + 1)%Z
     /\ forall other, other <> query ->
          count_of
            (query_patterns (query_with_summary_first query_fn self query n).1)
            other
          = count_of (query_patterns self) other)
  /\ (forall response,
        (query_with_summary_first query_fn self query n).2
        = Return (response, false) ->
        query_patterns (query_with_summary_first query_fn self query n).1
        = query_patterns self).
Proof.
  unfold query_with_summary_first.
  destruct (indexer self) as [ix|]; [|split; intros; simpl in *; congruence].
  destruct (answers_from_summaries _ _ _).
  - destruct (_build_summary_context _ _) as [e|context];
      [split; intros; simpl in *; congruence|].
    split; [|intros; simpl in *; congruence].
    intros response _. simpl. unfold count_of. split.
    + by rewrite lookup_insert_eq.
    + intros other Hne. by rewrite lookup_insert_ne.
  - split; [intros; simpl in *; congruence|]. done.
Qed.

Lemma summary_answers_are_counted_witness :
  (query_with_summary_first Examples.first_records
     (Examples.agent_over (Some Examples.empty_indexer) 0)
     "what is this" 5).2
  = Return (_generate_summary_response "what is this" "", true)
  /\ count_of (query_patterns
                 (query_with_summary_first Examples.first_records
                    (Examples.agent_over (Some Examples.empty_indexer) 0)
                    "what is this" 5).1)
       "what is this" = 1%Z.
Proof.
  split; [vm_compute; reflexivity|].
  apply (proj1 (summary_answers_are_counted Examples.first_records
                  (Examples.agent_over (Some Examples.empty_indexer) 0)
                  "what is this" 5)
               (_generate_summary_response "what is this" "")).
  vm_compute. reflexivity.
Defined.

End RouterFacts.
(** * Further properties of the code *)

(** ** Splitting, joining and reversing text *)

Module TextFacts.

Lemma split_char_length (c : ascii) (s : string) :
  length (PyStr.split_char c s) = S (PyStr.count_char c s).
Proof.
  induction s as [|a s IH]; simpl; [done|].
  destruct (Ascii.eqb a c); simpl; [by rewrite IH|].
  destruct (PyStr.split_char c s) as [|w ws]; [done|]. exact IH.
Qed.

Lemma split_char_head (c : ascii) (s : string) :
  exists rest, PyStr.split_char c s = PyStr.before_first c s :: rest.
Proof.
  induction s as [|a s [rest IH]]; simpl; [by exists []|].
  destruct (Ascii.eqb a c); [eauto|]. rewrite IH. eauto.
Qed.

Lemma append_nil_l (s : string) : "" +:+ s = s.
Proof. reflexivity. Qed.

Lemma append_cons (a : ascii) (s t : string) :
  String a s +:+ t = String a (s +:+ t).
Proof. reflexivity. Qed.

Lemma append_assoc (s1 s2 s3 : string) :
  (s1 +:+ s2) +:+ s3 = s1 +:+ (s2 +:+ s3).
Proof.
  induction s1 as [|a s1 IH]; [done|]. by rewrite !append_cons, IH.
Qed.

Lemma append_nil_r (s : string) : s +:+ "" = s.
Proof. induction s as [|a s IH]; [done|]. by rewrite append_cons, IH. Qed.

Lemma split_char_app_sep (c : ascii) (a b : string) :
  PyStr.split_char c (a +:+ String c b)
  = PyStr.split_char c a ++ PyStr.split_char c b.
Proof.
  induction a as [|x a IH]; [rewrite append_nil_l|rewrite append_cons]; simpl.
  - by rewrite Ascii.eqb_refl.
  - destruct (Ascii.eqb x c); [by rewrite IH|].
    rewrite IH. destruct (PyStr.split_char c a) as [|w ws] eqn:E; [|done].
    pose proof (split_char_length c a) as H. by rewrite E in H.
Qed.

Lemma rev_app_append (s1 s2 : string) :
  String.rev_app s1 s2 = String.rev_app s1 "" +:+ s2.
Proof.
  revert s2. induction s1 as [|a s1 IH]; intros s2; simpl; [done|].
  rewrite (IH (String a s2)), (IH (String a "")).
  by rewrite append_assoc.
Qed.

Lemma rev_cons (a : ascii) (s : string) :
  String.rev (String a s) = String.rev s +:+ String a "".
Proof. unfold String.rev. simpl. apply rev_app_append. Qed.

Lemma rev_append (s1 s2 : string) :
  String.rev (s1 +:+ s2) = String.rev s2 +:+ String.rev s1.
Proof.
  induction s1 as [|a s1 IH].
  - change (String.rev "") with "". by rewrite append_nil_r.
  - rewrite append_cons, !rev_cons, IH. by rewrite append_assoc.
Qed.

Lemma rev_involutive (s : string) : String.rev (String.rev s) = s.
Proof.
  induction s as [|a s IH]; [done|].
  rewrite rev_cons, rev_append, IH. done.
Qed.

Lemma endswith_char (c : ascii) (s : string) :
  PyStr.endswith (String c "") s = true ->
  exists s', s = s' +:+ String c "".
Proof.
  unfold PyStr.endswith. change (String.rev (String c "")) with (String c "").
  destruct (String.rev s) as [|a r] eqn:E; simpl; [done|].
  rewrite andb_true_r. intros H. apply Ascii.eqb_eq in H. subst a.
  exists (String.rev r). rewrite <- (rev_involutive s), E. apply rev_cons.
Qed.


Lemma join_cons (sep x : string) (l : list string) :
  l <> [] -> PyStr.join sep (x :: l) = x +:+ sep +:+ PyStr.join sep l.
Proof. by destruct l. Qed.

Lemma split_char_nonempty (c : ascii) (s : string) :
  PyStr.split_char c s <> [].
Proof.
  induction s as [|a s IH]; simpl; [done|].
  destruct (Ascii.eqb a c); [done|]. by destruct (PyStr.split_char c s).
Qed.

(** [sep.join(s.split(sep)) == s] *)
Lemma join_split_char (c : ascii) (s : string) :
  PyStr.join (String c "") (PyStr.split_char c s) = s.
Proof.
  induction s as [|a s IH]; [done|]. simpl.
  destruct (Ascii.eqb a c) eqn:E.
  - apply Ascii.eqb_eq in E. subst a.
    rewrite join_cons by apply split_char_nonempty.
    by rewrite IH.
  - destruct (PyStr.split_char c s) as [|w ws] eqn:Hs.
    { by destruct (split_char_nonempty c s). }
    destruct ws as [|w' ws].
    + simpl in *. by rewrite IH.
    + rewrite join_cons by done. rewrite join_cons in IH by done.
      by rewrite append_cons, IH.
Qed.

Lemma join_app (sep : string) (l1 l2 : list string) :
  l1 <> [] -> l2 <> [] ->
  PyStr.join sep (l1 ++ l2)
  = PyStr.join sep l1 +:+ sep +:+ PyStr.join sep l2.
Proof.
  intros H1 H2. induction l1 as [|x l1 IH]; [done|].
  destruct l1 as [|y l1].
  - simpl app. by rewrite join_cons.
  - change ((x :: y :: l1) ++ l2) with (x :: (y :: l1) ++ l2).
    rewrite join_cons by done. rewrite IH by done.
    rewrite (join_cons sep x (y :: l1)) by done.
    by rewrite !append_assoc.
Qed.

(** The pieces of a split have no separator in them. *)
Lemma split_char_pieces (c : ascii) (s : string) :
  Forall (fun w => PyStr.count_char c w = 0) (PyStr.split_char c s).
Proof.
  induction s as [|a s IH]; simpl; [by repeat constructor|].
  destruct (Ascii.eqb a c) eqn:E; [by constructor|].
  destruct (PyStr.split_char c s) as [|w ws].
  { constructor; [|done]. simpl. by rewrite E. }
  apply Forall_cons in IH as [Hw Hws]. constructor; [|done].
  simpl. by rewrite E.
Qed.

Lemma split_char_append (c : ascii) (w s : string) :
  PyStr.count_char c w = 0 ->
  PyStr.split_char c (w +:+ String c s) = w :: PyStr.split_char c s.
Proof.
  induction w as [|a w IH].
  - intros _. rewrite append_nil_l. simpl. by rewrite Ascii.eqb_refl.
  - rewrite append_cons. simpl. destruct (Ascii.eqb a c); [done|].
    simpl. intros H. by rewrite (IH H).
Qed.

Lemma split_char_piece (c : ascii) (w : string) :
  PyStr.count_char c w = 0 -> PyStr.split_char c w = [w].
Proof.
  induction w as [|a w IH]; simpl; [done|].
  destruct (Ascii.eqb a c); [done|]. simpl. intros H. by rewrite (IH H).
Qed.

(** [sep.join(l).split(sep) == l] for pieces without the separator. *)
Lemma split_char_join (c : ascii) (l : list string) :
  l <> [] ->
  Forall (fun w => PyStr.count_char c w = 0) l ->
  PyStr.split_char c (PyStr.join (String c "") l) = l.
Proof.
  induction l as [|w l IH]; [done|]. intros _ Hl.
  apply Forall_cons in Hl as [Hw Hl].
  destruct l as [|w' l].
  - simpl. by apply split_char_piece.
  - rewrite join_cons by done.
    rewrite append_cons, append_nil_l.
    rewrite split_char_append by done. by rewrite IH.
Qed.

Lemma range_from_lookup (fuel start stop step k i : nat) :
  range_from fuel start stop step !! k = Some i ->
  i = start + k * step /\ i < stop.
Proof.
  revert start k. induction fuel as [|fuel IH]; intros start k; simpl; [done|].
  destruct (start <? stop)%nat eqn:E; [|done].
  apply Nat.ltb_lt in E. destruct k as [|k]; simpl.
  - intros [= <-]. lia.
  - intros H. apply IH in H. lia.
Qed.

(** Joining the chunks of the lines from [start] on gives back these
    lines joined. *)
Lemma join_chunks (sep : string) (n : nat) (l : list string) :
  0 < n ->
  forall fuel start,
    length l <= start + fuel ->
    PyStr.join sep
      (List.map (fun i => PyStr.join sep (take n (drop i l)))
                (range_from fuel start (length l) n))
    = PyStr.join sep (drop start l).
Proof.
  intros Hn fuel. induction fuel as [|fuel IH]; intros start Hlen; simpl.
  - by rewrite drop_ge by lia.
  - destruct (start <? length l)%nat eqn:E.
    + apply Nat.ltb_lt in E.
      destruct (decide (start + n < length l)) as [Hmore|Hlast].
      * trans (PyStr.join sep (take n (drop start l)
                                 ++ drop n (drop start l)));
          [|by rewrite take_drop].
        rewrite join_app.
        -- rewrite drop_drop, <- IH by lia.
           simpl List.map. rewrite join_cons; [done|].
           destruct fuel as [|fuel]; [lia|]. simpl.
           apply Nat.ltb_lt in Hmore. by rewrite Hmore.
        -- intros H. apply (f_equal length) in H.
           rewrite length_take, length_drop in H. simpl in H. lia.
        -- rewrite drop_drop. intros H. apply (f_equal length) in H.
           rewrite length_drop in H. simpl in H. lia.
      * assert (Hnone : range_from fuel (start + n) (length l) n = []).
        { destruct fuel as [|fuel]; [done|]. simpl.
          destruct (start + n <? length l)%nat eqn:E'; [|done].
          apply Nat.ltb_lt in E'. lia. }
        rewrite Hnone. simpl.
        rewrite take_ge; [done|]. rewrite length_drop. lia.
    + apply Nat.ltb_ge in E. by rewrite drop_ge by lia.
Qed.




End TextFacts.


(** ** Line counts, purposes and scores of summaries *)

Module SummaryShape.

Import FileSummary.

(** X1: the line count of a content is one more than the number of its
    newline characters, so it is at least one (an empty file counts one
    line, a final newline counts an empty last line); it is the count
    every summary carries, whether built by the constructor, with or
    without a completion service, or by [create_basic_summary]. *)
Theorem line_count_counts_newlines (content : string) :
  count_lines content = Z.of_nat (1 + PyStr.count_char "010" content)
  /\ (1 <= count_lines content)%Z
  /\ (forall path lang client,
        line_count (init path content lang client) = count_lines content)
  /\ (forall path,
        line_count (create_basic_summary path content) = count_lines content).
Proof.
  assert (H : count_lines content
              = Z.of_nat (1 + PyStr.count_char "010" content)).
  { unfold count_lines. by rewrite TextFacts.split_char_length. }
  split; [exact H|]. split; [rewrite H; lia|]. split.
  - intros path lang client. unfold init, _generate_ai_summary.
    destruct client as [complete|]; [|done].
    by destruct (complete _ _ _).
  - done.
Qed.

(** X2: the purpose line is always the text before the first full stop of
    the summary, stripped, with a full stop added; the summary as a whole
    when it has no full stop. The truncating branch of the source is
    never taken. *)
Theorem purpose_is_first_sentence (summary : string) :
  first_sentence summary = PyStr.strip (PyStr.before_first "." summary) +:+ "."
  /\ (forall self, ai_summary self = summary ->
        purpose (_extract_metadata_from_summary self)
        = PyStr.strip (PyStr.before_first "." summary) +:+ ".").
Proof.
  assert (H : first_sentence summary
              = PyStr.strip (PyStr.before_first "." summary) +:+ ".").
  { unfold first_sentence.
    destruct (TextFacts.split_char_head "." summary) as [rest ->]. done. }
  split; [exact H|]. intros self <-. rewrite <- H. done.
Qed.

Lemma bonus_nonneg (text : string) (l : list (string * Z)) :
  Forall (fun ind => (0 <= ind.2)%Z) l ->
  (0 <= foldr Z.add 0 (List.map snd
          (List.filter (fun ind => PyStr.contains ind.1 text) l)))%Z.
Proof.
  induction 1 as [|[ind sc] l Hsc _ IH]; simpl; [lia|].
  destruct (PyStr.contains ind text); simpl in *; lia.
Qed.

Lemma indicators_nonneg :
  Forall (fun ind => (0 <= ind.2)%Z) FileSummary.complexity_indicators.
Proof. unfold FileSummary.complexity_indicators. repeat constructor; simpl; lia. Qed.

Lemma ai_complexity_range (line_count : Z) (summary : string) :
  (0 <= line_count)%Z ->
  (0 <= FileSummary.ai_complexity line_count summary <= 25)%Z.
Proof.
  intros Hlc. unfold FileSummary.ai_complexity.
  rewrite SummaryFacts.fold_bonus.
  pose proof (bonus_nonneg (PyStr.lower summary) _ indicators_nonneg) as Hb.
  pose proof (Z.div_pos line_count 25 Hlc ltac:(lia)). lia.
Qed.

Lemma count_lines_pos (content : string) :
  (1 <= FileSummary.count_lines content)%Z.
Proof.
  unfold FileSummary.count_lines.
  destruct (PyStr.split_char "010" content) eqn:E; simpl; [|lia].
  destruct content as [|a s]; simpl in E; [done|].
  destruct (Ascii.eqb a "010"); [done|].
  by destruct (PyStr.split_char "010" s).
Qed.

(** X3: every summary that is built, by the constructor (whatever the
    completion service answers), by [create_basic_summary] or by
    [create_file_summary_with_ai_insights], has a complexity score between
    0 and 25. *)
Theorem complexity_score_range (path content : string) :
  (forall lang client,
     0 <= FileSummary.complexity_score (FileSummary.init path content lang client)
       <= 25)%Z
  /\ (0 <= FileSummary.complexity_score
             (FileSummary.create_basic_summary path content) <= 25)%Z
  /\ (forall ai_summary,
        0 <= FileSummary.complexity_score
               (CodeIndexer.create_file_summary_with_ai_insights path content
                  ai_summary)
          <= 25)%Z.
Proof.
  pose proof (count_lines_pos content) as Hpos.
  assert (Hrange : forall summary,
            (0 <= FileSummary.ai_complexity (FileSummary.count_lines content)
                    summary <= 25)%Z).
  { intros summary. apply ai_complexity_range. lia. }
  split; [|split].
  - intros lang client.
    unfold FileSummary.init, FileSummary._generate_ai_summary.
    destruct client as [complete|]; [destruct (complete _ _ _)|];
      apply Hrange.
  - apply Hrange.
  - intros ai_summary. apply Hrange.
Qed.

End SummaryShape.


(** ** Ignored directories *)

Module WalkFacts.

Import CodeIndexer.

Lemma parts_sep (a b : string) :
  PathLib.parts (a +:+ String "/" b) = PathLib.parts a ++ PathLib.parts b.
Proof.
  unfold PathLib.parts. rewrite TextFacts.split_char_app_sep.
  apply List.filter_app.
Qed.

Lemma parts_trailing_sep (a : string) :
  PathLib.parts (a +:+ "/") = PathLib.parts a.
Proof. rewrite parts_sep. cbn. apply app_nil_r. Qed.

Lemma parts_join (a b : string) :
  PyStr.startswith "/" b = false ->
  PathLib.parts (os_path_join a b) = PathLib.parts a ++ PathLib.parts b.
Proof.
  intros Hb. unfold os_path_join. rewrite Hb.
  destruct (String.eqb a "") eqn:Ha; simpl.
  - apply String.eqb_eq in Ha. subst a. done.
  - destruct (PyStr.endswith "/" a) eqn:He.
    + apply TextFacts.endswith_char in He as [a' ->].
      rewrite parts_trailing_sep, TextFacts.append_assoc.
      rewrite TextFacts.append_cons, TextFacts.append_nil_l.
      apply parts_sep.
    + rewrite TextFacts.append_cons, TextFacts.append_nil_l.
      apply parts_sep.
Qed.

(** X4: a path joined from a directory and a relative name is ignored
    exactly when the directory or the name is ignored. *)
Theorem should_ignore_join (a b : string) :
  PyStr.startswith "/" b = false ->
  should_ignore (os_path_join a b) = should_ignore a || should_ignore b.
Proof.
  intros Hb. unfold should_ignore. rewrite (parts_join _ _ Hb).
  apply List.existsb_app.
Qed.

Lemma should_ignore_join_witness :
  PyStr.startswith "/" "config.py" = false
  /\ should_ignore (os_path_join "repo/.git" "config.py") = true.
Proof.
  split; [reflexivity|].
  rewrite (should_ignore_join "repo/.git" "config.py");
    [vm_compute; reflexivity | reflexivity].
Defined.

(** X5: a file in an ignored directory is never collected by the walk of
    [ingest_directory], whatever its name and content. *)
Theorem ignored_directory_hides_files (self : t) (acc : collected) (w : walked) :
  should_ignore (w_root w) = true ->
  PyStr.startswith "/" (w_file w) = false ->
  collect_step self acc w = acc.
Proof.
  intros Hroot Hfile. unfold collect_step.
  assert (Hjoin : should_ignore (os_path_join (w_root w) (w_file w)) = true).
  { unfold should_ignore in *. rewrite (parts_join _ _ Hfile).
    rewrite List.existsb_app. by rewrite Hroot. }
  by rewrite Hjoin.
Qed.

Lemma ignored_directory_hides_files_witness :
  should_ignore (w_root Examples.walked_git) = true
  /\ collect_step Examples.empty_indexer (collect Examples.empty_indexer [])
       Examples.walked_git
     = collect Examples.empty_indexer [].
Proof.
  split; [vm_compute; reflexivity|].
  apply (ignored_directory_hides_files Examples.empty_indexer
           (collect Examples.empty_indexer []) Examples.walked_git);
    [vm_compute; reflexivity | reflexivity].
Defined.

End WalkFacts.


(** ** The store and the cache of contents *)

Module CacheFacts.

Import CodeIndexer.

Lemma init_content (path content : string) (lang : option string)
  (client : option FileSummary.client) :
  FileSummary.content (FileSummary.init path content lang client) = content.
Proof.
  unfold FileSummary.init, FileSummary._generate_ai_summary.
  destruct client as [complete|]; [|reflexivity].
  simpl. destruct (complete _ _ _); reflexivity.
Qed.

Lemma collect_snoc (self : CodeIndexer.t) (walk : list walked) (w : walked) :
  collect self (walk ++ [w]) = collect_step self (collect self walk) w.
Proof. unfold collect. by rewrite foldl_app. Qed.

Lemma collect_same_client (self self' : CodeIndexer.t) (walk : list walked) :
  openai_client self' = openai_client self ->
  collect self' walk = collect self walk.
Proof.
  intros Hc. unfold collect. apply PyFacts.foldl_fun_ext.
  intros acc w. unfold collect_step, create_file_summary. by rewrite Hc.
Qed.

Lemma collect_files (self : CodeIndexer.t) (walk : list walked) :
  c_files (collect self walk) = c_indexed (collect self walk).
Proof.
  induction walk as [|w walk IH] using rev_ind; [done|].
  rewrite collect_snoc. unfold collect_step.
  destruct (should_ignore _ || negb (is_code_file _)); [done|].
  destruct (w_read w); [done|]. simpl. by rewrite IH.
Qed.

Lemma collect_contents_dom (self : CodeIndexer.t) (walk : list walked)
  (p : string) :
  is_Some (c_contents (collect self walk) !! p)
  <-> p ∈ c_indexed (collect self walk).
Proof.
  induction walk as [|w walk IH] using rev_ind.
  - simpl. rewrite lookup_empty. split; [by intros [? ?]|].
    intros H. by apply elem_of_nil in H.
  - rewrite collect_snoc. unfold collect_step.
    destruct (should_ignore _ || negb (is_code_file _)); [done|].
    destruct (w_read w) as [e|content]; [done|]. simpl.
    rewrite elem_of_app, list_elem_of_singleton, <- IH.
    destruct (decide (w_relative w = p)) as [->|Hne].
    + rewrite lookup_insert_eq. split; [by right|eauto].
    + rewrite lookup_insert_ne by done. split; [by left|].
      intros [H|H]; [done|congruence].
Qed.

Lemma collect_contents (self : CodeIndexer.t) (walk : list walked)
  (i : nat) (s : FileSummary.t) :
  NoDup (c_indexed (collect self walk)) ->
  c_summaries (collect self walk) !! i = Some s ->
  c_contents (collect self walk) !! FileSummary.file_path s
  = Some (FileSummary.content s).
Proof.
  revert i s. induction walk as [|w walk IH] using rev_ind; intros i s.
  - simpl. by rewrite lookup_nil.
  - rewrite collect_snoc. unfold collect_step.
    destruct (should_ignore _ || negb (is_code_file _)); [apply IH|].
    destruct (w_read w) as [e|content]; [apply IH|]. simpl.
    intros Hnd Hi. apply NoDup_app in Hnd as (Hnd & Hfresh & _).
    apply lookup_app_Some in Hi as [Hi|[Hlen Hi]].
    + rewrite lookup_insert_ne; [by eapply IH|].
      intros Heq. apply (Hfresh (w_relative w)); [|by apply list_elem_of_singleton].
      rewrite StoreFacts.collect_indexed. rewrite Heq.
      apply list_elem_of_fmap. exists s. split; [done|].
      by eapply list_elem_of_lookup_2.
    + destruct (i - length (c_summaries (collect self walk))) as [|k]; [|done].
      simpl in Hi. injection Hi as <-. unfold create_file_summary.
      rewrite StoreFacts.init_file_path, init_content.
      apply lookup_insert_eq.
Qed.

(** X6: after [ingest_directory] the collection holds exactly one record
    per returned path, and its content does not depend on what the store
    held before: two indexers with the same completion client end with the
    same collection. *)
Theorem ingest_replaces_store (self : CodeIndexer.t) (walk : list walked) :
  size (collection (ingest_directory self walk).1)
  = length (ingest_directory self walk).2
  /\ (forall self',
        openai_client self' = openai_client self ->
        collection (ingest_directory self' walk).1
        = collection (ingest_directory self walk).1).
Proof.
  split.
  - rewrite StoreFacts.ingest_collection.
    rewrite map_size_list_to_map by apply StoreFacts.NoDup_enumerate_ids.
    unfold enumerate_entries. rewrite length_imap.
    change ((ingest_directory self walk).2) with (c_indexed (collect self walk)).
    rewrite StoreFacts.collect_indexed. by rewrite length_map.
  - intros self' Hc. rewrite !StoreFacts.ingest_collection.
    by rewrite (collect_same_client self self' walk Hc).
Qed.

(** X7: when the returned paths are distinct, the [i]-th of them is the
    path of the [i]-th summary, [get_file_content] gives back for it the
    content that was summarised, and its record is stored under the id
    [file_i]. *)
Theorem ingested_content_is_cached (self : CodeIndexer.t)
  (walk : list walked) (i : nat) (p : string) :
  NoDup (ingest_directory self walk).2 ->
  (ingest_directory self walk).2 !! i = Some p ->
  exists s,
    c_summaries (collect self walk) !! i = Some s
    /\ FileSummary.file_path s = p
    /\ get_file_content (ingest_directory self walk).1 p
       = Some (FileSummary.content s)
    /\ (collection (ingest_directory self walk).1 !! summary_id i)
       = Some (record_of s).
Proof.
  change ((ingest_directory self walk).2) with (c_indexed (collect self walk)).
  intros Hnd Hi.
  assert (Hi' := Hi). rewrite StoreFacts.collect_indexed in Hi'.
  rewrite list_lookup_fmap in Hi'.
  destruct (c_summaries (collect self walk) !! i) as [s|] eqn:Hs; [|done].
  injection Hi' as <-. exists s. split; [done|]. split; [done|]. split.
  - unfold get_file_content, ingest_directory. cbn [fst file_contents].
    by eapply collect_contents.
  - rewrite StoreFacts.ingest_collection.
    apply StoreFacts.lookup_enumerate. eauto.
Qed.

Lemma ingested_content_is_cached_witness :
  NoDup (ingest_directory Examples.empty_indexer
           [Examples.walked_a; Examples.walked_b]).2
  /\ exists s,
       FileSummary.file_path s = "b.py"
       /\ get_file_content
            (ingest_directory Examples.empty_indexer
               [Examples.walked_a; Examples.walked_b]).1 "b.py"
          = Some (FileSummary.content s).
Proof.
  assert (Hnd : NoDup (ingest_directory Examples.empty_indexer
                         [Examples.walked_a; Examples.walked_b]).2).
  { apply (bool_decide_unpack _). vm_compute. exact I. }
  split; [exact Hnd|].
  destruct (ingested_content_is_cached Examples.empty_indexer
              [Examples.walked_a; Examples.walked_b] 1 "b.py" Hnd eq_refl)
    as (s & _ & Hp & Hc & _).
  exists s. split; [exact Hp | exact Hc].
Defined.

(** The invariant of the cache, for the two operations that write it. *)
Lemma ingest_cache_consistent (self : CodeIndexer.t) (walk : list walked) :
  cache_consistent (ingest_directory self walk).1.
Proof.
  intros p. unfold ingest_directory. cbn [fst file_contents all_files].
  rewrite collect_files. apply collect_contents_dom.
Qed.

Lemma index_file_cache_consistent (md5 relpath : string -> string)
  (disk : string -> option (result string)) (self : CodeIndexer.t)
  (file_path : string) (force : bool) :
  cache_consistent self ->
  cache_consistent (index_file md5 relpath disk self file_path force).1.
Proof.
  intros Hc. unfold index_file.
  destruct (disk file_path) as [[e|content]|]; [done| |done].
  destruct (negb (is_code_file file_path)); [done|].
  intros p. cbn [fst file_contents all_files].
  set (rel := relative_path_of relpath file_path).
  destruct (decide (rel = p)) as [->|Hne].
  - rewrite lookup_insert_eq. split; [|eauto]. intros _.
    case_bool_decide; [done|]. apply elem_of_app. right.
    by apply list_elem_of_singleton.
  - rewrite lookup_insert_ne by done. rewrite (Hc p).
    case_bool_decide; [done|]. rewrite elem_of_app, list_elem_of_singleton.
    split; [by left|]. intros [H'|H']; [done|congruence].
Qed.

Lemma index_file_all_files_nodup (md5 relpath : string -> string)
  (disk : string -> option (result string)) (self : CodeIndexer.t)
  (file_path : string) (force : bool) :
  NoDup (all_files self) ->
  NoDup (all_files (index_file md5 relpath disk self file_path force).1).
Proof.
  intros Hnd. unfold index_file.
  destruct (disk file_path) as [[e|content]|]; [done| |done].
  destruct (negb (is_code_file file_path)); [done|].
  cbn [fst all_files]. case_bool_decide as Hin; [done|].
  apply NoDup_app. split; [done|]. split; [|apply NoDup_singleton].
  intros x Hx Hx'. apply list_elem_of_singleton in Hx'. by subst x.
Qed.

(** X8: the cache of contents and the list of files name the same paths
    after every [ingest_directory]; [index_file] keeps this, and keeps the
    list of files free of duplicates. *)
Theorem cache_names_the_listed_files :
  (forall self walk, cache_consistent (ingest_directory self walk).1)
  /\ (forall md5 relpath disk self file_path force,
        cache_consistent self ->
        cache_consistent (index_file md5 relpath disk self file_path force).1)
  /\ (forall md5 relpath disk self file_path force,
        NoDup (all_files self) ->
        NoDup (all_files (index_file md5 relpath disk self file_path force).1)).
Proof.
  split; [exact ingest_cache_consistent|].
  split; [exact index_file_cache_consistent | exact index_file_all_files_nodup].
Qed.

(** X9: [index_file] keeps every record of another path, and without
    [force_reindex] every record: a record already stored for the path is
    then left as it is. *)
Theorem index_file_keeps_other_records (md5 relpath : string -> string)
  (disk : string -> option (result string)) (self : CodeIndexer.t)
  (file_path : string) (force : bool) (k : string) (r : Chroma.record) :
  collection self !! k = Some r ->
  (force = false
   \/ Chroma.md_file_path (Chroma.meta r) <> relative_path_of relpath file_path) ->
  collection (index_file md5 relpath disk self file_path force).1 !! k = Some r.
Proof.
  intros Hk Hcase. unfold index_file.
  destruct (disk file_path) as [[e|content]|]; [done| |done].
  destruct (negb (is_code_file file_path)); [done|].
  cbn [fst collection]. rewrite StoreFacts.add_union.
  apply lookup_union_Some_l.
  destruct force.
  - destruct Hcase as [|Hp]; [done|].
    apply (StoreFacts.lookup_remove_path _ (collection self)). by split.
  - done.
Qed.

Lemma index_file_keeps_other_records_witness :
  exists r,
    collection Examples.one_file_indexer !! "file_0" = Some r
    /\ collection
         (index_file Examples.md5_b_py id Examples.disk_b_py
            Examples.one_file_indexer "b.py" false).1 !! "file_0" = Some r.
Proof.
  destruct (collection Examples.one_file_indexer !! "file_0") as [r|] eqn:E;
    [|vm_compute in E; discriminate E].
  exists r. split; [reflexivity|].
  apply (index_file_keeps_other_records Examples.md5_b_py id
           Examples.disk_b_py Examples.one_file_indexer "b.py" false
           "file_0" r E).
  left. reflexivity.
Defined.

Section Disk.

Variable md5_hexdigest : string -> string.
Variable os_path_relpath : string -> string.
Variable disk : string -> option (result string).


End Disk.

End CacheFacts.


(** ** Ingestion with parallel summaries *)

Module ParallelFacts.

Import CodeIndexer.

Lemma foldl_insert_nonempty (tasks : list (string * string))
  (m : gmap string string) :
  tasks <> [] ->
  size (foldl (fun m kv => <[kv.1 := kv.2]> m) m tasks) <> 0.
Proof.
  intros Hne. destruct (exists_last Hne) as (l & x & ->).
  rewrite foldl_app. simpl. intros H.
  apply map_size_empty_iff in H. by apply insert_non_empty in H.
Qed.

(** A batch that is not empty gets its dictionary of results. *)
Lemma coordinator_returns (session : nat -> string -> exchange)
  (file_data : list (string * string)) :
  file_data <> [] ->
  generate_all_summaries_parallel session file_data
  = Return (foldl (fun m kv => <[kv.1 := kv.2]> m) ∅
                  (tasks_of session file_data)).
Proof.
  intros Hne. rewrite CoordinatorFacts.coordinator_results.
  destruct (size _ =? 0)%nat eqn:E; [|done].
  apply Nat.eqb_eq in E. exfalso. revert E. apply foldl_insert_nonempty.
  unfold tasks_of. intros H. apply (f_equal length) in H.
  rewrite length_imap in H. by destruct file_data.
Qed.



Lemma parallel_ingestion_unfold (self : CodeIndexer.t)
  (openai_api_key : option string) (session : nat -> string -> exchange)
  (walk : list walked) :
  ingest_directory_with_parallel_ai self openai_api_key session walk
  = (mk (list_to_map
           (enumerate_entries
              (summaries_with_insights
                 (ai_summaries_for openai_api_key session
                    (p_file_data (collect_parallel walk)))
                 (p_file_data (collect_parallel walk)))))
        (p_contents (collect_parallel walk))
        (p_files (collect_parallel walk))
        (openai_client self) (max_concurrent self),
     Return (p_indexed (collect_parallel walk))).
Proof.
  unfold ingest_directory_with_parallel_ai, ai_summaries_for.
  assert (Hstore : forall l,
    add_summaries_to_vector_db
      (mk (clear_collection (collection self))
          (p_contents (collect_parallel walk))
          (p_files (collect_parallel walk))
          (openai_client self) (max_concurrent self)) l
    = list_to_map (enumerate_entries l)).
  { intros l. unfold add_summaries_to_vector_db. cbn [collection].
    rewrite StoreFacts.clear_collection_empty.
    rewrite StoreFacts.add_in_batches_add by lia.
    rewrite StoreFacts.add_union. by rewrite (left_id_L ∅ (∪)). }
  destruct (p_file_data (collect_parallel walk)) as [|fd l] eqn:E.
  - by rewrite Hstore.
  - destruct (key_present openai_api_key); [|by rewrite Hstore].
    rewrite coordinator_returns by done. by rewrite Hstore.
Qed.


(** X12: when the collected paths are distinct, the record stored for the
    [i]-th file has that path, and its document is the text the task of the
    file returned (so the error marker of a failed call, which starts with
    [Error: ], is what is indexed) or the fixed text when no key is set;
    its file type and complexity score are those of the basic analysis of
    the content. *)
Theorem parallel_ingestion_stores_task_text (self : CodeIndexer.t)
  (openai_api_key : option string) (session : nat -> string -> exchange)
  (walk : list walked) (i : nat) (fd : string * string) :
  NoDup (p_file_data (collect_parallel walk)).*1 ->
  p_file_data (collect_parallel walk) !! i = Some fd ->
  exists r,
    collection (ingest_directory_with_parallel_ai self openai_api_key
                  session walk).1 !! summary_id i = Some r
    /\ Chroma.md_file_path (Chroma.meta r) = fd.1
    /\ Chroma.document r
       = (if key_present openai_api_key
          then (task_result session i fd).2
          else "No AI summary available")
    /\ (key_present openai_api_key = true ->
        call_succeeded session i fd = false ->
        PyStr.startswith "Error: " (Chroma.document r) = true)
    /\ Chroma.md_file_type (Chroma.meta r)
       = FileSummary.file_type (FileSummary.create_basic_summary fd.1 fd.2)
    /\ Chroma.md_complexity_score (Chroma.meta r)
       = FileSummary.complexity_score
           (FileSummary.create_basic_summary fd.1 fd.2).
Proof.
  intros Hnd Hi. rewrite parallel_ingestion_unfold. cbn [fst collection].
  set (file_data := p_file_data (collect_parallel walk)) in *.
  set (ai := ai_summaries_for openai_api_key session file_data).
  destruct fd as [path content].
  exists (record_of (create_file_summary_with_ai_insights path content
                       (default "No AI summary available" (ai !! path)))).
  assert (Hai : default "No AI summary available" (ai !! path)
                = if key_present openai_api_key
                  then (task_result session i (path, content)).2
                  else "No AI summary available").
  { subst ai. unfold ai_summaries_for.
    destruct file_data as [|fd0 l] eqn:E; [done|]. rewrite <- E in *.
    destruct (key_present openai_api_key); [|done].
    assert (Hlook : foldl (fun m kv => <[kv.1 := kv.2]> m)
                      (∅ : gmap string string) (tasks_of session file_data)
                    !! path = Some (task_result session i (path, content)).2).
    { apply CoordinatorFacts.foldl_insert_lookup.
      - by rewrite CoordinatorFacts.tasks_paths.
      - left. apply list_elem_of_lookup. exists i.
        unfold tasks_of. rewrite list_lookup_imap, Hi. simpl.
        pose proof (CoordinatorFacts.task_path session i (path, content))
          as Hp.
        destruct (task_result session i (path, content)) as [a b].
        simpl in *. by subst a. }
    by rewrite Hlook. }
  split.
  - apply StoreFacts.lookup_enumerate. exists i. eexists.
    split; [|done].
    unfold summaries_with_insights.
    change (List.map ?f ?l) with (f <$> l).
    by rewrite list_lookup_fmap, Hi.
  - split; [done|]. split; [exact Hai|]. split; [|done].
    intros Hkey Hfail. cbn [record_of Chroma.document].
    unfold FileSummary.to_summary_text, create_file_summary_with_ai_insights.
    cbn [FileSummary.ai_summary]. rewrite Hai, Hkey.
    by apply CoordinatorFacts.error_marker_of_failure.
Qed.

Lemma parallel_ingestion_stores_task_text_witness :
  NoDup (p_file_data (collect_parallel [Examples.walked_a; Examples.walked_b])).*1
  /\ exists r,
       collection (ingest_directory_with_parallel_ai Examples.empty_indexer
                     (Some "key") Examples.never_answers
                     [Examples.walked_a; Examples.walked_b]).1
         !! summary_id 1 = Some r
       /\ Chroma.document r = "Error: Request timed out".
Proof.
  assert (Hnd : NoDup (p_file_data
            (collect_parallel [Examples.walked_a; Examples.walked_b])).*1).
  { apply (bool_decide_unpack _). vm_compute. exact I. }
  split; [exact Hnd|].
  destruct (parallel_ingestion_stores_task_text
              Examples.empty_indexer (Some "key") Examples.never_answers
              [Examples.walked_a; Examples.walked_b] 1 ("b.py", "y = 2")
              Hnd eq_refl)
    as (r & Hr & _ & Hdoc & _).
  exists r. split; [exact Hr | exact Hdoc].
Defined.

End ParallelFacts.


(** ** Progress of the scheduler *)

Module ProgressFacts.

Import Scheduler.

Lemma step_consistent (K : nat) (file_data : list (string * string))
  (s s' : state) :
  step file_data s s' -> consistent K file_data s ->
  consistent K file_data s'.
Proof.
  intros Hstep (Hlen & Hsem & Hold).
  split; [|split; [by eapply SchedulerFacts.step_invariant|]].
  - destruct Hstep; cbn [phases]; by rewrite ?length_insert.
  - destruct Hstep as [s i Hc Hp Hs|s i fp content post Hp Hfd|s Hdone];
      cbn [phases chunk]; intros j p Hj Hjp.
    + rewrite list_lookup_insert_ne in Hjp; [by eapply Hold|].
      unfold in_chunk in Hc. lia.
    + destruct (decide (i = j)) as [->|Hne].
      * rewrite list_lookup_insert_eq in Hjp by (by eapply lookup_lt_Some).
        by injection Hjp as <-.
      * rewrite list_lookup_insert_ne in Hjp by done. by eapply Hold.
    + destruct (decide (j < chunk s)) as [Hlt|Hge]; [by eapply Hold|].
      destruct (Hdone j p) as [r ->]; [unfold in_chunk; lia|done|done].
Qed.

Lemma initial_consistent (K : nat) (file_data : list (string * string)) :
  consistent K file_data (initial K (length file_data)).
Proof.
  split; [|split].
  - unfold initial. cbn [phases]. apply length_replicate.
  - unfold in_flight, initial. cbn [phases sem].
    by rewrite SchedulerFacts.count_replicate_pending.
  - unfold initial. cbn [chunk]. lia.
Qed.

Lemma rtc_consistent (K : nat) (file_data : list (string * string))
  (s s' : state) :
  rtc (step file_data) s s' -> consistent K file_data s ->
  consistent K file_data s'.
Proof.
  induction 1 as [|s s1 s' Hstep _ IH]; [done|].
  intros Hs. apply IH. by eapply step_consistent.
Qed.

Lemma reachable_consistent (K : nat) (file_data : list (string * string))
  (s : state) :
  reachable K file_data s -> consistent K file_data s.
Proof.
  intros Hreach. eapply rtc_consistent; [exact Hreach|].
  apply initial_consistent.
Qed.

Lemma cost_insert (l : list phase) (i : nat) (old new : phase) :
  l !! i = Some old ->
  list_sum (cost <$> <[i := new]> l) + cost old
  = list_sum (cost <$> l) + cost new.
Proof.
  revert i. induction l as [|p l IH]; intros i Hi; [done|].
  destruct i as [|i].
  - injection Hi as ->. simpl. lia.
  - specialize (IH i Hi). change (<[S i:=new]> (p :: l)) with (p :: <[i:=new]> l).
    rewrite !fmap_cons. simpl. lia.
Qed.

Lemma exists_in_flight (l : list phase) :
  0 < length (List.filter is_in_flight l) ->
  exists i, l !! i = Some InFlight.
Proof.
  induction l as [|p l IH]; simpl; [lia|].
  destruct p; simpl; intros H.
  - destruct (IH H) as [i Hi]. by exists (S i).
  - by exists 0.
  - destruct (IH H) as [i Hi]. by exists (S i).
Qed.

Lemma none_in_flight (l : list phase) (i : nat) (p : phase) :
  length (List.filter is_in_flight l) = 0 ->
  l !! i = Some p -> is_in_flight p = false.
Proof.
  revert i. induction l as [|q l IH]; intros i; [done|].
  simpl. destruct (is_in_flight q) eqn:Hq; simpl; [lia|].
  intros H. destruct i as [|i]; simpl.
  - by intros [= <-].
  - by apply IH.
Qed.

Lemma all_finished_none_in_flight (l : list phase) :
  Forall (fun p => is_finished p = true) l ->
  length (List.filter is_in_flight l) = 0.
Proof.
  induction 1 as [|p l Hp _ IH]; [done|].
  simpl. by destruct p.
Qed.

Lemma pending_in_chunk (s : state) :
  (exists i, in_chunk s i /\ phases s !! i = Some Pending)
  \/ (forall i p, in_chunk s i -> phases s !! i = Some p ->
                  is_pending p = false).
Proof.
  destruct (decide (Exists (fun p => is_pending p = true)
                      (take chunk_size (drop (chunk s) (phases s)))))
    as [Hex|Hno].
  - left. apply Exists_exists in Hex as (p & Hin & Hp).
    apply list_elem_of_lookup in Hin as [j Hj].
    apply lookup_take_Some in Hj as [Hj Hlt].
    rewrite lookup_drop in Hj.
    exists (chunk s + j). split; [unfold in_chunk; lia|].
    by destruct p.
  - right. intros i p Hc Hi.
    destruct (is_pending p) eqn:Hp; [|done].
    exfalso. apply Hno. apply Exists_exists. exists p. split; [|done].
    apply list_elem_of_lookup. exists (i - chunk s).
    apply lookup_take_Some. unfold in_chunk in Hc. split; [|lia].
    rewrite lookup_drop. by replace (chunk s + (i - chunk s)) with i by lia.
Qed.

Lemma settled_finished (file_data : list (string * string))
  (session : nat -> string -> CodeIndexer.exchange) (i : nat) (p : phase) :
  is_finished p = true -> settled file_data session i p = p.
Proof. by destruct p. Qed.

Lemma finish_from (K : nat) (file_data : list (string * string))
  (session : nat -> string -> CodeIndexer.exchange) (n : nat) :
  1 <= K ->
  forall s, remaining s < n -> consistent K file_data s ->
  exists s',
    rtc (step file_data) s s'
    /\ all_finished s'
    /\ (forall i p, phases s !! i = Some p ->
          phases s' !! i = Some (settled file_data session i p)).
Proof.
  intros HK. induction n as [|n IH]; intros s Hn Hs; [lia|].
  destruct (decide (all_finished s)) as [Hall|Hnot].
  { exists s. split; [done|]. split; [done|].
    intros i p Hi. rewrite settled_finished; [done|].
    unfold all_finished in Hall. rewrite Forall_lookup in Hall.
    by eapply Hall. }
  pose proof Hs as (Hlen & Hsem & Hold).
  destruct (decide (0 < in_flight s)) as [Hfl|Hfl].
  - (* a request that is out completes *)
    destruct (exists_in_flight _ Hfl) as [i Hi].
    destruct (lookup_lt_is_Some_2 file_data i) as [[fp content] Hfd].
    { rewrite <- Hlen. by eapply lookup_lt_Some. }
    pose proof (step_release file_data s i fp content (session i) Hi Hfd)
      as Hstep.
    set (s1 := mk _ _ _) in Hstep.
    destruct (IH s1) as (s' & Hrun & Hfin & Hres).
    + pose proof (cost_insert (phases s) i InFlight
                    (Finished (CodeIndexer.generate_single_file_summary
                                 fp content (session i))) Hi) as Hc.
      unfold remaining in *. subst s1. cbn [phases chunk] in *.
      rewrite length_insert. simpl in Hc. lia.
    + by eapply step_consistent.
    + exists s'. split; [by eapply rtc_l|]. split; [done|].
      intros j p Hj. destruct (decide (i = j)) as [<-|Hne].
      * rewrite Hi in Hj. injection Hj as <-.
        rewrite (Hres i (Finished (CodeIndexer.generate_single_file_summary
                                     fp content (session i)))).
        -- unfold settled. by rewrite Hfd.
        -- subst s1. cbn [phases]. apply list_lookup_insert_eq.
           by eapply lookup_lt_Some.
      * apply Hres. subst s1. cbn [phases].
        by rewrite list_lookup_insert_ne.
  - assert (Hzero : in_flight s = 0) by lia.
    destruct (pending_in_chunk s) as [(i & Hc & Hi)|Hnone].
    + (* a task of the chunk takes a token *)
      assert (Hsem1 : 0 < sem s) by lia.
      pose proof (step_acquire file_data s i Hc Hi Hsem1) as Hstep.
      set (s1 := mk _ _ _) in Hstep.
      destruct (IH s1) as (s' & Hrun & Hfin & Hres).
      * pose proof (cost_insert (phases s) i Pending InFlight Hi) as Hcost.
        unfold remaining in *. subst s1. cbn [phases chunk] in *.
        rewrite length_insert. simpl in Hcost. lia.
      * by eapply step_consistent.
      * exists s'. split; [by eapply rtc_l|]. split; [done|].
        intros j p Hj. destruct (decide (i = j)) as [<-|Hne].
        -- rewrite Hi in Hj. injection Hj as <-.
           destruct (lookup_lt_is_Some_2 file_data i) as [[fp content] Hfd].
           { rewrite <- Hlen. by eapply lookup_lt_Some. }
           rewrite (Hres i InFlight); [unfold settled; by rewrite Hfd|].
           subst s1. cbn [phases]. apply list_lookup_insert_eq.
           by eapply lookup_lt_Some.
        -- apply Hres. subst s1. cbn [phases].
           by rewrite list_lookup_insert_ne.
    + (* the chunk is done and the next one starts *)
      assert (Hdone : chunk_done s).
      { intros i p Hc Hi. pose proof (Hnone i p Hc Hi) as Hp.
        pose proof (none_in_flight _ i p Hzero Hi) as Hq.
        destruct p; try done. by eexists. }
      pose proof (step_next_chunk file_data s Hdone) as Hstep.
      set (s1 := mk _ _ _) in Hstep.
      destruct (IH s1) as (s' & Hrun & Hfin & Hres).
      * unfold all_finished in Hnot.
        apply not_Forall_Exists in Hnot; [|intros p; apply _].
        apply Exists_exists in Hnot as (p & Hin & Hp).
        apply list_elem_of_lookup in Hin as [i Hi].
        pose proof (lookup_lt_Some _ _ _ Hi) as Hlt.
        assert (chunk s + chunk_size <= i).
        { destruct (decide (i < chunk s)) as [Hl|Hl].
          { exfalso. apply Hp. by eapply Hold. }
          destruct (decide (i < chunk s + chunk_size)) as [Hl'|Hl']; [|lia].
          destruct (Hdone i p) as [r ->]; [unfold in_chunk; lia|done|].
          by destruct Hp. }
        unfold remaining in *. subst s1. cbn [phases chunk] in *.
        unfold chunk_size in *. lia.
      * by eapply step_consistent.
      * exists s'. split; [by eapply rtc_l|]. split; [done|].
        intros j p Hj. by apply Hres.
Qed.

(** X13: with a concurrency limit of at least one, every state a run can
    reach can be continued to a state where every task has finished and all
    tokens are back; a task that had finished keeps its result, and any
    other ends with the result of its own request, whatever the endpoint
    answers. *)
Theorem run_can_always_finish (K : nat) (file_data : list (string * string))
  (session : nat -> string -> CodeIndexer.exchange) (s : state) :
  1 <= K ->
  reachable K file_data s ->
  exists s',
    rtc (step file_data) s s'
    /\ all_finished s'
    /\ sem s' = K
    /\ (forall i p, phases s !! i = Some p ->
          phases s' !! i = Some (settled file_data session i p)).
Proof.
  intros HK Hreach.
  pose proof (reachable_consistent _ _ _ Hreach) as Hs.
  destruct (finish_from K file_data session (S (remaining s)) HK s)
    as (s' & Hrun & Hfin & Hres); [lia|done|].
  exists s'. split; [done|]. split; [done|]. split; [|done].
  destruct (rtc_consistent K file_data s s' Hrun Hs) as (_ & Hsem & _).
  unfold in_flight in Hsem.
  rewrite (all_finished_none_in_flight _ Hfin) in Hsem. lia.
Qed.

Lemma run_can_always_finish_witness :
  1 <= 2
  /\ reachable 2 Examples.three_files Examples.two_in_flight
  /\ exists s',
       rtc (step Examples.three_files) Examples.two_in_flight s'
       /\ all_finished s' /\ sem s' = 2.
Proof.
  split; [lia|]. split; [exact SchedulerFacts.two_in_flight_reachable|].
  destruct (run_can_always_finish 2 Examples.three_files
              Examples.mixed_session Examples.two_in_flight
              ltac:(lia) SchedulerFacts.two_in_flight_reachable)
    as (s' & Hrun & Hfin & Hsem & _).
  exists s'. split; [exact Hrun|]. split; [exact Hfin | exact Hsem].
Defined.

(** X14: with a concurrency limit of zero and at least one file, a run
    never leaves its initial state: no step is possible and no task ever
    finishes. *)
Theorem zero_limit_never_starts (file_data : list (string * string))
  (s : state) :
  file_data <> [] ->
  reachable 0 file_data s ->
  s = initial 0 (length file_data)
  /\ ~ all_finished s
  /\ (forall s', ~ step file_data s s').
Proof.
  intros Hne Hreach.
  assert (Hstuck : forall s', ~ step file_data (initial 0 (length file_data)) s').
  { intros s' Hstep. inversion Hstep as [s0 i Hc Hp Hs|s0 i fp c post Hp Hfd|s0 Hdone];
      subst; unfold initial in *; cbn [phases sem chunk] in *.
    - lia.
    - apply lookup_replicate in Hp as [? _]. done.
    - destruct (Hdone 0 Pending) as [r Hr]; [|..|done].
      + unfold in_chunk, chunk_size. cbn [chunk]. lia.
      + cbn [phases]. apply lookup_replicate. split; [done|].
        destruct file_data; [done|simpl; lia]. }
  assert (Hs : s = initial 0 (length file_data)).
  { unfold reachable in Hreach. inversion Hreach as [|? s1 ? Hstep _]; [done|].
    by apply Hstuck in Hstep. }
  subst s. split; [done|]. split; [|done].
  unfold all_finished, initial. cbn [phases].
  destruct file_data as [|x l]; [done|]. simpl.
  intros H. inversion H as [|? ? Hp _]. done.
Qed.

Lemma zero_limit_never_starts_witness :
  Examples.three_files <> []
  /\ reachable 0 Examples.three_files (initial 0 3)
  /\ ~ all_finished (initial 0 3).
Proof.
  assert (Hne : Examples.three_files <> []) by discriminate.
  assert (Hr : reachable 0 Examples.three_files (initial 0 3))
    by apply rtc_refl.
  split; [exact Hne|]. split; [exact Hr|].
  apply (zero_limit_never_starts Examples.three_files
           (initial 0 3) Hne Hr).
Defined.

End ProgressFacts.


(** ** Range and symmetry of the confidence score *)

Module ConfidenceRange.

Import CodeIndexer SmartSummaryAgent.
Local Open Scope Q_scope.

Lemma length_score_le_1 (text : string) : length_score text <= 1.
Proof. unfold length_score. apply Q.le_min_r. Qed.

Lemma detail_score_le (text : string) : detail_score text <= 0.3.
Proof. unfold detail_score. destruct (any_in _ _); lra. Qed.

Lemma matching_words_le (words : list string) (text : string) :
  (matching_words words text <= length words)%nat.
Proof.
  unfold matching_words. induction words as [|w ws IH]; simpl; [lia|].
  destruct (PyStr.contains w text); simpl; lia.
Qed.

Lemma relevance_score_le_1 (words : list string) (text : string) :
  relevance_score words text <= 1.
Proof.
  unfold relevance_score. destruct words as [|w ws]; [lra|].
  apply Qle_shift_div_r.
  - unfold Qlt. simpl. lia.
  - rewrite Qmult_1_l. rewrite <- Zle_Qle.
    apply inj_le. apply matching_words_le.
Qed.

(** X15: the confidence score is between 0 and 1, for every query and
    every list of summaries. *)
Theorem confidence_in_unit_interval (query : string)
  (summaries : list search_result) :
  0 <= _evaluate_summary_confidence query summaries
  /\ _evaluate_summary_confidence query summaries <= 1.
Proof.
  destruct (decide (summaries = [])) as [->|Hne].
  - change (_evaluate_summary_confidence query []) with 0. lra.
  - rewrite ConfidenceFacts.confidence_unfold by done.
    split; [|apply Q.le_min_r].
    apply Q.min_glb; [|lra].
    set (T := total_confidence (PyStr.lower query) summaries 0).
    assert (0 <= T) by apply ConfidenceFacts.total_nonneg.
    assert (0 <= T / inject_Z (Z.of_nat (length summaries))).
    { apply Qle_shift_div_l; [|lra].
      unfold Qlt. simpl. destruct summaries; [done|]. simpl. lia. }
    unfold boosted. destruct (1 <? length summaries)%nat; lra.
Qed.






End ConfidenceRange.


(** ** The decision of the router *)

Module DecisionFacts.

Import CodeIndexer SmartSummaryAgent.

(** X17: the threshold lowered to 0.4 for structured summaries never
    changes the decision: the summaries answer exactly when the confidence
    reaches the configured threshold or a summary is structured. *)
Theorem lowered_threshold_is_redundant (self : SmartSummaryAgent.t)
  (confidence : Q) (summary_results : list search_result) :
  answers_from_summaries self confidence summary_results
  = Qle_bool (confidence_threshold self) confidence
    || has_structured_summaries summary_results.
Proof.
  unfold answers_from_summaries, effective_threshold.
  destruct (has_structured_summaries summary_results);
    [by rewrite !orb_true_r | reflexivity].
Qed.

(** X18: [query_with_summary_first] returns an answer marked as coming
    from the summaries only when the search found nothing and the
    threshold is zero or less; the answer then has an empty context. *)
Theorem summary_answer_only_without_results (query_fn : ranking)
  (self : SmartSummaryAgent.t) (query : string) (n : Z) (response : string) :
  (query_with_summary_first query_fn self query n).2 = Return (response, true) ->
  exists ix,
    indexer self = Some ix
    /\ search query_fn ix query n = []
    /\ (confidence_threshold self <= 0)%Q
    /\ response = _generate_summary_response query "".
Proof.
  unfold query_with_summary_first.
  destruct (indexer self) as [ix|] eqn:Hix; [|simpl; congruence].
  destruct (search query_fn ix query n) as [|r rs] eqn:Hs.
  - destruct (answers_from_summaries _ _ _) eqn:Hans; simpl; [|congruence].
    intros [= <-]. exists ix. split; [done|]. split; [done|]. split; [|done].
    unfold answers_from_summaries, effective_threshold in Hans. simpl in Hans.
    rewrite orb_false_r in Hans. by apply Qle_bool_iff in Hans.
  - destruct (answers_from_summaries _ _ _); simpl; [|congruence].
    rewrite RouterFacts.build_context_nonempty. simpl. congruence.
Qed.

Lemma summary_answer_only_without_results_witness :
  (query_with_summary_first Examples.first_records
     (Examples.agent_over (Some Examples.empty_indexer) 0) "q" 5).2
  = Return (_generate_summary_response "q" "", true)
  /\ exists ix,
       indexer (Examples.agent_over (Some Examples.empty_indexer) 0) = Some ix
       /\ search Examples.first_records ix "q" 5 = [].
Proof.
  assert (H : (query_with_summary_first Examples.first_records
                 (Examples.agent_over (Some Examples.empty_indexer) 0) "q" 5).2
              = Return (_generate_summary_response "q" "", true))
    by (vm_compute; reflexivity).
  split; [exact H|].
  destruct (summary_answer_only_without_results
              Examples.first_records
              (Examples.agent_over (Some Examples.empty_indexer) 0) "q" 5
              (_generate_summary_response "q" "") H)
    as (ix & Hix & Hs & _).
  exists ix. split; [exact Hix | exact Hs].
Defined.

(** X19: with a positive threshold, a query for which the search finds
    nothing is answered by the repository fallback, marked as such, and the
    agent is left unchanged. *)
Theorem no_results_escalate (query_fn : ranking) (self : SmartSummaryAgent.t)
  (ix : CodeIndexer.t) (query : string) (n : Z) :
  indexer self = Some ix ->
  search query_fn ix query n = [] ->
  (0 < confidence_threshold self)%Q ->
  query_with_summary_first query_fn self query n
  = (self, Return (_fallback_to_repository self query, false)).
Proof.
  intros Hix Hs Hthr. unfold query_with_summary_first. rewrite Hix, Hs.
  assert (answers_from_summaries self (_evaluate_summary_confidence query []) []
          = false) as ->; [|done].
  unfold answers_from_summaries, effective_threshold. simpl.
  rewrite orb_false_r. apply not_true_is_false. intros H.
  apply Qle_bool_iff in H. lra.
Qed.

Lemma no_results_escalate_witness :
  search Examples.first_records Examples.empty_indexer "q" 5 = []
  /\ (0 < 7 # 10)%Q
  /\ (query_with_summary_first Examples.first_records
        (Examples.agent_over (Some Examples.empty_indexer) (7 # 10)) "q" 5).2
     = Return (_fallback_to_repository
                 (Examples.agent_over (Some Examples.empty_indexer) (7 # 10))
                 "q", false).
Proof.
  assert (Hs : search Examples.first_records Examples.empty_indexer "q" 5 = [])
    by (vm_compute; reflexivity).
  assert (Ht : (0 < 7 # 10)%Q) by reflexivity.
  split; [exact Hs|]. split; [exact Ht|].
  rewrite (no_results_escalate Examples.first_records
             (Examples.agent_over (Some Examples.empty_indexer) (7 # 10))
             Examples.empty_indexer "q" 5 eq_refl Hs Ht).
  reflexivity.
Defined.

End DecisionFacts.


(** ** The tools of the server *)

Module ToolFacts.

Import CodeIndexer McpServer.

Lemma dict_get_set_eq (k : string) (v : node) (items : list (string * node)) :
  dict_get k (dict_set k v items) = Some v.
Proof.
  induction items as [|[k' v'] items IH]; simpl.
  - by rewrite String.eqb_refl.
  - destruct (String.eqb k' k) eqn:E; simpl; by rewrite E.
Qed.

Lemma dict_get_set_ne (k k' : string) (v : node)
  (items : list (string * node)) :
  k <> k' -> dict_get k' (dict_set k v items) = dict_get k' items.
Proof.
  intros Hne. induction items as [|[k0 v0] items IH]; simpl.
  - destruct (String.eqb k k') eqn:E; [|done].
    by apply String.eqb_eq in E.
  - destruct (String.eqb k0 k) eqn:E; simpl; [|by rewrite IH].
    apply String.eqb_eq in E. subst k0.
    destruct (String.eqb k k') eqn:E'; [|done].
    by apply String.eqb_eq in E'.
Qed.

Lemma dict_set_keeps (k k' : string) (v : node)
  (items : list (string * node)) :
  is_Some (dict_get k' items) -> is_Some (dict_get k' (dict_set k v items)).
Proof.
  destruct (decide (k = k')) as [->|Hne].
  - by rewrite dict_get_set_eq.
  - by rewrite dict_get_set_ne.
Qed.

(** Adding a file keeps the keys of a dictionary and adds its first
    directory. *)
Lemma add_file_keys (dirs : list string) (file : string)
  (items : list (string * node)) (n : node) :
  add_file dirs file (Dict items) = Return n ->
  exists items',
    n = Dict items'
    /\ (forall k, is_Some (dict_get k items) -> is_Some (dict_get k items'))
    /\ (forall d rest, dirs = d :: rest -> is_Some (dict_get d items')).
Proof.
  destruct dirs as [|d rest]; simpl.
  - destruct (dict_get "__files__" items) as [[sub|names]|] eqn:E;
      intros [= <-]; eexists; (split; [done|]);
      (split; [intros k; apply dict_set_keeps|done]).
  - set (items1 := match dict_get d items with
                   | Some _ => items | None => dict_set d (Dict []) items
                   end).
    destruct (add_file rest file _) as [e|sub]; simpl; [done|].
    intros [= <-]. eexists. split; [done|]. split.
    + intros k Hk. apply dict_set_keeps. subst items1.
      destruct (dict_get d items); [done|]. by apply dict_set_keeps.
    + intros d' rest' [= <- <-]. by rewrite dict_get_set_eq.
Qed.

Lemma add_file_dict (dirs : list string) (file : string) (n n' : node) :
  add_file dirs file n = Return n' -> exists items, n = Dict items.
Proof. destruct n as [items|names]; [eauto|]. by destruct dirs. Qed.

Lemma build_from_raise (e : pyexn) (files : list string) :
  foldl tree_step (Raise e) files = Raise e.
Proof. induction files as [|f files IH]; [done|]. simpl. exact IH. Qed.

Lemma build_from_keys (files : list string) (items : list (string * node))
  (n : node) :
  foldl tree_step (Return (Dict items)) files = Return n ->
  exists items',
    n = Dict items'
    /\ (forall k, is_Some (dict_get k items) -> is_Some (dict_get k items'))
    /\ (forall f d rest, f ∈ files ->
          PyStr.split_char "/" f = d :: rest -> rest <> [] ->
          is_Some (dict_get d items')).
Proof.
  revert items. induction files as [|f files IH]; intros items; simpl.
  - intros [= <-]. exists items. split; [done|]. split; [done|].
    intros f d rest Hin. by apply elem_of_nil in Hin.
  - destruct (add_file _ _ (Dict items)) as [e|n1] eqn:E.
    { by rewrite build_from_raise. }
    destruct (add_file_keys _ _ _ _ E) as (items1 & -> & Hkeep & Hnew).
    intros Hrun. destruct (IH _ Hrun) as (items' & -> & Hkeep' & Hnew').
    exists items'. split; [done|]. split; [by eauto|].
    intros f' d rest Hin Hsplit Hrest.
    apply elem_of_cons in Hin as [->|Hin]; [|by eauto].
    apply Hkeep'. apply (Hnew d (removelast rest)).
    rewrite Hsplit. destruct rest; [done|]. done.
Qed.

(** A dictionary with one directory is formatted by formatting the same
    dictionary again: at every depth the interpreter allows, the recursion
    is cut off. *)
Lemma format_tree_loops (fuel : nat) (key : string) (v : node)
  (prefix : string) (is_last : bool) :
  key <> "__files__" ->
  format_tree fuel (Dict [(key, v)]) prefix is_last false
  = Raise recursion_error.
Proof.
  intros Hkey. revert prefix is_last.
  induction fuel as [|fuel IH]; intros prefix is_last; [done|].
  assert (Hneq : String.eqb key "__files__" = false).
  { by apply String.eqb_neq. }
  cbn [format_tree dict_get]. rewrite Hneq.
  cbn [bind fmap list_fmap fst List.filter negb].
  rewrite Hneq. cbn [negb imap foldl bind dict_get].
  rewrite String.eqb_refl. cbn [default from_option id]. by rewrite IH.
Qed.

Lemma foldl_bind_raise {A B : Type} (f : string -> A -> result string)
  (e : pyexn) (l : list B) (g : B -> A) :
  foldl (fun acc x => do text <- acc; f text (g x)) (Raise e) l = Raise e.
Proof. induction l as [|x l IH]; [done|]. simpl. exact IH. Qed.

Lemma dict_get_elem (k : string) (v : node) (items : list (string * node)) :
  dict_get k items = Some v -> (k, v) ∈ items.
Proof.
  induction items as [|[k' v'] items IH]; simpl; [done|].
  destruct (String.eqb k' k) eqn:E.
  - apply String.eqb_eq in E. intros [= <-]. subst. apply list_elem_of_here.
  - intros H. apply list_elem_of_further. by apply IH.
Qed.

Lemma dict_set_elem (k : string) (v : node) (items : list (string * node))
  (k' : string) (v' : node) :
  (k', v') ∈ dict_set k v items ->
  (k' = k /\ v' = v) \/ (k', v') ∈ items.
Proof.
  induction items as [|[k0 v0] items IH]; simpl.
  - intros H. apply list_elem_of_singleton in H. injection H as -> ->. by left.
  - destruct (String.eqb k0 k) eqn:E.
    + apply String.eqb_eq in E. subst k0.
      intros H. apply elem_of_cons in H as [[= -> ->]|H]; [by left|].
      right. by apply list_elem_of_further.
    + intros H. apply elem_of_cons in H as [[= -> ->]|H].
      * right. apply list_elem_of_here.
      * destruct (IH H) as [?|?]; [by left|].
        right. by apply list_elem_of_further.
Qed.

(** With no directory called [__files__], adding a file to a tree of the
    expected shape succeeds and keeps the shape. *)
Lemma add_file_shape (dirs : list string) (file : string) (n : node) :
  tree_shape n ->
  Forall (fun d => d <> "__files__") dirs ->
  exists n', add_file dirs file n = Return n' /\ tree_shape n'.
Proof.
  revert n. induction dirs as [|d rest IH]; intros n Hn Hdirs;
    destruct Hn as [items Hfiles Hdicts].
  - cbn [add_file].
    destruct (dict_get "__files__" items) as [[sub|names]|] eqn:E.
    + apply dict_get_elem in E. by destruct (Hfiles _ E) as [names ?].
    + eexists. split; [done|]. constructor.
      * intros v Hin. apply dict_set_elem in Hin as [[_ ->]|Hin]; eauto.
      * intros k v Hin Hk.
        apply dict_set_elem in Hin as [[-> _]|Hin]; [done|eauto].
    + eexists. split; [done|]. constructor.
      * intros v Hin. apply dict_set_elem in Hin as [[_ ->]|Hin]; eauto.
      * intros k v Hin Hk.
        apply dict_set_elem in Hin as [[-> _]|Hin]; [done|eauto].
  - apply Forall_cons in Hdirs as [Hd Hrest].
    cbn [add_file].
    set (items1 := match dict_get d items with
                   | Some _ => items | None => dict_set d (Dict []) items
                   end).
    assert (Hempty : tree_shape (Dict [])).
    { constructor; [intros v H|intros k v H _]; by apply elem_of_nil in H. }
    assert (Hfiles1 : forall v, ("__files__", v) ∈ items1 ->
                                exists names, v = Files names).
    { intros v Hin. subst items1.
      destruct (dict_get d items); [eauto|].
      apply dict_set_elem in Hin as [[Heq _]|Hin]; [done|eauto]. }
    assert (Hdicts1 : forall k v, (k, v) ∈ items1 -> k <> "__files__" ->
                                  tree_shape v).
    { intros k v Hin Hk. subst items1.
      destruct (dict_get d items); [eauto|].
      apply dict_set_elem in Hin as [[_ ->]|Hin]; [done|eauto]. }
    assert (Hsub : tree_shape (default (Dict []) (dict_get d items1))).
    { destruct (dict_get d items1) as [v|] eqn:E; simpl; [|done].
      apply dict_get_elem in E. eauto. }
    destruct (IH _ Hsub Hrest) as (sub & -> & Hshape).
    cbn [bind]. eexists. split; [done|]. constructor.
    + intros v Hin. apply dict_set_elem in Hin as [[Heq _]|Hin]; [done|eauto].
    + intros k v Hin Hk.
      apply dict_set_elem in Hin as [[_ ->]|Hin]; [done|eauto].
Qed.

Lemma removelast_subset (l : list string) (x : string) :
  x ∈ removelast l -> x ∈ l.
Proof.
  induction l as [|a l IH]; [done|]. simpl.
  destruct l as [|b l]; [by intros H; apply elem_of_nil in H|].
  intros H. apply elem_of_cons in H as [->|H]; [apply list_elem_of_here|].
  apply list_elem_of_further. by apply IH.
Qed.

Lemma build_from_shape (files : list string) (n : node) :
  tree_shape n ->
  Forall (fun f => ~ "__files__" ∈ PyStr.split_char "/" f) files ->
  exists tree, foldl tree_step (Return n) files = Return tree.
Proof.
  revert n. induction files as [|f files IH]; intros n Hn Hfiles; [by eexists|].
  apply Forall_cons in Hfiles as [Hf Hfiles]. simpl.
  destruct (add_file_shape (removelast (PyStr.split_char "/" f))
              (List.last (PyStr.split_char "/" f) "") n Hn)
    as (n' & -> & Hn').
  { apply Forall_forall. intros d Hd ->. apply Hf.
    by apply removelast_subset. }
  by apply IH.
Qed.

(** X20: when a listed file is in a directory (and no path has a
    component called [__files__]), [list_project_structure] raises the
    recursion error at every recursion depth the interpreter allows:
    [format_tree] formats the dictionary of a directory by formatting the
    same dictionary again. *)
Theorem directories_exhaust_recursion (fuel : nat)
  (indexer instance : option CodeIndexer.t) (connect : result CodeIndexer.t)
  (ix : CodeIndexer.t) (f d : string) (rest : list string) :
  resolve_indexer indexer instance connect = Some ix ->
  Forall (fun f => ~ "__files__" ∈ PyStr.split_char "/" f)
         (CodeIndexer.get_all_files ix) ->
  f ∈ CodeIndexer.get_all_files ix ->
  PyStr.split_char "/" f = d :: rest -> rest <> [] ->
  list_project_structure fuel indexer instance connect
  = (Some ix, Raise recursion_error).
Proof.
  intros Hix Hfiles Hin Hsplit Hrest.
  unfold list_project_structure. rewrite Hix.
  destruct (CodeIndexer.get_all_files ix) as [|f0 files] eqn:Hall.
  { by apply elem_of_nil in Hin. }
  rewrite <- Hall in *. clear Hall f0 files.
  f_equal. unfold build_tree.
  destruct (build_from_shape (CodeIndexer.get_all_files ix) (Dict []))
    as [tree Htree]; [|done|].
  { constructor; [intros v H|intros k v H _]; by apply elem_of_nil in H. }
  rewrite Htree. cbn [bind].
  destruct (build_from_keys _ _ _ Htree) as (items & -> & _ & Hnew).
  assert (Hd : d <> "__files__").
  { intros ->. rewrite Forall_forall in Hfiles. apply (Hfiles f Hin).
    rewrite Hsplit. apply list_elem_of_here. }
  destruct (Hnew f d rest Hin Hsplit Hrest) as [v Hv].
  apply dict_get_elem in Hv.
  assert (Hkeys : d ∈ List.filter (fun k => negb (String.eqb k "__files__"))
                        items.*1).
  { apply list_elem_of_In, List.filter_In. split.
    - apply list_elem_of_In, list_elem_of_fmap. by exists (d, v).
    - apply negb_true_iff. by apply String.eqb_neq. }
  destruct fuel as [|fuel]; [done|]. cbn [format_tree bind].
  destruct (List.filter _ items.*1) as [|k0 keys] eqn:Hk.
  { by apply elem_of_nil in Hkeys. }
  assert (Hk0 : k0 <> "__files__").
  { assert (H0 : List.In k0 (List.filter
                    (fun k => negb (String.eqb k "__files__")) items.*1)).
    { rewrite Hk. by left. }
    apply List.filter_In in H0 as [_ H0].
    apply negb_true_iff in H0. by apply String.eqb_neq. }
  cbn [imap foldl bind]. rewrite (format_tree_loops fuel k0 _ _ _ Hk0).
  cbn [bind].
  match goal with
  | |- context [foldl ?f (Raise ?e) ?l] =>
      replace (foldl f (Raise e) l) with (@Raise string e)
  end; [done|].
  generalize (imap (pair ∘ S) keys). intros l.
  induction l as [|[i key] l IH]; [done|]. simpl. exact IH.
Qed.

Lemma directories_exhaust_recursion_witness :
  "src/b.py" ∈ CodeIndexer.get_all_files Examples.nested_indexer
  /\ PyStr.split_char "/" "src/b.py" = ["src"; "b.py"]
  /\ list_project_structure 1000 (Some Examples.nested_indexer) None
       (Raise (Exception "no store"))
     = (Some Examples.nested_indexer, Raise recursion_error).
Proof.
  assert (Hin : "src/b.py" ∈ CodeIndexer.get_all_files Examples.nested_indexer).
  { apply (bool_decide_unpack _). vm_compute. exact I. }
  split; [exact Hin|]. split; [reflexivity|].
  apply (directories_exhaust_recursion 1000
           (Some Examples.nested_indexer) None (Raise (Exception "no store"))
           Examples.nested_indexer "src/b.py" "src" ["b.py"]).
  - reflexivity.
  - apply (bool_decide_unpack _). vm_compute. exact I.
  - exact Hin.
  - reflexivity.
  - discriminate.
Defined.

Lemma build_flat (files names : list string) :
  Forall (fun f => PyStr.count_char "/" f = 0) files ->
  foldl tree_step (Return (Dict [("__files__", Files names)])) files
  = Return (Dict [("__files__", Files (names ++ files))]).
Proof.
  revert names. induction files as [|f files IH]; intros names Hflat.
  - by rewrite app_nil_r.
  - apply Forall_cons in Hflat as [Hf Hflat]. simpl.
    rewrite (TextFacts.split_char_piece _ _ Hf). simpl.
    rewrite (IH _ Hflat). by rewrite <- app_assoc.
Qed.

(** X21: when every listed file is at the top level,
    [list_project_structure] returns the heading followed by one line per
    file, in order, the last one with the closing branch. *)
Theorem flat_project_is_listed (fuel : nat)
  (indexer instance : option CodeIndexer.t) (connect : result CodeIndexer.t)
  (ix : CodeIndexer.t) :
  resolve_indexer indexer instance connect = Some ix ->
  CodeIndexer.get_all_files ix <> [] ->
  Forall (fun f => PyStr.count_char "/" f = 0) (CodeIndexer.get_all_files ix) ->
  list_project_structure (S fuel) indexer instance connect
  = (Some ix,
     Return ("Project Structure:" +:+ String "010" (String "010" "")
             +:+ file_lines "" "" (CodeIndexer.get_all_files ix))).
Proof.
  intros Hix Hne Hflat. unfold list_project_structure. rewrite Hix.
  destruct (CodeIndexer.get_all_files ix) as [|f files] eqn:Hall; [done|].
  f_equal. unfold build_tree.
  apply Forall_cons in Hflat as [Hf Hflat]. cbn [foldl].
  assert (Hfirst : tree_step (Return (Dict [])) f
                   = Return (Dict [("__files__", Files [f])])).
  { unfold tree_step. cbn [bind]. by rewrite (TextFacts.split_char_piece _ _ Hf). }
  rewrite Hfirst, (build_flat files [f] Hflat). done.
Qed.

Lemma flat_project_is_listed_witness :
  CodeIndexer.get_all_files Examples.flat_indexer <> []
  /\ (list_project_structure 1 (Some Examples.flat_indexer) None
        (Raise (Exception "no store"))).2
     = Return ("Project Structure:" +:+ String "010" (String "010" "")
               +:+ "├── a.py" +:+ String "010" ""
               +:+ "└── b.py" +:+ String "010" "").
Proof.
  assert (Hne : CodeIndexer.get_all_files Examples.flat_indexer <> [])
    by discriminate.
  split; [exact Hne|].
  rewrite (flat_project_is_listed 0 (Some Examples.flat_indexer) None
             (Raise (Exception "no store")) Examples.flat_indexer
             eq_refl Hne).
  - reflexivity.
  - apply (bool_decide_unpack _). vm_compute. exact I.
Defined.

(** X22: [explain_function] and [explain_class] return a text only when
    the search finds nothing; with any result they raise [KeyError] for the
    key [content], which no search result has. *)
Theorem explain_raises_key_error {A : Type} (keyword what What : string)
  (query_fn : ranking) (ast_find : string -> string -> parse_outcome A)
  (render : string -> search_result -> A -> result string)
  (indexer instance : option CodeIndexer.t) (connect : result CodeIndexer.t)
  (ix : CodeIndexer.t) (name : string) :
  resolve_indexer indexer instance connect = Some ix ->
  explain keyword what What query_fn ast_find render
          indexer instance connect name
  = (Some ix,
     match search query_fn ix (keyword +:+ " " +:+ name) 10 with
     | [] => Return (What +:+ " '" +:+ name +:+ "' not found in the codebase.")
     | _ :: _ => Raise (KeyError "content")
     end).
Proof.
  intros Hix. unfold explain. rewrite Hix.
  by destruct (search query_fn ix _ 10) as [|r rs].
Qed.

Lemma explain_raises_key_error_witness :
  (explain_function Examples.first_records Examples.never_parses
     Examples.render_name (Some Examples.auth_indexer) None
     (Raise (Exception "no store")) "login").2
  = Raise (KeyError "content").
Proof.
  unfold explain_function.
  rewrite (explain_raises_key_error "def" "function" "Function"
             Examples.first_records Examples.never_parses Examples.render_name
             (Some Examples.auth_indexer) None (Raise (Exception "no store"))
             Examples.auth_indexer "login" eq_refl).
  vm_compute. reflexivity.
Defined.



End ToolFacts.


(** ** Chunking *)

Module ChunkFacts.

Import RepositoryIngestor.

Section Chunks.

Variable md5_hexdigest : string -> string.

Lemma chunks_nonempty (n : nat) (path text : string) :
  List.map (chunk_at md5_hexdigest n path (PyStr.split_char "010" text))
           (range_step (length (PyStr.split_char "010" text)) n) <> [].
Proof.
  pose proof (TextFacts.split_char_nonempty "010" text) as Hne.
  unfold range_step.
  by destruct (PyStr.split_char "010" text) as [|w ws].
Qed.

(** X24: with a positive chunk size [chunk_file_content] returns at least
    one chunk, and the contents of the chunks joined by newlines are the
    content of the file. *)
Theorem chunks_join_to_content (chunk_size : Z) (path text : string) :
  (0 < chunk_size)%Z ->
  exists chunks,
    chunk_file_content md5_hexdigest chunk_size path text = Return chunks
    /\ chunks <> []
    /\ PyStr.join (String "010" "") (content <$> chunks) = text.
Proof.
  intros Hpos. unfold chunk_file_content.
  destruct (chunk_size =? 0)%Z eqn:E0; [lia|].
  destruct (chunk_size <? 0)%Z eqn:E1; [lia|].
  eexists. split; [done|]. split; [by apply chunks_nonempty|].
  - rewrite <- list_fmap_compose.
    unfold range_step.
    erewrite (list_fmap_ext _ (fun i => PyStr.join (String "010" "")
                (take (Z.to_nat chunk_size)
                      (drop i (PyStr.split_char "010" text))))).
    + change (@fmap list _ _ _ ?f ?l) with (List.map f l).
      rewrite TextFacts.join_chunks by lia.
      rewrite drop_0. apply TextFacts.join_split_char.
    + intros k i _. unfold compose, chunk_at. cbn [content].
      by rewrite PyFacts.slice_plus.
Qed.

(** X25: with a positive chunk size, chunk [k] starts at line
    [k * chunk_size + 1] and ends at line [(k + 1) * chunk_size] or at the
    last line, whichever comes first; it is not empty, its content has
    exactly the lines of that range, and so at most [chunk_size] lines. *)
Theorem chunks_tile_the_lines (chunk_size : Z) (path text : string)
  (chunks : list CodeChunk) (k : nat) (c : CodeChunk) :
  (0 < chunk_size)%Z ->
  chunk_file_content md5_hexdigest chunk_size path text = Return chunks ->
  chunks !! k = Some c ->
  start_line c = (Z.of_nat k * chunk_size + 1)%Z
  /\ end_line c = Z.min (Z.of_nat (S k) * chunk_size)
                        (FileSummary.count_lines text)
  /\ (start_line c <= end_line c)%Z
  /\ FileSummary.count_lines (content c)
     = (end_line c - start_line c + 1)%Z
  /\ (FileSummary.count_lines (content c) <= chunk_size)%Z.
Proof.
  intros Hpos. unfold chunk_file_content.
  destruct (chunk_size =? 0)%Z eqn:E0; [lia|].
  destruct (chunk_size <? 0)%Z eqn:E1; [lia|].
  intros [= <-] Hk.
  change (List.map ?f ?l) with (f <$> l) in Hk.
  apply list_lookup_fmap_Some in Hk as (i & -> & Hi).
  unfold range_step in Hi.
  apply TextFacts.range_from_lookup in Hi as [-> Hlt].
  set (lines := PyStr.split_char "010" text) in *.
  set (n := Z.to_nat chunk_size) in *.
  assert (Hn : chunk_size = Z.of_nat n) by lia.
  assert (Hlines : FileSummary.count_lines (content
            (chunk_at md5_hexdigest n path lines (0 + k * n)))
          = Z.of_nat (length (take n (drop (k * n) lines)))).
  { unfold FileSummary.count_lines, chunk_at. cbn [content].
    rewrite PyFacts.slice_plus. simpl Nat.add.
    rewrite TextFacts.split_char_join; [done| |].
    - intros H. apply (f_equal length) in H.
      rewrite length_take, length_drop in H. simpl in H. lia.
    - apply Forall_take, Forall_drop, TextFacts.split_char_pieces. }
  rewrite Hlines. rewrite length_take, length_drop.
  unfold chunk_at. cbn [start_line end_line].
  unfold FileSummary.count_lines. fold lines. nia.
Qed.

(** X26: [chunk_file_content] returns chunks exactly for a positive chunk
    size: a size of zero makes [range] raise [ValueError], and a negative
    size returns no chunk, whatever the content. *)
Theorem chunks_iff_positive_size (chunk_size : Z) (path text : string) :
  ((exists chunks,
      chunk_file_content md5_hexdigest chunk_size path text = Return chunks
      /\ chunks <> [])
   <-> (0 < chunk_size)%Z)
  /\ (chunk_size = 0%Z ->
      chunk_file_content md5_hexdigest chunk_size path text
      = Raise (ValueError "range() arg 3 must not be zero"))
  /\ ((chunk_size < 0)%Z ->
      chunk_file_content md5_hexdigest chunk_size path text = Return []).
Proof.
  unfold chunk_file_content.
  destruct (chunk_size =? 0)%Z eqn:E0; [|destruct (chunk_size <? 0)%Z eqn:E1].
  - split; [|split; [done|lia]].
    split; [by intros (chunks & Hrun & _)|lia].
  - split; [|split; [lia|done]].
    split; [|lia]. by intros (chunks & [= <-] & Hne).
  - split; [|split; lia].
    split; [lia|]. intros _. eexists. split; [done|]. by apply chunks_nonempty.
Qed.

End Chunks.

Lemma chunks_tile_the_lines_witness :
  exists chunks c,
    chunk_file_content id 2 "f.py"
      ("a" +:+ String "010" "b" +:+ String "010" "c") = Return chunks
    /\ chunks !! 1 = Some c
    /\ start_line c = 3%Z /\ end_line c = 3%Z.
Proof.
  destruct (chunk_file_content id 2 "f.py"
              ("a" +:+ String "010" "b" +:+ String "010" "c"))
    as [e|chunks] eqn:Hrun; [vm_compute in Hrun; discriminate Hrun|].
  destruct (chunks !! 1) as [c|] eqn:Hc.
  - exists chunks, c. split; [reflexivity|]. split; [exact Hc|].
    destruct (chunks_tile_the_lines id 2 "f.py"
                ("a" +:+ String "010" "b" +:+ String "010" "c")
                chunks 1 c ltac:(lia) Hrun Hc) as (Hs & He & _).
    split; [exact Hs | exact He].
  - exfalso. vm_compute in Hrun. injection Hrun as <-. discriminate Hc.
Defined.

Lemma chunks_join_to_content_witness :
  (0 < 2)%Z
  /\ exists chunks,
       chunk_file_content id 2 "f.py"
         ("a" +:+ String "010" "b" +:+ String "010" "c") = Return chunks
       /\ PyStr.join (String "010" "") (content <$> chunks)
          = "a" +:+ String "010" "b" +:+ String "010" "c".
Proof.
  split; [lia|].
  destruct (chunks_join_to_content id 2 "f.py"
              ("a" +:+ String "010" "b" +:+ String "010" "c") ltac:(lia))
    as (chunks & Hrun & _ & Hjoin).
  exists chunks. split; [exact Hrun | exact Hjoin].
Defined.

End ChunkFacts.
